(** * Multiple_Doc_QA: the extraction pipeline and the answer generator

    A shallow embedding of [backend/schema.py], [backend/processors.py]
    and [backend/agent.py], followed by the two endpoints of
    [backend/api.py] and the start-up routines of [main.py] and
    [backend/__init__.py].

    - Python [str] values are [string]s whose characters are the code
      points below 256; [len], slicing, [lower], [strip], [split],
      [join], [replace], [in] and [os.path.splitext] are transcribed from
      their CPython behaviour on that range.
    - Everything the code asks of the outside (pandas, PyPDF2, docx2txt,
      pypandoc, the file system, the environment, the Groq client) is a
      field of the record [World]; every such request is also appended
      to a trace of [event]s, so that "is never called" is a statement
      about the trace.
    - Python exceptions are values of [exn]; a computation is a pair of
      an outcome ([inl] an exception, [inr] a value) and its trace.
    - [print] and [logging] output is not part of the model. *)

From Stdlib Require Import String Ascii List ZArith NArith Lia Bool.
Import ListNotations.
Local Open Scope string_scope.
Local Open Scope Z_scope.

(** ** Python strings *)

Module PyStr.

Definition nl : string := String "010"%char "".
Definition dq : string := String "034"%char "".

Definition len (s : string) : Z := Z.of_nat (String.length s).

Definition is_empty (s : string) : bool :=
  match s with EmptyString => true | String _ _ => false end.

(** [str.isspace] of one code point below 256. *)
Definition isspace (c : ascii) : bool :=
  let n := N_of_ascii c in
  (((9 <=? n) && (n <=? 13)) || ((28 <=? n) && (n <=? 32))
   || (n =? 133) || (n =? 160))%N.

(** [str.lower] of one code point below 256. *)
Definition lower_char (c : ascii) : ascii :=
  let n := N_of_ascii c in
  if (((65 <=? n) && (n <=? 90))
      || ((192 <=? n) && (n <=? 222) && negb (n =? 215)))%N
  then ascii_of_N (n + 32) else c.

Fixpoint lower (s : string) : string :=
  match s with
  | EmptyString => EmptyString
  | String c s' => String (lower_char c) (lower s')
  end.

Fixpoint lstrip (s : string) : string :=
  match s with
  | EmptyString => EmptyString
  | String c s' => if isspace c then lstrip s' else s
  end.

Fixpoint rstrip (s : string) : string :=
  match s with
  | EmptyString => EmptyString
  | String c s' =>
      let r := rstrip s' in
      if isspace c && is_empty r then EmptyString else String c r
  end.

(** [s.strip()] *)
Definition strip (s : string) : string := rstrip (lstrip s).

(** [s[:n]] for [0 <= n] *)
Fixpoint take (n : nat) (s : string) : string :=
  match n, s with
  | S k, String c s' => String c (take k s')
  | _, _ => EmptyString
  end.

(** [s[n:]] for [0 <= n] *)
Fixpoint drop (n : nat) (s : string) : string :=
  match n, s with
  | S k, String _ s' => drop k s'
  | _, _ => s
  end.

Definition slice_to (n : Z) (s : string) : string := take (Z.to_nat n) s.
Definition slice_from (n : Z) (s : string) : string := drop (Z.to_nat n) s.

(** [sub in s] *)
Fixpoint contains (sub s : string) : bool :=
  String.prefix sub s
  || match s with
     | EmptyString => false
     | String _ s' => contains sub s'
     end.

(** [x in [a, b, ...]] on strings *)
Fixpoint in_list (x : string) (l : list string) : bool :=
  match l with
  | [] => false
  | y :: l' => (x =? y)%string || in_list x l'
  end.

(** [s.split()]: the maximal runs of non-whitespace characters. *)
Fixpoint split_ws (cur s : string) : list string :=
  match s with
  | EmptyString => if is_empty cur then [] else [cur]
  | String c s' =>
      if isspace c
      then (if is_empty cur then split_ws "" s' else cur :: split_ws "" s')
      else split_ws (cur ++ String c "") s'
  end.

Definition split (s : string) : list string := split_ws "" s.

(** [sep.join(l)] *)
Fixpoint join (sep : string) (l : list string) : string :=
  match l with
  | [] => ""
  | [x] => x
  | x :: l' => x ++ sep ++ join sep l'
  end.

(** [s.replace(old, new)] for a non-empty [old]: occurrences are found
    left to right and do not overlap; [skip] counts the characters of
    the last occurrence that are still to be passed over. *)
Fixpoint replace_go (old new : string) (skip : nat) (s : string) : string :=
  match s with
  | EmptyString => EmptyString
  | String c s' =>
      match skip with
      | S k => replace_go old new k s'
      | O =>
          if String.prefix old s
          then new ++ replace_go old new (String.length old - 1) s'
          else String c (replace_go old new 0 s')
      end
  end.

Definition replace (old new s : string) : string := replace_go old new 0 s.

(** [s.rfind(c)] for a single character: the last index, or -1. *)
Fixpoint rfind_go (c : ascii) (s : string) (i : Z) (last : Z) : Z :=
  match s with
  | EmptyString => last
  | String d s' => rfind_go c s' (i + 1) (if Ascii.eqb d c then i else last)
  end.

Definition rfind (c : ascii) (s : string) : Z := rfind_go c s 0 (-1).

(** The loop of [genericpath._splitext] that passes over leading dots:
    [true] when some character of [p[i:i+n]] is not the extension
    separator. *)
Fixpoint has_non_dot (p : string) (n : nat) : bool :=
  match n, p with
  | S k, String c p' => negb (Ascii.eqb c ".") || has_non_dot p' k
  | _, _ => false
  end.

(** [genericpath._splitext(p, sep, altsep, '.')] *)
Definition splitext_generic (sep : ascii) (altsep : option ascii)
    (p : string) : string * string :=
  let sepIndex := rfind sep p in
  let sepIndex :=
    match altsep with
    | Some a => Z.max sepIndex (rfind a p)
    | None => sepIndex
    end in
  let dotIndex := rfind "." p in
  if dotIndex >? sepIndex
  then
    let filenameIndex := sepIndex + 1 in
    if has_non_dot (slice_from filenameIndex p)
         (Z.to_nat (dotIndex - filenameIndex))
    then (slice_to dotIndex p, slice_from dotIndex p)
    else (p, "")
  else (p, "").

(** [not s.strip()] is false: the text holds a non-whitespace character. *)
Definition nonblank (s : string) : bool := negb (is_empty (strip s)).

End PyStr.
Import PyStr.

(** ** Exceptions, events and computations *)

(** The exception classes the code raises or tells apart. [ImportError]
    and [OSError] stand for the class and its subclasses, as an
    [except] clause reads them; every class here is a subclass of
    [Exception]. *)
Inductive exn_class : Type :=
| ImportError | OSError | ValueError | RuntimeError
| KeyError | TypeError | OtherError.

(** [exn_msg] is [str(e)]. *)
Record exn : Type := Exn { exn_cls : exn_class; exn_msg : string }.

Definition is_import_error (e : exn) : bool :=
  match exn_cls e with ImportError => true | _ => false end.

Definition is_os_or_import_error (e : exn) : bool :=
  match exn_cls e with ImportError | OSError => true | _ => false end.

(** One request to the outside, or the entry into a format extractor. *)
Inductive event : Type :=
| EvExtractor (name : string)
| EvFindSpec (module : string)
| EvReadExcel (path engine : string)
| EvDocx2txt (path : string)
| EvPandoc (path : string) (format : option string)
| EvPdfOpen (path : string)
| EvReadText (path : string)
| EvExists (path : string)
| EvGetsize (path : string)
| EvGetenv (name : string)
| EvSetenv (name value : string)
| EvGetPandocPath
| EvWhich (name : string)
| EvMkTemp
| EvSubprocess (cmd : list string)
| EvReadTemp (path : string)
| EvUnlink (path : string)
| EvChatGroq (api_key : option string)
| EvInvoke (system context question : string).

Definition M (A : Type) : Type := (exn + A) * list event.

Definition ret {A} (a : A) : M A := (inr a, []).
Definition raise {A} (c : exn_class) (msg : string) : M A :=
  (inl (Exn c msg), []).

Definition bind {A B} (m : M A) (f : A -> M B) : M B :=
  match m with
  | (inl e, t) => (inl e, t)
  | (inr a, t) => let (r, t') := f a in (r, (t ++ t')%list)
  end.

(** [try: m  except Exception as e: h e] *)
Definition try_except {A} (m : M A) (h : exn -> M A) : M A :=
  match m with
  | (inl e, t) => let (r, t') := h e in (r, (t ++ t')%list)
  | (inr a, t) => (inr a, t)
  end.

(** A request: it is recorded, and answers as the outside does. *)
Definition call {A} (ev : event) (r : exn + A) : M A := (r, [ev]).

Definition outcome {A} (m : M A) : exn + A := fst m.
Definition trace {A} (m : M A) : list event := snd m.

Declare Scope py_scope.
Delimit Scope py_scope with py.
Notation "x <- m ;; k" := (bind m (fun x => k))
  (at level 61, m at next level, right associativity) : py_scope.
Notation "m ;; k" := (bind m (fun _ => k))
  (at level 61, right associativity) : py_scope.
Local Open Scope py_scope.

(** ** schema.py *)

(** A value of a [Document.metadata] dictionary. *)
Inductive pyval : Type :=
| PStr (s : string)
| PInt (z : Z).

(** [class Document]; [doc_metadata] is its [metadata] dictionary, in
    insertion order. *)
Record Document : Type := mkDocument {
  page_content : string;
  doc_metadata : list (string * pyval)
}.

(** The dictionary stored under the state's ["metadata"] key. *)
Record Metadata : Type := mkMetadata {
  file_type : string;
  document_count : Z;
  page_count : option Z;
  content_length : Z
}.

(** [class AgentState(TypedDict, total=False)]: [None] is a key that is
    absent (for the two inputs also a key holding [None], which
    [state.get] does not tell apart). *)
Record AgentState : Type := mkState {
  file_path : option string;
  pre_processed_content : option string;
  question : option string;
  documents : option (list Document);
  metadata : option Metadata;
  answer : option string;
  error : option string
}.

(** [{**state, "documents": docs, "metadata": md}] *)
Definition with_documents (state : AgentState) (docs : list Document)
    (md : Metadata) : AgentState :=
  {| file_path := file_path state;
     pre_processed_content := pre_processed_content state;
     question := question state;
     documents := Some docs;
     metadata := Some md;
     answer := answer state;
     error := error state |}.

(** [{**state, "answer": a}] *)
Definition with_answer (state : AgentState) (a : string) : AgentState :=
  {| file_path := file_path state;
     pre_processed_content := pre_processed_content state;
     question := question state;
     documents := documents state;
     metadata := metadata state;
     answer := Some a;
     error := error state |}.

(** [{**state, "error": msg}] *)
Definition with_error (state : AgentState) (msg : string) : AgentState :=
  {| file_path := file_path state;
     pre_processed_content := pre_processed_content state;
     question := question state;
     documents := documents state;
     metadata := metadata state;
     answer := answer state;
     error := Some msg |}.

(** Truth value of an optional string: absent, [None] and [""] are false. *)
Definition truthy (o : option string) : bool :=
  match o with
  | Some s => negb (is_empty s)
  | None => false
  end.

(** [sum(len(doc.page_content) for doc in documents)] *)
Definition sum_lengths (docs : list Document) : Z :=
  fold_right (fun doc acc => len (page_content doc) + acc) 0 docs.

(** [d.get(key, default)] on a metadata dictionary *)
Fixpoint meta_get (d : list (string * pyval)) (key : string)
    (default : pyval) : pyval :=
  match d with
  | [] => default
  | (k, v) :: d' => if (k =? key)%string then v else meta_get d' key default
  end.

(** ** The outside *)

Record World : Type := mkWorld {
  (** [os.name == 'nt']: which flavour of [os.path] is in use *)
  os_nt : bool;
  (** [platform.system()] *)
  platform_system : string;
  (** [os.getenv] / [os.environ.get] *)
  getenv : string -> option string;
  (** [os.path.join], [os.path.basename], [os.path.expanduser] *)
  path_join : list string -> string;
  basename : string -> string;
  expanduser : string -> string;
  (** [os.path.exists], [os.path.getsize] *)
  path_exists : string -> bool;
  getsize : string -> exn + Z;
  (** [importlib.util.find_spec(name) is not None] *)
  find_spec : string -> exn + bool;
  (** [pd.read_excel(path, sheet_name=None, engine=...)]: the sheets in
      order, each with its name and [df.to_string()] *)
  read_excel : string -> string -> exn + list (string * string);
  (** [docx2txt.process] *)
  docx2txt_process : string -> exn + string;
  (** [pypandoc.convert_file(path, 'plain', format=...)] *)
  convert_file : string -> option string -> exn + string;
  (** [open(path, 'rb')] and [PyPDF2.PdfReader]: the pages in order,
      each with what [page.extract_text()] does *)
  pdf_pages : string -> exn + list (exn + string);
  (** [open(path, 'r', encoding='utf-8').read()] *)
  read_text : string -> exn + string;
  (** [pypandoc.get_pandoc_path()], [shutil.which] *)
  get_pandoc_path : exn + string;
  which : string -> option string;
  (** [tempfile.NamedTemporaryFile(suffix='.txt', delete=False).name] *)
  mktemp : exn + string;
  (** [subprocess.run(cmd, check=True, capture_output=True)] *)
  subprocess_run : list string -> exn + unit;
  (** [open(path, 'r', encoding='utf-8', errors='replace').read()] *)
  read_temp : string -> exn + string;
  unlink : string -> exn + unit;
  (** [ChatGroq(model=..., api_key=...)] *)
  chat_groq : option string -> exn + unit;
  (** [(prompt | llm).invoke(...)].content, by system prompt, context
      and question *)
  chain_invoke : string -> string -> string -> exn + string
}.

(** ** processors.py *)

Section Processors.

Variable w : World.

(** [os.path.splitext] of the running platform *)
Definition splitext (p : string) : string * string :=
  if os_nt w then splitext_generic "092" (Some "/"%char) p
  else splitext_generic "/" None p.

(** A request that cannot fail. *)
Definition ask {A} (ev : event) (a : A) : M A := call ev (inr a).

(** A value the outside has already produced. *)
Definition lift {A} (r : exn + A) : M A := (r, []).

(** [try: m  except (C1, C2) as e: h e]: other classes pass through. *)
Definition try_except_when {A} (catches : exn -> bool) (m : M A)
    (h : exn -> M A) : M A :=
  try_except m (fun e => if catches e then h e else lift (inl e)).

Definition single_result (state : AgentState) (text : string)
    (meta : list (string * pyval)) (ftype : string) : AgentState :=
  with_documents state
    [ {| page_content := text; doc_metadata := meta |} ]
    {| file_type := ftype; document_count := 1; page_count := None;
       content_length := len text |}.

(** The loop over [xl.items()] and the state built after it. *)
Definition excel_documents (path : string) (xl : list (string * string))
    : list Document :=
  map (fun sheet : string * string =>
         let (sheet_name, df) := sheet in
         {| page_content := "Sheet: " ++ sheet_name ++ nl ++ df ++ nl ++ nl;
            doc_metadata := [("source", PStr path); ("file_type", PStr "excel");
                             ("sheet", PStr sheet_name)] |}) xl.

Definition excel_result (state : AgentState) (path : string)
    (xl : list (string * string)) : AgentState :=
  let documents := excel_documents path xl in
  with_documents state documents
    {| file_type := "excel";
       document_count := Z.of_nat (List.length documents);
       page_count := None;
       content_length := sum_lengths documents |}.

Definition _process_excel (state : AgentState) (path file_ext : string)
    : M AgentState :=
  try_except
    (ask (EvExtractor "_process_excel") tt ;;
     try_except
       (openpyxl_spec <- call (EvFindSpec "openpyxl") (find_spec w "openpyxl") ;;
        if negb openpyxl_spec
        then raise ImportError
               "Missing required dependency 'openpyxl' for Excel processing. Please install with: pip install openpyxl"
        else
          xl <- call (EvReadExcel path "openpyxl") (read_excel w path "openpyxl") ;;
          ret (excel_result state path xl))
       (fun e =>
          if is_import_error e
          then raise ValueError ("Excel processing error: " ++ exn_msg e)
          else
            try_except
              (xl <- call (EvReadExcel path "xlrd") (read_excel w path "xlrd") ;;
               ret (excel_result state path xl))
              (fun xlrd_e =>
                 raise ValueError
                   ("Failed to process Excel file with both openpyxl and xlrd engines: "
                    ++ exn_msg e ++ " and " ++ exn_msg xlrd_e))))
    (fun e => raise ValueError ("Error processing Excel file: " ++ exn_msg e)).

Definition _process_docx (state : AgentState) (path : string) : M AgentState :=
  try_except
    (ask (EvExtractor "_process_docx") tt ;;
     text <- call (EvDocx2txt path) (docx2txt_process w path) ;;
     ret (single_result state text
            [("source", PStr path); ("file_type", PStr "word")] "word"))
    (fun e => raise ValueError ("Error processing Word document: " ++ exn_msg e)).

Definition _process_doc (state : AgentState) (path : string) : M AgentState :=
  try_except
    (ask (EvExtractor "_process_doc") tt ;;
     text <- call (EvPandoc path None) (convert_file w path None) ;;
     ret (single_result state text
            [("source", PStr path); ("file_type", PStr "word")] "word"))
    (fun e =>
       raise ValueError ("Error processing older Word document: " ++ exn_msg e)).

(** The first loop of [_process_pdf]: page [i] (counted from 0) is kept
    when its text holds a non-whitespace character. *)
Fixpoint extract_pages (path : string) (pages : list (exn + string)) (i : Z)
    : M (list Document) :=
  match pages with
  | [] => ret []
  | page :: rest =>
      text <- lift page ;;
      documents <- extract_pages path rest (i + 1) ;;
      ret (if nonblank text
           then {| page_content := text;
                   doc_metadata := [("source", PStr path); ("file_type", PStr "pdf");
                                    ("page", PInt (i + 1))] |} :: documents
           else documents)
  end.

(** The clean-up of one extracted text. *)
Definition clean_text (text : string) : string :=
  let text := join " " (split text) in
  let text := replace " ." "." text in
  replace " ," "," text.

Definition clean_document (doc : Document) : Document :=
  {| page_content := clean_text (page_content doc);
     doc_metadata := doc_metadata doc |}.

Definition _process_pdf (state : AgentState) (path : string) : M AgentState :=
  try_except
    (ask (EvExtractor "_process_pdf") tt ;;
     pages <- call (EvPdfOpen path) (pdf_pages w path) ;;
     let num_pages := Z.of_nat (List.length pages) in
     documents <- extract_pages path pages 0 ;;
     documents <-
       match documents with
       | [] =>
           try_except
             (text <- call (EvPandoc path None) (convert_file w path None) ;;
              ret (if nonblank text
                   then [ {| page_content := text;
                             doc_metadata :=
                               [("source", PStr path); ("file_type", PStr "pdf");
                                ("extraction_method", PStr "pypandoc")] |} ]
                   else []))
             (fun pandoc_err => ret [])
       | _ :: _ => ret documents
       end ;;
     match documents with
     | [] =>
         raise ValueError
           "No text content found in PDF. The PDF might be scanned or protected."
     | _ :: _ =>
         let cleaned_documents := map clean_document documents in
         ret (with_documents state cleaned_documents
                {| file_type := "pdf";
                   document_count := Z.of_nat (List.length cleaned_documents);
                   page_count := Some num_pages;
                   content_length := sum_lengths cleaned_documents |})
     end)
    (fun e => raise ValueError ("Error processing PDF file: " ++ exn_msg e)).

Definition _process_text (state : AgentState) (path : string) : M AgentState :=
  try_except
    (ask (EvExtractor "_process_text") tt ;;
     text <- call (EvReadText path) (read_text w path) ;;
     ret (single_result state text
            [("source", PStr path); ("file_type", PStr "text")] "text"))
    (fun e => raise ValueError ("Error processing text file: " ++ exn_msg e)).

(** *** [_process_powerpoint] *)

Definition or_default (o : option string) (d : string) : string :=
  match o with Some s => s | None => d end.

(** The candidate install paths, by [platform.system().lower()]. *)
Definition possible_paths : M (list string) :=
  let platform_system := lower (platform_system w) in
  if (platform_system =? "windows")%string then
    pf <- ask (EvGetenv "ProgramFiles") (getenv w "ProgramFiles") ;;
    pf86 <- ask (EvGetenv "ProgramFiles(x86)") (getenv w "ProgramFiles(x86)") ;;
    ret [ path_join w [or_default pf "C:\Program Files"; "Pandoc"; "pandoc.exe"];
          path_join w [or_default pf86 "C:\Program Files (x86)"; "Pandoc"; "pandoc.exe"];
          expanduser w "~\AppData\Local\Pandoc\pandoc.exe" ]
  else if (platform_system =? "darwin")%string then
    ret [ "/usr/local/bin/pandoc"; "/opt/homebrew/bin/pandoc"; "/opt/local/bin/pandoc" ]
  else
    ret [ "/usr/bin/pandoc"; "/usr/local/bin/pandoc" ].

(** [for path in possible_paths: if os.path.exists(path): ... break] *)
Fixpoint first_existing (paths : list string) : M (option string) :=
  match paths with
  | [] => ret None
  | path :: rest =>
      found <- ask (EvExists path) (path_exists w path) ;;
      if found
      then ask (EvSetenv "PYPANDOC_PANDOC" path) tt ;; ret (Some path)
      else first_existing rest
  end.

(** The search for the converter: [pandoc_path] as it stands before the
    final [if not pandoc_path: raise]. *)
Definition locate_pandoc : M (option string) :=
  env <- ask (EvGetenv "PYPANDOC_PANDOC") (getenv w "PYPANDOC_PANDOC") ;;
  pandoc_path <-
    (if truthy env
     then ask (EvGetenv "PYPANDOC_PANDOC") (getenv w "PYPANDOC_PANDOC")
     else
       try_except_when is_os_or_import_error
         (p <- call EvGetPandocPath (get_pandoc_path w) ;; ret (Some p))
         (fun _ => paths <- possible_paths ;; first_existing paths)) ;;
  if truthy pandoc_path then ret pandoc_path
  else
    found <- ask (EvWhich "pandoc") (which w "pandoc") ;;
    if truthy found
    then ask (EvSetenv "PYPANDOC_PANDOC" (or_default found "")) tt ;; ret found
    else ret found.

(** What one conversion method leaves behind: the state it returns, or
    the value of the variable [content] for the next method. *)
Inductive attempt : Type :=
| Done (state : AgentState)
| Next (content : string).

Definition powerpoint_result (state : AgentState) (path content method : string)
    : AgentState :=
  single_result state content
    [("source", PStr path); ("file_type", PStr "powerpoint");
     ("extraction_method", PStr method)] "powerpoint".

Definition pandoc_format (file_extension : string) : string :=
  if (file_extension =? ".pptx")%string then "pptx" else "ppt".

(** Method 1: direct conversion with an explicit format. *)
Definition convert_direct (state : AgentState) (path file_extension content : string)
    : M attempt :=
  try_except
    (let fmt := Some (pandoc_format file_extension) in
     c <- call (EvPandoc path fmt) (convert_file w path fmt) ;;
     ret (if nonblank c
          then Done (powerpoint_result state path c "direct_conversion")
          else Next c))
    (fun _ => ret (Next content)).

(** Method 2: the converter as a subprocess writing a temporary file. *)
Definition convert_subprocess (state : AgentState)
    (path file_extension pandoc_path content : string) : M attempt :=
  try_except
    (temp_path <- call EvMkTemp (mktemp w) ;;
     let cmd := [pandoc_path; path; "-o"; temp_path;
                 "--from"; pandoc_format file_extension; "--to"; "plain"] in
     call (EvSubprocess cmd) (subprocess_run w cmd) ;;
     c <- call (EvReadTemp temp_path) (read_temp w temp_path) ;;
     try_except (call (EvUnlink temp_path) (unlink w temp_path))
       (fun _ => ret tt) ;;
     ret (if nonblank c
          then Done (powerpoint_result state path c "subprocess_conversion")
          else Next c))
    (fun _ => ret (Next content)).

(** Method 3: conversion with format auto-detection. *)
Definition convert_auto (state : AgentState) (path content : string) : M attempt :=
  try_except
    (c <- call (EvPandoc path None) (convert_file w path None) ;;
     ret (if nonblank c
          then Done (powerpoint_result state path c "auto_detection")
          else Next c))
    (fun _ => ret (Next content)).

(** The three methods in order, then the final test on [content]. *)
Definition convert_powerpoint (state : AgentState)
    (path file_extension pandoc_path : string) : M AgentState :=
  a1 <- convert_direct state path file_extension "" ;;
  match a1 with
  | Done st => ret st
  | Next content =>
      a2 <- convert_subprocess state path file_extension pandoc_path content ;;
      match a2 with
      | Done st => ret st
      | Next content =>
          a3 <- convert_auto state path content ;;
          match a3 with
          | Done st => ret st
          | Next content =>
              if negb (nonblank content)
              then raise ValueError
                     ("Failed to extract content from PowerPoint file: " ++ path
                      ++ ". The file may be empty, corrupted, or not a valid PowerPoint file.")
              else ret (powerpoint_result state path content "fallback")
          end
      end
  end.

Definition _process_powerpoint (state : AgentState) (path : string)
    : M AgentState :=
  try_except
    (ask (EvExtractor "_process_powerpoint") tt ;;
     found <- ask (EvExists path) (path_exists w path) ;;
     if negb found
     then raise ValueError ("PowerPoint file not found: " ++ path)
     else
       size <- call (EvGetsize path) (getsize w path) ;;
       if size =? 0
       then raise ValueError ("PowerPoint file is empty: " ++ path)
       else
         pandoc_path <- locate_pandoc ;;
         if negb (truthy pandoc_path)
         then raise RuntimeError
                "Pandoc not found. Please install Pandoc from https://pandoc.org/installing.html or run the add_pandoc_to_path.bat script (on Windows) to add it to your PATH."
         else
           let file_extension := lower (snd (splitext path)) in
           try_except
             (convert_powerpoint state path file_extension
                (or_default pandoc_path ""))
             (fun e =>
                raise RuntimeError
                  ("Error processing PowerPoint file '" ++ basename w path ++ "': "
                   ++ exn_msg e
                   ++ ". Please ensure Pandoc is correctly installed and the file is not corrupted.")))
    (fun e =>
       let error_msg := exn_msg e in
       if contains "No pandoc was found" error_msg
          || contains "Pandoc is required" error_msg
       then raise ValueError
              "Pandoc is required for PowerPoint processing but was not found on the system. Please install Pandoc from https://pandoc.org/installing.html"
       else if contains "pptx" (lower error_msg)
               || contains "powerpoint" (lower error_msg)
       then raise ValueError ("Error processing PowerPoint file: " ++ error_msg)
       else raise ValueError
              ("Error processing PowerPoint file " ++ path ++ ": " ++ error_msg)).

(** *** [process_document] *)

(** The body of the [try] of [process_document]. *)
Definition dispatch (state : AgentState) : M AgentState :=
  if truthy (pre_processed_content state)
  then
    let text := or_default (pre_processed_content state) "" in
    ret (single_result state text
           [("source", PStr "pre_processed"); ("file_type", PStr "text")] "text")
  else
    if negb (truthy (file_path state))
    then raise ValueError "No file path or pre-processed content provided"
    else
      let path := or_default (file_path state) "" in
      let file_ext := lower (snd (splitext path)) in
      if in_list file_ext [".xlsx"; ".xls"] then _process_excel state path file_ext
      else if in_list file_ext [".docx"] then _process_docx state path
      else if in_list file_ext [".doc"] then _process_doc state path
      else if (file_ext =? ".pdf")%string then _process_pdf state path
      else if (file_ext =? ".txt")%string then _process_text state path
      else if in_list file_ext [".ppt"; ".pptx"] then _process_powerpoint state path
      else raise ValueError ("Unsupported file type: " ++ file_ext).

Definition process_document (state : AgentState) : M AgentState :=
  try_except (dispatch state)
    (fun e => ret (with_error state ("Error processing document: " ++ exn_msg e))).

End Processors.

(** ** agent.py *)

Section Agent.

Variable w : World.

(** The questions that ask for the extracted text itself. *)
Definition raw_content_questions : list string :=
  [ "simply return the raw content of this document without any analysis or summary.";
    "raw content";
    "show content";
    "extract content" ].

(** Truth value of a metadata value. *)
Definition pyval_truthy (v : pyval) : bool :=
  match v with
  | PStr s => negb (is_empty s)
  | PInt z => negb (z =? 0)
  end.

Definition pyval_is_unknown (v : pyval) : bool :=
  match v with
  | PStr s => (s =? "unknown")%string
  | PInt _ => false
  end.

(** One turn of the loop over [documents]. *)
Definition gather_step (acc : string * pyval) (doc : Document) : string * pyval :=
  let (content, file_type) := acc in
  (content ++ page_content doc ++ nl ++ nl,
   if negb (pyval_truthy file_type) || pyval_is_unknown file_type
   then meta_get (doc_metadata doc) "file_type" file_type
   else file_type).

(** [content] and [file_type] after the loop. *)
Definition gather (documents : list Document) : string * pyval :=
  fold_left gather_step documents ("", PStr "unknown").

Definition concat_content (documents : list Document) : string :=
  fst (gather documents).

(** [sub in file_type]: a type error when [file_type] is not a string. *)
Definition pyval_contains (sub : string) (v : pyval) : M bool :=
  match v with
  | PStr s => ret (contains sub s)
  | PInt _ => raise TypeError "argument of type 'int' is not iterable"
  end.

Definition describe_file_type (file_type : pyval) : M string :=
  is_excel <- pyval_contains "excel" file_type ;;
  if is_excel then ret "Excel spreadsheet" else
  is_word <- pyval_contains "word" file_type ;;
  if is_word then ret "Word document" else
  is_pdf <- pyval_contains "pdf" file_type ;;
  if is_pdf then ret "PDF document" else
  is_text <- pyval_contains "text" file_type ;;
  if is_text then ret "text file" else
  is_powerpoint <- pyval_contains "powerpoint" file_type ;;
  if is_powerpoint then ret "PowerPoint presentation" else
  ret "document".

Definition indent : string := "        ".

Definition system_prompt (file_type_desc : string) : string :=
  "You are a document analysis assistant specialized in answering questions about "
    ++ file_type_desc ++ "s." ++ nl
  ++ indent ++ "Your task is to analyze the provided document content and answer questions about it EXACTLY as it appears in the document." ++ nl
  ++ indent ++ "Follow these rules strictly:" ++ nl
  ++ indent ++ "1. ONLY use information that is EXPLICITLY contained in the document content" ++ nl
  ++ indent ++ "2. If the answer cannot be found in the document, politely explain that you don't see that specific information in the current document, then try to be helpful by suggesting related information from the document that might be relevant or suggesting how the user might rephrase their question" ++ nl
  ++ indent ++ "3. Be precise and specific in your answers, quoting directly from the text when possible" ++ nl
  ++ indent ++ "4. For numerical data, provide exact values as they appear in the document" ++ nl
  ++ indent ++ "5. If a question asks for information about a person or topic that's in the document, list all available details from the document" ++ nl
  ++ indent ++ "6. Do NOT make assumptions, inferences, or provide information not present in the document" ++ nl
  ++ indent ++ "7. For questions that are related to the document but where the exact answer isn't directly stated, explain what relevant information IS available in the document" ++ nl
  ++ indent ++ "8. NEVER respond with " ++ dq ++ "I cannot find any information about X in the document" ++ dq ++ " and stop there - always try to provide the most relevant information that IS available" ++ nl
  ++ indent ++ "9. If the document contains complex data (such as tables or numbers), make sure to convey this information clearly and accurately" ++ nl
  ++ indent ++ "10. Assume the user has not seen the document content, so provide COMPLETE information".

Definition no_documents_answer : string :=
  "I don't have any document content to analyze. Please upload a document first.".

Definition empty_document_answer : string :=
  "The document appears to be empty or contains no extractable text content. Please try uploading a different document format or check if the document contains actual text content that can be extracted.".

Definition no_api_key_answer : string :=
  "API key not configured. Please set the GROQ_API_KEY environment variable.".

(** The body of the [try] of [answer_question]. *)
Definition generate (state : AgentState) : M AgentState :=
  match documents state with
  | None | Some [] => ret (with_answer state no_documents_answer)
  | Some documents =>
      let (content, file_type) := gather documents in
      if negb (nonblank content)
      then ret (with_answer state empty_document_answer)
      else
        api_key <- ask (EvGetenv "GROQ_API_KEY") (getenv w "GROQ_API_KEY") ;;
        call (EvChatGroq api_key) (chat_groq w api_key) ;;
        api_key <- ask (EvGetenv "GROQ_API_KEY") (getenv w "GROQ_API_KEY") ;;
        if negb (truthy api_key)
        then ret (with_answer state no_api_key_answer)
        else
          if in_list (strip (lower (or_default (question state) "")))
               raw_content_questions
          then ret (with_answer state
                      (if len content >? 8000 then slice_to 8000 content
                       else content))
          else
            file_type_desc <- describe_file_type file_type ;;
            let content_for_context :=
              if len content >? 25000 then slice_to 25000 content else content in
            q <- match question state with
                 | Some q => ret q
                 | None => raise KeyError "'question'"
                 end ;;
            response <- call (EvInvoke (system_prompt file_type_desc)
                                content_for_context q)
                          (chain_invoke w (system_prompt file_type_desc)
                             content_for_context q) ;;
            ret (with_answer state response)
  end.

(** The [except] clause of [answer_question]. *)
Definition explain (state : AgentState) (e : exn) : AgentState :=
  let error_message := exn_msg e in
  if contains "openpyxl" (lower error_message) then
    with_answer state
      "I encountered an error while processing your Excel file. The server is missing the 'openpyxl' package which is required for Excel support. Please contact the administrator to install this package by running: pip install openpyxl"
  else if contains "xlrd" (lower error_message) then
    with_answer state
      "I encountered an error while processing your Excel file. The server is missing packages required for Excel support. Please contact the administrator to install the necessary packages by running: pip install openpyxl xlrd"
  else if contains "excel" (lower error_message) then
    with_answer state
      ("I encountered an error while processing your Excel file. Please make sure your Excel file is not password-protected or corrupted. The specific error was: "
       ++ error_message)
  else if contains "pandoc" (lower error_message) then
    with_answer state
      "I encountered an error while processing your PowerPoint file. The server is missing Pandoc which is required for PowerPoint support. Pandoc is not a Python package but a separate program that needs to be installed on the system. Please ask the administrator to install Pandoc from https://pandoc.org/installing.html"
  else if contains "powerpoint" (lower error_message) then
    with_answer state
      ("I encountered an error while processing your PowerPoint file. Please make sure your PowerPoint file is not password-protected or corrupted. The specific error was: "
       ++ error_message)
  else
    with_answer state
      ("I apologize, but I encountered an error while processing your question: "
       ++ error_message).

Definition answer_question (state : AgentState) : M AgentState :=
  try_except (generate state) (fun e => ret (explain state e)).

(** [build_qa_graph().invoke]: the two nodes in order, the state one
    node returns being the state the next one receives. *)
Definition graph_invoke (initial_state : AgentState) : M AgentState :=
  state <- process_document w initial_state ;;
  answer_question state.

Definition initial_state (question : string) (path content : option string)
    : AgentState :=
  {| file_path := path; pre_processed_content := content;
     question := Some question; documents := None; metadata := None;
     answer := None; error := None |}.

Definition too_short_answer : string :=
  "The provided document content is too short or empty. Please upload a valid document.".

(** The [try] block of [DocumentQAAgent.run]. *)
Definition run_graph (state : AgentState) : M string :=
  try_except
    (result <- graph_invoke state ;;
     match error result with
     | Some err => ret ("Error processing document: " ++ err)
     | None =>
         if negb (truthy (answer result))
         then ret "No answer could be generated. Please try rephrasing your question or upload a different document."
         else ret (or_default (answer result) "")
     end)
    (fun e =>
       ret ("An error occurred while processing your request: " ++ exn_msg e)).

(** [DocumentQAAgent.run(question, file_path, pre_processed_content)] *)
Definition run (question : string) (file_path pre_processed_content : option string)
    : M string :=
  if negb (truthy file_path) && negb (truthy pre_processed_content)
  then ret "No document provided. Please provide either a file path or pre-processed content."
  else
    if truthy pre_processed_content
    then
      if len (or_default pre_processed_content "") <? 10
      then ret too_short_answer
      else run_graph (initial_state question None pre_processed_content)
    else
      let path := or_default file_path "" in
      found <- ask (EvExists path) (path_exists w path) ;;
      if negb found
      then ret ("File not found: " ++ path ++ ". Please upload a valid document.")
      else run_graph (initial_state question file_path None).

End Agent.

(** ** Observations on states and traces *)

(** The LLM was called. *)
Definition is_invoke (ev : event) : bool :=
  match ev with EvInvoke _ _ _ => true | _ => false end.

Definition invokes_llm (t : list event) : bool := existsb is_invoke t.

(** The number of times the workbook was read with [engine]. *)
Definition is_read_with (engine : string) (ev : event) : bool :=
  match ev with
  | EvReadExcel _ e => (e =? engine)%string
  | _ => false
  end.

Definition excel_attempts (engine : string) (t : list event) : nat :=
  List.length (filter (is_read_with engine) t).

Definition is_raised {A} (r : exn + A) : bool :=
  match r with inl _ => true | inr _ => false end.

Definition populated (o : option string) : bool :=
  match o with Some _ => true | None => false end.

Definition at_most_one_populated (state : AgentState) : bool :=
  negb (populated (answer state) && populated (error state)).

Definition block_nonempty (doc : Document) : bool :=
  negb (is_empty (page_content doc)).

Definition has_nonempty_block (state : AgentState) : bool :=
  match documents state with
  | Some docs => existsb block_nonempty docs
  | None => false
  end.

(** The state a successful extractor returns: the input state with
    [documents] and [metadata] set, the recorded [content_length] being
    the sum of the lengths of the block texts and [document_count] the
    number of blocks; [P] is what else is known of the blocks. *)
Definition extraction_of (P : list Document -> Prop) (st st' : AgentState) : Prop :=
  exists docs md,
    st' = with_documents st docs md
    /\ content_length md = sum_lengths docs
    /\ document_count md = Z.of_nat (List.length docs)
    /\ P docs.

(** At least one block, and text in every block. *)
Definition with_text (docs : list Document) : Prop :=
  docs <> [] /\ forallb block_nonempty docs = true.

(** What is known of the blocks of a successful extraction, by the kind
    of input: one block per sheet, each with text, for a workbook; one
    block, whatever the text, for Word and text files and for text that
    was supplied; at least one block, and text in every block, for PDF
    and PowerPoint files. *)
Definition blocks_as_expected (w : World) (st : AgentState)
    (docs : list Document) : Prop :=
  if truthy (pre_processed_content st) then List.length docs = 1%nat
  else
    let file_ext := lower (snd (splitext w (or_default (file_path st) ""))) in
    if in_list file_ext [".xlsx"; ".xls"]
    then forallb block_nonempty docs = true
    else if in_list file_ext [".docx"; ".doc"; ".txt"]
    then List.length docs = 1%nat
    else docs <> [] /\ forallb block_nonempty docs = true.

Definition supported_extensions : list string :=
  [".xlsx"; ".xls"; ".docx"; ".doc"; ".pdf"; ".txt"; ".ppt"; ".pptx"].

(** ** Sample worlds and states *)

Definition unavailable {A} : exn + A := inl (Exn OtherError "unavailable").

(** A Linux host on which every path exists; the arguments fix the API
    key, what the two spreadsheet engines, PyPDF2, pypandoc and a text
    file read give; the model always answers the same sentence. *)
Definition sample_world (api_key : option string)
    (openpyxl xlrd : exn + list (string * string))
    (pdf : exn + list (exn + string)) (pandoc text : exn + string) : World :=
  {| os_nt := false;
     platform_system := "Linux";
     getenv := fun name => if (name =? "GROQ_API_KEY")%string then api_key else None;
     path_join := join "/";
     basename := fun p => p;
     expanduser := fun p => p;
     path_exists := fun _ => true;
     getsize := fun _ => inr 1;
     find_spec := fun _ => inr true;
     read_excel := fun _ engine =>
       if (engine =? "openpyxl")%string then openpyxl else xlrd;
     docx2txt_process := fun _ => unavailable;
     convert_file := fun _ _ => pandoc;
     pdf_pages := fun _ => pdf;
     read_text := fun _ => text;
     get_pandoc_path := unavailable;
     which := fun _ => None;
     mktemp := unavailable;
     subprocess_run := fun _ => unavailable;
     read_temp := fun _ => unavailable;
     unlink := fun _ => unavailable;
     chat_groq := fun _ => inr tt;
     chain_invoke := fun _ _ _ => inr "The revenue is 42,000." |}.

Definition plain_world (api_key : option string) (text : exn + string) : World :=
  sample_world api_key unavailable unavailable unavailable unavailable text.

(** A scanned PDF: two pages without text, and a converter that reads it. *)
Definition scanned_pdf_world : World :=
  sample_world (Some "gsk") unavailable unavailable
    (inr [inr "  "; inr ""]) (inr ("Revenue :  42 ,000 ." ++ nl)) unavailable.

(** Two ways for the primary spreadsheet engine to fail. *)
Definition corrupt_workbook : exn := Exn OtherError "File is not a zip file".
Definition old_openpyxl : exn :=
  Exn ImportError "Pandas requires version '3.1.0' or newer of 'openpyxl' (version '3.0.9' currently installed).".

Definition one_block (text : string) : list Document :=
  [ {| page_content := text;
       doc_metadata := [("source", PStr "notes.txt"); ("file_type", PStr "text")] |} ].

Definition state_with_blocks (q : string) (docs : list Document) : AgentState :=
  {| file_path := Some "notes.txt"; pre_processed_content := None;
     question := Some q; documents := Some docs; metadata := None;
     answer := None; error := None |}.

(** ** Further observations and sample hosts *)

(** The number of calls of the LLM. *)
Definition llm_calls (t : list event) : nat := List.length (filter is_invoke t).

(** The block's text holds a non-whitespace character. *)
Definition block_nonblank (doc : Document) : bool := nonblank (page_content doc).

(** The block's metadata names the format [ft]. *)
Definition has_file_type (ft : string) (doc : Document) : Prop :=
  forall default, meta_get (doc_metadata doc) "file_type" default = PStr ft.

(** The state of a successful extraction whose blocks all carry, in
    their own metadata, the format recorded for the document. *)
Definition tagged_extraction (st st' : AgentState) : Prop :=
  exists docs md,
    st' = with_documents st docs md
    /\ Forall (has_file_type (file_type md)) docs
    /\ In (file_type md) ["excel"; "word"; "pdf"; "text"; "powerpoint"].

(** The conversion methods of [_process_powerpoint], by the name each
    records in the block's metadata. *)
Definition conversion_methods : list string :=
  ["direct_conversion"; "subprocess_conversion"; "auto_detection"].

(** A conversion was requested: pypandoc or the converter subprocess. *)
Definition is_conversion (ev : event) : bool :=
  match ev with
  | EvPandoc _ _ | EvSubprocess _ => true
  | _ => false
  end.

Definition requests_conversion (t : list event) : bool := existsb is_conversion t.

(** The command line of the converter subprocess. *)
Definition pandoc_command (pandoc path temp_path file_extension : string)
    : list string :=
  [pandoc; path; "-o"; temp_path; "--from"; pandoc_format file_extension;
   "--to"; "plain"].

(** A host on which pandoc is nowhere to be found. *)
Definition no_pandoc_world : World :=
  {| os_nt := false;
     platform_system := "Linux";
     getenv := fun _ => None;
     path_join := join "/";
     basename := fun p => p;
     expanduser := fun p => p;
     path_exists := fun p => (p =? "deck.pptx")%string;
     getsize := fun _ => inr 2048;
     find_spec := fun _ => inr true;
     read_excel := fun _ _ => unavailable;
     docx2txt_process := fun _ => unavailable;
     convert_file := fun _ _ => inl (Exn OSError "No pandoc was found");
     pdf_pages := fun _ => unavailable;
     read_text := fun _ => unavailable;
     get_pandoc_path := inl (Exn OSError "No pandoc was found");
     which := fun _ => None;
     mktemp := inr "/tmp/tmpa1b2.txt";
     subprocess_run := fun _ => unavailable;
     read_temp := fun _ => unavailable;
     unlink := fun _ => inr tt;
     chat_groq := fun _ => inr tt;
     chain_invoke := fun _ _ _ => inr "The revenue is 42,000." |}.

(** A host with pandoc on the PATH: the direct conversions fail or give
    nothing, the subprocess writes the slides' text. *)
Definition pandoc_world (direct auto : exn + string) (run : exn + unit)
    (written : exn + string) : World :=
  {| os_nt := false;
     platform_system := "Linux";
     getenv := fun name =>
       if (name =? "GROQ_API_KEY")%string then Some "gsk" else None;
     path_join := join "/";
     basename := fun p => p;
     expanduser := fun p => p;
     path_exists := fun p => (p =? "deck.pptx")%string;
     getsize := fun _ => inr 2048;
     find_spec := fun _ => inr true;
     read_excel := fun _ _ => unavailable;
     docx2txt_process := fun _ => unavailable;
     convert_file := fun _ fmt => match fmt with Some _ => direct | None => auto end;
     pdf_pages := fun _ => unavailable;
     read_text := fun _ => unavailable;
     get_pandoc_path := inl (Exn OSError "No pandoc was found");
     which := fun _ => Some "/opt/bin/pandoc";
     mktemp := inr "/tmp/tmpa1b2.txt";
     subprocess_run := fun _ => run;
     read_temp := fun _ => written;
     unlink := fun _ => inr tt;
     chat_groq := fun _ => inr tt;
     chain_invoke := fun _ _ _ => inr "The revenue is 42,000." |}.

(** The host [w] with the environment [env]. *)
Definition with_getenv (env : string -> option string) (w : World) : World :=
  {| os_nt := os_nt w;
     platform_system := platform_system w;
     getenv := env;
     path_join := path_join w;
     basename := basename w;
     expanduser := expanduser w;
     path_exists := path_exists w;
     getsize := getsize w;
     find_spec := find_spec w;
     read_excel := read_excel w;
     docx2txt_process := docx2txt_process w;
     convert_file := convert_file w;
     pdf_pages := pdf_pages w;
     read_text := read_text w;
     get_pandoc_path := get_pandoc_path w;
     which := which w;
     mktemp := mktemp w;
     subprocess_run := subprocess_run w;
     read_temp := read_temp w;
     unlink := unlink w;
     chat_groq := chat_groq w;
     chain_invoke := chain_invoke w |}.

Definition pandoc_override (name : string) : option string :=
  if (name =? "PYPANDOC_PANDOC")%string then Some "/opt/pandoc/bin/pandoc" else None.

(** The page gave a text that holds a non-whitespace character. *)
Definition page_has_text (page : exn + string) : bool :=
  match page with
  | inr text => nonblank text
  | inl _ => false
  end.

(** The block is the clean-up of page [k] (counted from 0) of [pages]
    and carries the page's number, counted from 1. *)
Definition block_of_page (path : string) (pages : list (exn + string))
    (doc : Document) : Prop :=
  exists k text,
    nth_error pages k = Some (inr text)
    /\ nonblank text = true
    /\ page_content doc = clean_text text
    /\ doc_metadata doc
       = [("source", PStr path); ("file_type", PStr "pdf");
          ("page", PInt (Z.of_nat k + 1))].

(** The pages of a PDF, each with its number, counted from 1. *)
Definition numbered_pages (pages : list (exn + string)) : list (nat * (exn + string)) :=
  combine (seq 1 (List.length pages)) pages.

(** The block expected of the page with number [fst kp]: its text after
    the clean-up, tagged with the path, the format and the number. *)
Definition page_block (path : string) (kp : nat * (exn + string)) : Document :=
  {| page_content :=
       clean_text match snd kp with inr text => text | inl _ => "" end;
     doc_metadata := [("source", PStr path); ("file_type", PStr "pdf");
                      ("page", PInt (Z.of_nat (fst kp)))] |}.

(** The blocks expected of a PDF: one per page that has text, in the
    order of the pages. *)
Definition page_blocks (path : string) (pages : list (exn + string)) : list Document :=
  map (page_block path)
      (filter (fun kp => page_has_text (snd kp)) (numbered_pages pages)).

(** A PDF of three pages, the second without text. *)
Definition three_page_world : World :=
  sample_world (Some "gsk") unavailable unavailable
    (inr [inr "Revenue :  42 ,000 ."; inr "   "; inr "Costs: 7"])
    unavailable unavailable.

(** A PDF whose second page cannot be read. *)
Definition broken_page_world : World :=
  sample_world (Some "gsk") unavailable unavailable
    (inr [inr "Revenue: 42,000"; inl (Exn OtherError "unexpected EOF"); inr "Costs: 7"])
    (inr "Revenue: 42,000") unavailable.

(** The event is one [answer_question] can cause. *)
Definition is_answer_event (ev : event) : bool :=
  match ev with
  | EvGetenv _ | EvChatGroq _ | EvInvoke _ _ _ => true
  | _ => false
  end.

(** A host whose model answers nothing. *)
Definition silent_model_world : World :=
  {| os_nt := false;
     platform_system := "Linux";
     getenv := fun name =>
       if (name =? "GROQ_API_KEY")%string then Some "gsk" else None;
     path_join := join "/";
     basename := fun p => p;
     expanduser := fun p => p;
     path_exists := fun _ => true;
     getsize := fun _ => inr 1;
     find_spec := fun _ => inr true;
     read_excel := fun _ _ => unavailable;
     docx2txt_process := fun _ => unavailable;
     convert_file := fun _ _ => unavailable;
     pdf_pages := fun _ => unavailable;
     read_text := fun _ => unavailable;
     get_pandoc_path := unavailable;
     which := fun _ => None;
     mktemp := unavailable;
     subprocess_run := fun _ => unavailable;
     read_temp := fun _ => unavailable;
     unlink := fun _ => unavailable;
     chat_groq := fun _ => inr tt;
     chain_invoke := fun _ _ _ => inr "" |}.

(** ** api.py *)

(** [fastapi.HTTPException] *)
Record HTTPException : Type := mkHTTP { status_code : Z; detail : string }.

(** [class UploadResponse] *)
Record UploadResponse : Type := mkUpload {
  status : string;
  message : string;
  filename : string;
  content_preview : string;
  content : string
}.

(** [class ChatResponse] *)
Record ChatResponse : Type := mkChat {
  chat_status : string;
  chat_answer : string
}.

(** What an endpoint can raise: an HTTP error or any other exception. *)
Inductive api_exn : Type :=
| Http (h : HTTPException)
| Py (e : exn).

(** A request of an endpoint: one the agent makes, or one on the
    uploaded stream and the upload directory. *)
Inductive api_event : Type :=
| Core (ev : event)
| ApiMkTemp
| ApiRead
| ApiWrite (path chunk : string)
| ApiUnlink (path : string)
| ApiMove (src dst : string)
| ApiExists (path : string)
| ApiRemove (path : string)
| ApiListdir (path : string)
| ApiIsfile (path : string)
| ApiGetmtime (path : string).

(** What the endpoints ask beyond the agent's own requests. *)
Record ApiWorld : Type := mkApiWorld {
  core : World;
  (** [UPLOAD_DIR] *)
  upload_dir : string;
  (** [str(int(time.time()))] *)
  timestamp : string;
  (** [tempfile.NamedTemporaryFile(delete=False).name] *)
  temp_name : exn + string;
  (** [temp_file.write(chunk)] *)
  temp_write : string -> string -> exn + unit;
  (** [shutil.move], [os.remove] *)
  move : string -> string -> exn + unit;
  remove : string -> exn + unit;
  (** [os.listdir], [os.path.isfile] *)
  listdir : string -> exn + list string;
  isfile : string -> bool;
  (** [os.path.getmtime]: the times are only compared, so each is given
      as an integer that orders them as the floats are ordered *)
  getmtime : string -> exn + Z
}.

(** A computation of an endpoint, raising exceptions of type [E]. *)
Definition Eff (E A : Type) : Type := (E + A) * list api_event.

Definition eret {E A} (a : A) : Eff E A := (inr a, []).
Definition eraise {E A} (e : E) : Eff E A := (inl e, []).
Definition ecall {E A} (ev : api_event) (r : E + A) : Eff E A := (r, [ev]).

Definition ebind {E A B} (m : Eff E A) (f : A -> Eff E B) : Eff E B :=
  match m with
  | (inl e, t) => (inl e, t)
  | (inr a, t) => let (r, t') := f a in (r, (t ++ t')%list)
  end.

(** [try: m  except Exception as e: h e] *)
Definition etry {E E' A} (m : Eff E A) (h : E -> Eff E' A) : Eff E' A :=
  match m with
  | (inl e, t) => let (r, t') := h e in (r, (t ++ t')%list)
  | (inr a, t) => (inr a, t)
  end.

Notation "x <-- m ;; k" := (ebind m (fun x => k))
  (at level 61, m at next level, right associativity) : py_scope.
Notation "m ;;; k" := (ebind m (fun _ => k))
  (at level 61, right associativity) : py_scope.

(** An answer of the outside that fails with a Python exception. *)
Definition py {A} (r : exn + A) : api_exn + A :=
  match r with
  | inl e => inl (Py e)
  | inr a => inr a
  end.

(** A computation of the agent, run inside an endpoint. *)
Definition of_core {A} (m : M A) : Eff exn A := (fst m, map Core (snd m)).

(** The code of a computation that raises no HTTP error, inside one
    that may. *)
Definition plain {A} (m : Eff exn A) : Eff api_exn A := (py (fst m), snd m).

(** The two outer clauses of an endpoint: an HTTP error passes, any
    other exception becomes a 500 whose detail is [prefix ++ str(e)]. *)
Definition endpoint {A} (prefix : string) (m : Eff api_exn A)
    : (HTTPException + A) * list api_event :=
  match m with
  | (inl (Http h), t) => (inl h, t)
  | (inl (Py e), t) =>
      (inl {| status_code := 500; detail := prefix ++ exn_msg e |}, t)
  | (inr a, t) => (inr a, t)
  end.

Section Api.

Variable aw : ApiWorld.

Definition api_supported_extensions : list string :=
  [".pdf"; ".docx"; ".doc"; ".xlsx"; ".xls"; ".txt"; ".ppt"; ".pptx"].

(** [10 * 1024 * 1024] *)
Definition max_upload_size : Z := 10 * 1024 * 1024.

Definition raw_content_request : string :=
  "Simply return the raw content of this document without any analysis or summary.".

(** The loop that copies the upload to the temporary file. [reads] are
    the answers of [await file.read(chunk_size)], in order; once they
    are used up the stream is at its end and gives the empty chunk. *)
Fixpoint copy_chunks (temp : string) (reads : list (exn + string))
    (file_size : Z) : Eff api_exn unit :=
  match reads with
  | [] => ecall ApiRead (inr "") ;;; eret tt
  | r :: rest =>
      chunk <-- ecall ApiRead (py r) ;;
      if is_empty chunk then eret tt
      else
        let file_size := file_size + len chunk in
        if file_size >? max_upload_size
        then
          ecall (ApiUnlink temp) (py (unlink (core aw) temp)) ;;;
          eraise (Http {| status_code := 400;
                          detail := "File size exceeds 10MB limit" |})
        else
          ecall (ApiWrite temp chunk) (py (temp_write aw temp chunk)) ;;;
          copy_chunks temp rest file_size
  end.

(** [process_document({"file_path": file_path})] *)
Definition path_only_state (path : string) : AgentState :=
  {| file_path := Some path; pre_processed_content := None; question := None;
     documents := None; metadata := None; answer := None; error := None |}.

(** The inner [try] of [upload_file] up to the validated [result]. *)
Definition extract_upload (path : string) : Eff exn string :=
  result <-- of_core (run (core aw) raw_content_request (Some path) None) ;;
  result <--
    (if is_empty result || (len result <? 20)
     then
       process_result <-- of_core (process_document (core aw) (path_only_state path)) ;;
       match documents process_result with
       | Some docs =>
           let content := concat_content docs in
           if nonblank content then eret content
           else eraise (Exn ValueError "Could not extract text content from document")
       | None =>
           match error process_result with
           | Some err => eraise (Exn ValueError err)
           | None =>
               eraise (Exn ValueError
                         "Document processing failed to extract text content")
           end
       end
     else eret result) ;;
  if is_empty result || negb (nonblank result) || (len result <? 10)
  then eraise (Exn ValueError
                 "The document appears to be empty or contains no extractable text content")
  else eret result.

Definition upload_response (unique_filename result : string) : UploadResponse :=
  {| status := "success";
     message := "File uploaded and processed successfully";
     filename := unique_filename;
     content_preview :=
       if len result >? 500 then slice_to 500 result ++ "..." else result;
     content := result |}.

(** The detail of the HTTP error for a failed extraction. *)
Definition upload_error_detail (path error_message : string) : string :=
  if contains "openpyxl" (lower error_message)
     || contains "xlrd" (lower error_message)
  then "Excel processing failed: The server is missing required dependencies. Please ask the administrator to install: pip install openpyxl xlrd"
  else if contains ".xls" (lower path) && contains "excel" (lower error_message)
  then "Excel processing failed: " ++ error_message
       ++ ". The file may be password-protected, corrupted, or in an unsupported format."
  else if contains "pandoc" (lower error_message)
  then "PowerPoint processing failed: Pandoc is required but not installed. Please ask the administrator to install Pandoc from https://pandoc.org/installing.html"
  else if contains ".ppt" (lower path) || contains "powerpoint" (lower error_message)
  then "PowerPoint processing failed: " ++ error_message
       ++ ". The file may be password-protected, corrupted, or in an unsupported format."
  else "Error processing file: " ++ error_message.

(** The [except] clause of the inner [try]: the stored file is removed
    if it is there, and the failure becomes a 500. *)
Definition upload_failure (path : string) (e : exn) : Eff api_exn UploadResponse :=
  found <-- ecall (ApiExists path) (inr (path_exists (core aw) path)) ;;
  (if found then ecall (ApiRemove path) (py (remove aw path)) else eret tt) ;;;
  eraise (Http {| status_code := 500;
                  detail := upload_error_detail path (exn_msg e) |}).

(** [upload_file(file)], by the name of the file and the chunks its
    stream gives. *)
Definition upload_file (name : string) (reads : list (exn + string))
    : (HTTPException + UploadResponse) * list api_event :=
  endpoint ""
    (let file_ext := lower (snd (splitext (core aw) name)) in
     if negb (in_list file_ext api_supported_extensions)
     then eraise (Http {| status_code := 400;
                          detail := "Unsupported file type. Supported types: "
                                    ++ join ", " api_supported_extensions |})
     else
       temp_file_path <-- ecall ApiMkTemp (py (temp_name aw)) ;;
       copy_chunks temp_file_path reads 0 ;;;
       let unique_filename :=
         fst (splitext (core aw) name) ++ "_" ++ timestamp aw ++ file_ext in
       let path := path_join (core aw) [upload_dir aw; unique_filename] in
       ecall (ApiMove temp_file_path path) (py (move aw temp_file_path path)) ;;;
       etry (result <-- extract_upload path ;;
             eret (upload_response unique_filename result))
            (upload_failure path)).

(** [[f for f in os.listdir(UPLOAD_DIR) if os.path.isfile(...)]] *)
Fixpoint regular_files (names : list string) : Eff api_exn (list string) :=
  match names with
  | [] => eret []
  | f :: rest =>
      let path := path_join (core aw) [upload_dir aw; f] in
      keep <-- ecall (ApiIsfile path) (inr (isfile aw path)) ;;
      files <-- regular_files rest ;;
      eret (if keep then f :: files else files)
  end.

(** The modification time [max] asks for each file. *)
Definition mtime_of (f : string) : Eff api_exn Z :=
  let path := path_join (core aw) [upload_dir aw; f] in
  ecall (ApiGetmtime path) (py (getmtime aw path)).

(** The loop of [max(files, key=...)]: a later file replaces the best
    so far only when its time is strictly greater. *)
Fixpoint latest_of (best : string) (best_time : Z) (files : list string)
    : Eff api_exn string :=
  match files with
  | [] => eret best
  | f :: rest =>
      t <-- mtime_of f ;;
      if t >? best_time then latest_of f t rest
      else latest_of best best_time rest
  end.

Definition latest_file (files : list string) : Eff api_exn string :=
  match files with
  | [] => eraise (Py (Exn ValueError "max() arg is an empty sequence"))
  | f :: rest => t <-- mtime_of f ;; latest_of f t rest
  end.

(** [chat(request)], by the question and by [file_info.get("content")]
    when [file_info] is given and not empty. *)
Definition chat (question : string) (file_content : option string)
    : (HTTPException + ChatResponse) * list api_event :=
  endpoint "Unexpected error: "
    (if is_empty question
     then eraise (Http {| status_code := 400; detail := "Question is required" |})
     else
       answer <--
         (if truthy file_content
          then
            let content := strip (or_default file_content "") in
            if is_empty content
            then eraise (Http {| status_code := 400;
                                 detail := "The document content is empty. Please try uploading the file again." |})
            else
              etry (if len content <? 50
                    then eraise (Exn ValueError
                                   "The document content is too short to process. Please upload a valid document.")
                    else of_core (run (core aw) question None (Some content)))
                   (fun e =>
                      eraise (Http {| status_code := 500;
                                      detail := "Error processing content: " ++ exn_msg e |}))
          else
            names <-- ecall (ApiListdir (upload_dir aw)) (py (listdir aw (upload_dir aw))) ;;
            files <-- regular_files names ;;
            match files with
            | [] => eraise (Http {| status_code := 400;
                                    detail := "No document has been uploaded" |})
            | _ :: _ =>
                latest <-- latest_file files ;;
                let path := path_join (core aw) [upload_dir aw; latest] in
                etry (of_core (run (core aw) question (Some path) None))
                     (fun e =>
                        eraise (Http {| status_code := 500;
                                        detail := "Error processing file: " ++ exn_msg e |}))
            end) ;;
       eret {| chat_status := "success"; chat_answer := answer |}).

End Api.

(** ** Observations on endpoints *)

Definition is_move (ev : api_event) : bool :=
  match ev with ApiMove _ _ => true | _ => false end.

Definition is_core (ev : api_event) : bool :=
  match ev with Core _ => true | _ => false end.

(** The number of bytes written to the temporary file. *)
Fixpoint written (t : list api_event) : Z :=
  match t with
  | [] => 0
  | ApiWrite _ chunk :: t' => len chunk + written t'
  | _ :: t' => written t'
  end.

(** The number of bytes the stream gives before it ends or fails. *)
Fixpoint received (reads : list (exn + string)) : Z :=
  match reads with
  | inr chunk :: rest => if is_empty chunk then 0 else len chunk + received rest
  | _ => 0
  end.

(** The stream was read to its end: every read before the end gave a
    chunk, none failed. *)
Fixpoint read_to_end (reads : list (exn + string)) : bool :=
  match reads with
  | [] => true
  | inr chunk :: rest => if is_empty chunk then true else read_to_end rest
  | inl _ :: _ => false
  end.

(** The bytes the stream gives before it ends or fails. *)
Fixpoint received_data (reads : list (exn + string)) : string :=
  match reads with
  | inr chunk :: rest => if is_empty chunk then "" else chunk ++ received_data rest
  | _ => ""
  end.

(** The bytes written to the file [path], in the order of the writes. *)
Fixpoint written_to (path : string) (t : list api_event) : string :=
  match t with
  | [] => ""
  | ApiWrite p chunk :: t' =>
      if (p =? path)%string then chunk ++ written_to path t' else written_to path t'
  | _ :: t' => written_to path t'
  end.

(** The write requests of a trace. *)
Definition is_write (ev : api_event) : bool :=
  match ev with ApiWrite _ _ => true | _ => false end.

(** An upload directory on a host: two stored files, the second the
    newer one; uploads are written and moved without failure. *)
Definition sample_api_world (w : World) : ApiWorld :=
  {| core := w;
     upload_dir := "/srv/uploads";
     timestamp := "1700000000";
     temp_name := inr "/tmp/tmpk3x9";
     temp_write := fun _ _ => inr tt;
     move := fun _ _ => inr tt;
     remove := fun _ => inr tt;
     listdir := fun _ => inr ["old_1699990000.txt"; "cache"; "new_1700000000.txt"];
     isfile := fun p => negb (p =? "/srv/uploads/cache")%string;
     getmtime := fun p =>
       if (p =? "/srv/uploads/new_1700000000.txt")%string
       then inr 1700000000 else inr 1699990000 |}.



(** ** main.py and backend/__init__.py *)

Section Startup.

Variable w : World.
(** [os.path.dirname] and [os.pathsep] *)
Variable dirname : string -> string.
Variable pathsep : string.

(** The install locations the two start-up routines probe, by
    [platform.system()] as it is. *)
Definition possible_locations : list string :=
  let system := platform_system w in
  if (system =? "Windows")%string then
    [ "C:\Program Files\Pandoc\pandoc.exe";
      "C:\Program Files (x86)\Pandoc\pandoc.exe";
      expanduser w "~\AppData\Local\Pandoc\pandoc.exe" ]
  else if (system =? "Darwin")%string then
    [ "/usr/local/bin/pandoc"; "/opt/homebrew/bin/pandoc"; "/opt/local/bin/pandoc" ]
  else if (system =? "Linux")%string then
    [ "/usr/bin/pandoc"; "/usr/local/bin/pandoc" ]
  else [].

(** The loop of [ensure_pandoc_available] over the locations. *)
Fixpoint ensure_location (locations : list string) : M bool :=
  match locations with
  | [] => ret false
  | location :: rest =>
      found <- ask (EvExists location) (path_exists w location) ;;
      if found
      then
        ask (EvSetenv "PYPANDOC_PANDOC" location) tt ;;
        (let pandoc_dir := dirname location in
         path <- ask (EvGetenv "PATH") (getenv w "PATH") ;;
         ask (EvSetenv "PATH" (pandoc_dir ++ pathsep ++ or_default path "")) tt ;;
         ret true)
      else ensure_location rest
  end.

(** [ensure_pandoc_available()] of main.py *)
Definition ensure_pandoc_available : M bool :=
  try_except
    (pandoc_path <- ask (EvWhich "pandoc") (which w "pandoc") ;;
     if truthy pandoc_path
     then ask (EvSetenv "PYPANDOC_PANDOC" (or_default pandoc_path "")) tt ;; ret true
     else ensure_location possible_locations)
    (fun _ => ret false).

(** The loop of [configure_pandoc] over the locations. *)
Fixpoint configure_location (locations : list string) : M (option string) :=
  match locations with
  | [] => ret None
  | location :: rest =>
      found <- ask (EvExists location) (path_exists w location) ;;
      if found then ret (Some location) else configure_location rest
  end.

(** [configure_pandoc()] of backend/__init__.py *)
Definition configure_pandoc : M bool :=
  try_except
    (pandoc_path <- ask (EvWhich "pandoc") (which w "pandoc") ;;
     pandoc_path <-
       (if negb (truthy pandoc_path) then configure_location possible_locations
        else ret pandoc_path) ;;
     if truthy pandoc_path
     then
       let found := or_default pandoc_path "" in
       ask (EvSetenv "PYPANDOC_PANDOC" found) tt ;;
       (let pandoc_dir := dirname found in
        path <- ask (EvGetenv "PATH") (getenv w "PATH") ;;
        if negb (contains pandoc_dir (or_default path ""))
        then
          path <- ask (EvGetenv "PATH") (getenv w "PATH") ;;
          ask (EvSetenv "PATH" (pandoc_dir ++ pathsep ++ or_default path "")) tt ;;
          ret true
        else ret true)
     else ret false)
    (fun _ => ret false).

End Startup.

(** The converter a routine records for pypandoc. *)
Definition is_pandoc_setting (ev : event) : bool :=
  match ev with
  | EvSetenv name _ => (name =? "PYPANDOC_PANDOC")%string
  | _ => false
  end.

(** * Properties *)

(** ** Outcomes and traces of composed computations *)

Section Computations.

Context {A B : Type}.

Lemma outcome_bind (m : M A) (f : A -> M B) :
  outcome (bind m f)
  = match outcome m with
    | inl e => inl e
    | inr a => outcome (f a)
    end.
Proof.
  destruct m as [[e | a] t]; cbn; [reflexivity |].
  destruct (f a); reflexivity.
Qed.

Lemma trace_bind (m : M A) (f : A -> M B) :
  trace (bind m f)
  = (trace m ++ match outcome m with
                | inl _ => []
                | inr a => trace (f a)
                end)%list.
Proof.
  destruct m as [[e | a] t]; cbn; [now rewrite app_nil_r |].
  destruct (f a); reflexivity.
Qed.

Lemma outcome_try_except (m : M A) (h : exn -> M A) :
  outcome (try_except m h)
  = match outcome m with
    | inl e => outcome (h e)
    | inr a => inr a
    end.
Proof.
  destruct m as [[e | a] t]; cbn; [| reflexivity].
  destruct (h e); reflexivity.
Qed.

Lemma trace_try_except (m : M A) (h : exn -> M A) :
  trace (try_except m h)
  = (trace m ++ match outcome m with
                | inl e => trace (h e)
                | inr _ => []
                end)%list.
Proof.
  destruct m as [[e | a] t]; cbn; [| now rewrite app_nil_r].
  destruct (h e); reflexivity.
Qed.

(** A value comes out of a sequence only if each part gave one. *)
Lemma bind_inr (m : M A) (f : A -> M B) (b : B) :
  outcome (bind m f) = inr b ->
  exists a, outcome m = inr a /\ outcome (f a) = inr b.
Proof.
  rewrite outcome_bind. destruct (outcome m) as [e | a]; [discriminate |].
  intros H. now exists a.
Qed.

End Computations.

(** A handler that re-raises lets a value through only from the body. *)
Lemma try_except_reraise_inr {A} (m : M A) (h : exn -> M A) (a : A) :
  (forall e, is_raised (outcome (h e)) = true) ->
  outcome (try_except m h) = inr a ->
  outcome m = inr a.
Proof.
  intros Hh. rewrite outcome_try_except.
  destruct (outcome m) as [e | x]; [| trivial].
  specialize (Hh e). destruct (outcome (h e)); [discriminate | discriminate].
Qed.

(** Unfold the plumbing of a computation, and nothing else, so that
    the requests it makes come to the surface one after the other. *)
Ltac step_in H :=
  cbv beta iota zeta delta
    [bind ask call lift ret raise try_except try_except_when trace outcome
     fst snd app negb In] in H.

Ltac step :=
  cbv beta iota zeta delta
    [bind ask call lift ret raise try_except try_except_when trace outcome
     fst snd app negb].

(** ** Strings *)

Example strip_ex : strip ("  Raw Content" ++ nl) = "Raw Content".
Proof. reflexivity. Qed.
Example split_ex : split (" a  b" ++ nl ++ "c ") = ["a"; "b"; "c"].
Proof. reflexivity. Qed.
Example replace_ex : replace " ." "." "a . b  .. c ." = "a. b .. c.".
Proof. reflexivity. Qed.
Example splitext_ex1 : splitext_generic "/" None "/tmp/a.b/Report.PDF" = ("/tmp/a.b/Report", ".PDF").
Proof. reflexivity. Qed.
Example splitext_ex2 : splitext_generic "/" None "/tmp/a.b/.bashrc" = ("/tmp/a.b/.bashrc", "").
Proof. reflexivity. Qed.
Example splitext_ex4 : splitext_generic "092" (Some "/"%char) "C:\up.d\Deck.PPTX" = ("C:\up.d\Deck", ".PPTX").
Proof. reflexivity. Qed.
Example splitext_ex3 : splitext_generic "/" None "/tmp/a.b/..x.tar.gz" = ("/tmp/a.b/..x.tar", ".gz").
Proof. reflexivity. Qed.

Lemma length_take (n : nat) (s : string) :
  String.length (take n s) = Nat.min n (String.length s).
Proof.
  revert s. induction n as [| n IH]; intros [| c s]; cbn; try reflexivity.
  now rewrite IH.
Qed.

Lemma len_slice_to (n : Z) (s : string) :
  0 <= n -> len (slice_to n s) = Z.min n (len s).
Proof.
  intros Hn. unfold len, slice_to. rewrite length_take. lia.
Qed.

Lemma in_list_In (x : string) (l : list string) :
  in_list x l = true <-> In x l.
Proof.
  induction l as [| y l IH]; cbn.
  - split; [discriminate | tauto].
  - rewrite orb_true_iff, IH, String.eqb_eq. split; intros [H | H]; auto.
Qed.

(** ** The dispatcher *)

(** C4. [process_document] never raises: it always returns a state.
    When the dispatch or the extractor it delegates to raises [e], the
    returned state carries ["Error processing document: " ++ str(e)] in
    [error] and every other field as the input state had it; otherwise
    it is the state the extractor returned. *)
Theorem process_document_never_raises (w : World) (st : AgentState) :
  exists st',
    outcome (process_document w st) = inr st'
    /\ match outcome (dispatch w st) with
       | inl e =>
           error st' = Some ("Error processing document: " ++ exn_msg e)
           /\ file_path st' = file_path st
           /\ pre_processed_content st' = pre_processed_content st
           /\ question st' = question st
           /\ documents st' = documents st
           /\ metadata st' = metadata st
           /\ answer st' = answer st
       | inr s => st' = s
       end.
Proof.
  unfold process_document. rewrite outcome_try_except.
  destruct (outcome (dispatch w st)) as [e | s].
  - eexists. split; [reflexivity |]. cbn. repeat split.
  - exists s. split; reflexivity.
Qed.

(** A failing extractor is one way into the first case: the text file
    cannot be read, and the state comes back with the error recorded. *)
Example process_document_unreadable_text :
  process_document (plain_world None unavailable)
    (initial_state "What is the revenue?" (Some "notes.txt") None)
  = (inr (with_error
            (initial_state "What is the revenue?" (Some "notes.txt") None)
            "Error processing document: Error processing text file: unavailable"),
     [EvExtractor "_process_text"; EvReadText "notes.txt"]).
Proof. reflexivity. Qed.

(** C5. A state whose input is a file path with an extension outside
    the supported set comes back with the unsupported-format error in
    [error], and nothing was requested on the way: no extractor was
    entered and no library was called. *)
Theorem unsupported_extension_error (w : World) (st : AgentState) (p : string) :
  truthy (pre_processed_content st) = false ->
  file_path st = Some p ->
  p <> "" ->
  in_list (lower (snd (splitext w p))) supported_extensions = false ->
  process_document w st
  = (inr (with_error st
            ("Error processing document: Unsupported file type: "
             ++ lower (snd (splitext w p)))),
     []).
Proof.
  intros Hpre Hpath Hp Hext.
  unfold process_document, dispatch. rewrite Hpre, Hpath.
  assert (Ht : truthy (Some p) = true) by (destruct p; [congruence | reflexivity]).
  rewrite Ht. cbn [negb or_default].
  set (ext := lower (snd (splitext w p))) in *.
  unfold supported_extensions in Hext. cbn [in_list] in Hext.
  repeat rewrite orb_false_iff in Hext.
  destruct Hext as (H1 & H2 & H3 & H4 & H5 & H6 & H7 & H8 & _).
  cbn [in_list]. rewrite H1, H2, H3, H4, H5, H6, H7, H8. reflexivity.
Qed.

Lemma unsupported_extension_error_witness :
  process_document (plain_world None unavailable)
    (initial_state "What is the revenue?" (Some "/srv/uploads/Report.final.ZIP") None)
  = (inr (with_error
            (initial_state "What is the revenue?"
               (Some "/srv/uploads/Report.final.ZIP") None)
            "Error processing document: Unsupported file type: .zip"),
     []).
Proof.
  apply (unsupported_extension_error (plain_world None unavailable)
           (initial_state "What is the revenue?"
              (Some "/srv/uploads/Report.final.ZIP") None)
           "/srv/uploads/Report.final.ZIP").
  - reflexivity.
  - reflexivity.
  - discriminate.
  - reflexivity.
Defined.

(** ** The answer generator *)

Arguments slice_to : simpl never.
Arguments system_prompt : simpl never.
Arguments len : simpl never.

Lemma invokes_llm_false (t : list event) :
  (forall sys ctx q, ~ In (EvInvoke sys ctx q) t) -> invokes_llm t = false.
Proof.
  intros H. unfold invokes_llm. induction t as [| ev t IH]; [reflexivity |].
  cbn. rewrite IH by (intros s c q Hin; apply (H s c q); now right).
  destruct ev; try reflexivity.
  exfalso. eapply H. left. reflexivity.
Qed.

(** Choosing the format label asks nothing of the outside. *)
Lemma trace_describe_file_type (file_type : pyval) :
  trace (describe_file_type file_type) = [].
Proof.
  destruct file_type as [s | z]; [| reflexivity].
  unfold describe_file_type, pyval_contains.
  repeat (cbn; match goal with
               | |- context [contains ?a ?b] => destruct (contains a b)
               end; cbn; try reflexivity).
Qed.

(** The one place where [answer_question] calls the LLM: the question
    is not a raw-content request, and the context is the content cut to
    the budget. *)
Lemma answer_question_invoke (w : World) (st : AgentState) (sys ctx q : string) :
  In (EvInvoke sys ctx q) (trace (answer_question w st)) ->
  exists docs,
    documents st = Some docs
    /\ in_list (strip (lower (or_default (question st) ""))) raw_content_questions
       = false
    /\ ctx = (if len (concat_content docs) >? 25000
              then slice_to 25000 (concat_content docs)
              else concat_content docs).
Proof.
  unfold answer_question, generate, concat_content.
  destruct (documents st) as [[| d docs] |]; try (cbn; tauto).
  intros H. exists (d :: docs). split; [reflexivity |].
  destruct (gather (d :: docs)) as [content file_type]. cbn [fst].
  destruct (nonblank content); try (cbn in H; tauto).
  step_in H.
  destruct (chat_groq w (getenv w "GROQ_API_KEY")) as [e | []]; step_in H;
    [intuition discriminate |].
  destruct (truthy (getenv w "GROQ_API_KEY")); step_in H;
    [| intuition discriminate].
  destruct (in_list _ raw_content_questions); step_in H;
    [intuition discriminate |].
  split; [reflexivity |].
  pose proof (trace_describe_file_type file_type) as Ht.
  destruct (describe_file_type file_type) as [[e | desc] t]; cbn in Ht; subst t;
    step_in H; [intuition discriminate |].
  destruct (question st) as [q0 |]; step_in H; [| intuition discriminate].
  destruct (chain_invoke w (system_prompt desc) _ q0); step_in H;
    repeat (destruct H as [H | H]; try discriminate; try tauto);
    now inversion H.
Qed.

(** C8. With at least one block and nothing but whitespace in the
    concatenated text, [answer_question] answers with the fixed
    empty-document message and asks nothing of the outside: in
    particular the LLM is not called. *)
Theorem blank_content_answer (w : World) (st : AgentState) (docs : list Document) :
  documents st = Some docs ->
  docs <> [] ->
  nonblank (concat_content docs) = false ->
  answer_question w st = (inr (with_answer st empty_document_answer), []).
Proof.
  intros Hdocs Hne Hblank.
  unfold answer_question, generate. rewrite Hdocs.
  destruct docs as [| d docs]; [congruence |].
  unfold concat_content in Hblank.
  destruct (gather (d :: docs)) as [content file_type]. cbn [fst] in Hblank.
  rewrite Hblank. reflexivity.
Qed.

Lemma blank_content_answer_witness :
  answer_question (plain_world (Some "gsk") (inr ""))
    (state_with_blocks "What is the revenue?" (one_block "  " ++ one_block ""))
  = (inr (with_answer
            (state_with_blocks "What is the revenue?" (one_block "  " ++ one_block ""))
            empty_document_answer),
     []).
Proof.
  apply (blank_content_answer (plain_world (Some "gsk") (inr ""))
           (state_with_blocks "What is the revenue?" (one_block "  " ++ one_block ""))
           (one_block "  " ++ one_block "")).
  - reflexivity.
  - discriminate.
  - reflexivity.
Defined.

(** C9. Whenever [answer_question] calls the LLM, the document content
    it passes is the concatenated content cut to its first 25000
    characters when it is longer, and so never exceeds 25000. *)
Theorem llm_context_bounded (w : World) (st : AgentState) (sys ctx q : string) :
  In (EvInvoke sys ctx q) (trace (answer_question w st)) ->
  len ctx <= 25000
  /\ exists docs,
       documents st = Some docs
       /\ (len (concat_content docs) > 25000 ->
           ctx = slice_to 25000 (concat_content docs) /\ len ctx = 25000)
       /\ (len (concat_content docs) <= 25000 -> ctx = concat_content docs).
Proof.
  intros H. apply answer_question_invoke in H.
  destruct H as (docs & Hdocs & _ & Hctx).
  pose proof (len_slice_to 25000 (concat_content docs) ltac:(lia)) as Hlen.
  destruct (Z.gtb_spec (len (concat_content docs)) 25000) as [Hgt | Hle]; subst ctx.
  - split; [lia |]. exists docs. split; [assumption |]. split; [| lia].
    intros _. split; [reflexivity | lia].
  - split; [lia |]. exists docs. split; [assumption |]. split; [lia |]. reflexivity.
Qed.

Lemma llm_context_bounded_witness :
  len "Revenue: 42,000" <= 25000
  /\ exists docs,
       documents (state_with_blocks "What is the revenue?" (one_block "Revenue: 42,000"))
       = Some docs
       /\ (len (concat_content docs) > 25000 ->
           "Revenue: 42,000" ++ nl ++ nl = slice_to 25000 (concat_content docs)
           /\ len ("Revenue: 42,000" ++ nl ++ nl) = 25000)
       /\ (len (concat_content docs) <= 25000 ->
           "Revenue: 42,000" ++ nl ++ nl = concat_content docs).
Proof.
  split; [vm_compute; discriminate |].
  apply (llm_context_bounded (plain_world (Some "gsk") (inr ""))
           (state_with_blocks "What is the revenue?" (one_block "Revenue: 42,000"))
           (system_prompt "text file") ("Revenue: 42,000" ++ nl ++ nl)
           "What is the revenue?").
  vm_compute. right. right. right. left. reflexivity.
Defined.

(** ** Text clean-up keeps a text that has something in it *)

Lemma lstrip_head (s : string) :
  lstrip s = "" \/ exists c r, lstrip s = String c r /\ isspace c = false.
Proof.
  induction s as [| c s IH]; cbn; [now left |].
  destruct (isspace c) eqn:Hc; [exact IH |].
  right. now exists c, s.
Qed.

Lemma is_empty_strip (s : string) : is_empty (strip s) = is_empty (lstrip s).
Proof.
  unfold strip. destruct (lstrip_head s) as [H | (c & r & H & Hc)]; rewrite H.
  - reflexivity.
  - cbn. now rewrite Hc.
Qed.

Lemma nonblank_nonempty (s : string) : nonblank s = true -> is_empty s = false.
Proof. destruct s; [discriminate | reflexivity]. Qed.

Lemma is_empty_append (a b : string) :
  is_empty a = false -> is_empty (a ++ b) = false.
Proof. destruct a; [discriminate | reflexivity]. Qed.

Lemma join_head_nonempty (sep x : string) (l : list string) :
  is_empty x = false -> is_empty (join sep (x :: l)) = false.
Proof.
  intros Hx. destruct l as [| y l]; cbn [join]; [assumption |].
  now apply is_empty_append.
Qed.

Lemma split_ws_pending (s cur : string) :
  is_empty cur = false -> is_empty (join " " (split_ws cur s)) = false.
Proof.
  revert cur. induction s as [| c s IH]; intros cur Hcur; cbn [split_ws].
  - rewrite Hcur. exact Hcur.
  - rewrite Hcur. destruct (isspace c).
    + now apply join_head_nonempty.
    + apply IH. now apply is_empty_append.
Qed.

Lemma split_nonblank (s : string) :
  is_empty (lstrip s) = false -> is_empty (join " " (split s)) = false.
Proof.
  unfold split. induction s as [| c s IH]; cbn [lstrip split_ws is_empty].
  - discriminate.
  - destruct (isspace c); [exact IH |].
    intros _. now apply split_ws_pending.
Qed.

Lemma replace_nonempty (old new s : string) :
  is_empty new = false -> is_empty s = false ->
  is_empty (replace old new s) = false.
Proof.
  intros Hnew Hs. destruct s as [| c s]; [discriminate |].
  unfold replace. cbn [replace_go].
  destruct (String.prefix old (String c s)); [| reflexivity].
  now apply is_empty_append.
Qed.

Lemma clean_text_nonempty (text : string) :
  nonblank text = true -> is_empty (clean_text text) = false.
Proof.
  unfold nonblank, clean_text. rewrite is_empty_strip, negb_true_iff. intros H.
  apply replace_nonempty; [reflexivity |].
  apply replace_nonempty; [reflexivity |].
  now apply split_nonblank.
Qed.

(** ** What a successful extraction returns *)

Lemma sum_lengths_single (text : string) (meta : list (string * pyval)) :
  sum_lengths [ {| page_content := text; doc_metadata := meta |} ] = len text.
Proof. unfold sum_lengths. cbn [fold_right page_content]. lia. Qed.

Lemma extraction_of_weaken (P Q : list Document -> Prop) (st st' : AgentState) :
  (forall docs, P docs -> Q docs) ->
  extraction_of P st st' -> extraction_of Q st st'.
Proof.
  intros HPQ (docs & md & H1 & H2 & H3 & H4).
  exists docs, md. auto.
Qed.

Lemma single_result_extraction (st : AgentState) (text ftype : string)
    (meta : list (string * pyval)) :
  extraction_of (fun docs => docs = [ {| page_content := text; doc_metadata := meta |} ])
    st (single_result st text meta ftype).
Proof.
  unfold single_result. eexists _, _. split; [reflexivity |].
  cbn [content_length document_count List.length].
  rewrite sum_lengths_single. auto.
Qed.

Lemma excel_documents_nonempty (path : string) (xl : list (string * string)) :
  forallb block_nonempty (excel_documents path xl) = true.
Proof.
  unfold excel_documents.
  induction xl as [| [sheet_name df] xl IH]; [reflexivity |].
  cbn [map forallb]. now rewrite IH.
Qed.

Lemma _process_excel_success (w : World) (st st' : AgentState) (p ext : string) :
  outcome (_process_excel w st p ext) = inr st' ->
  extraction_of (fun docs => forallb block_nonempty docs = true) st st'.
Proof.
  unfold _process_excel. intros H.
  assert (Hx : exists xl, st' = excel_result st p xl).
  { revert H. step.
    destruct (find_spec w "openpyxl") as [e | []]; step.
    - destruct (is_import_error e) eqn:He; step; [discriminate |].
      destruct (read_excel w p "xlrd") as [e2 | xl]; step; [discriminate |].
      intros [= <-]. now exists xl.
    - destruct (read_excel w p "openpyxl") as [e | xl]; step.
      + destruct (is_import_error e); step; [discriminate |].
        destruct (read_excel w p "xlrd") as [e2 | xl]; step; [discriminate |].
        intros [= <-]. now exists xl.
      + intros [= <-]. now exists xl.
    - discriminate. }
  destruct Hx as [xl ->]. unfold excel_result.
  eexists _, _. split; [reflexivity |]. cbn [content_length document_count].
  repeat split. apply excel_documents_nonempty.
Qed.

Lemma _process_docx_success (w : World) (st st' : AgentState) (p : string) :
  outcome (_process_docx w st p) = inr st' ->
  extraction_of (fun docs => List.length docs = 1%nat) st st'.
Proof.
  unfold _process_docx. step.
  destruct (docx2txt_process w p) as [e | text]; step; [discriminate |].
  intros [= <-]. eapply extraction_of_weaken; [| apply single_result_extraction].
  now intros docs ->.
Qed.

Lemma _process_doc_success (w : World) (st st' : AgentState) (p : string) :
  outcome (_process_doc w st p) = inr st' ->
  extraction_of (fun docs => List.length docs = 1%nat) st st'.
Proof.
  unfold _process_doc. step.
  destruct (convert_file w p None) as [e | text]; step; [discriminate |].
  intros [= <-]. eapply extraction_of_weaken; [| apply single_result_extraction].
  now intros docs ->.
Qed.

Lemma _process_text_success (w : World) (st st' : AgentState) (p : string) :
  outcome (_process_text w st p) = inr st' ->
  extraction_of (fun docs => List.length docs = 1%nat) st st'.
Proof.
  unfold _process_text. step.
  destruct (read_text w p) as [e | text]; step; [discriminate |].
  intros [= <-]. eapply extraction_of_weaken; [| apply single_result_extraction].
  now intros docs ->.
Qed.

Lemma extract_pages_nonblank (p : string) (pages : list (exn + string)) (i : Z)
    (docs : list Document) :
  outcome (extract_pages p pages i) = inr docs ->
  Forall (fun d => nonblank (page_content d) = true) docs.
Proof.
  revert i docs. induction pages as [| [e | text] pages IH]; intros i docs.
  - intros [= <-]. constructor.
  - discriminate.
  - cbn [extract_pages]. rewrite outcome_bind. cbn [lift outcome fst].
    rewrite outcome_bind.
    destruct (outcome (extract_pages p pages (i + 1))) as [e | rest] eqn:Hrest;
      [discriminate |].
    specialize (IH _ _ Hrest). cbn [ret outcome fst].
    destruct (nonblank text) eqn:Htext; intros [= <-]; [constructor |]; assumption.
Qed.

Lemma cleaned_documents_nonempty (docs : list Document) :
  Forall (fun d => nonblank (page_content d) = true) docs ->
  forallb block_nonempty (map clean_document docs) = true.
Proof.
  induction 1 as [| d docs Hd _ IH]; [reflexivity |].
  cbn [map forallb]. rewrite IH, andb_true_r.
  unfold block_nonempty, clean_document. cbn [page_content].
  now rewrite clean_text_nonempty.
Qed.

Lemma _process_pdf_success (w : World) (st st' : AgentState) (p : string) :
  outcome (_process_pdf w st p) = inr st' ->
  extraction_of (fun docs => docs <> [] /\ forallb block_nonempty docs = true) st st'.
Proof.
  unfold _process_pdf. step.
  destruct (pdf_pages w p) as [e | pages]; step; [discriminate |].
  pose proof (extract_pages_nonblank p pages 0) as Hpages.
  destruct (extract_pages p pages 0) as [[e | docs] t]; step; [discriminate |].
  specialize (Hpages docs eq_refl).
  assert (Hgood : forall d docs,
            Forall (fun d => nonblank (page_content d) = true) (d :: docs) ->
            extraction_of (fun docs => docs <> [] /\ forallb block_nonempty docs = true) st
              (with_documents st (map clean_document (d :: docs))
                 {| file_type := "pdf";
                    document_count := Z.of_nat (List.length (map clean_document (d :: docs)));
                    page_count := Some (Z.of_nat (List.length pages));
                    content_length := sum_lengths (map clean_document (d :: docs)) |})).
  { intros d ds Hds. eexists _, _. split; [reflexivity |].
    cbn [content_length document_count]. repeat split.
    - discriminate.
    - now apply cleaned_documents_nonempty. }
  destruct docs as [| d docs]; step.
  - destruct (convert_file w p None) as [e | text]; step; [discriminate |].
    destruct (nonblank text) eqn:Htext; step; [| discriminate].
    intros [= <-]. refine (Hgood _ [] _). now repeat constructor.
  - intros [= <-]. exact (Hgood d docs Hpages).
Qed.

Lemma powerpoint_result_extraction (st : AgentState) (p c m : string) :
  nonblank c = true ->
  extraction_of with_text st (powerpoint_result st p c m).
Proof.
  intros Hc. unfold powerpoint_result.
  eapply extraction_of_weaken; [| apply single_result_extraction].
  intros docs ->. split; [discriminate |].
  cbn. unfold block_nonempty. cbn. now rewrite nonblank_nonempty.
Qed.

Ltac split_ifs :=
  repeat match goal with
         | |- context [if ?c then _ else _] => destruct c eqn:?; step
         end.

Lemma convert_direct_done (w : World) (st s : AgentState) (p ext c0 : string) :
  outcome (convert_direct w st p ext c0) = inr (Done s) ->
  extraction_of with_text st s.
Proof.
  unfold convert_direct. step.
  destruct (convert_file w p (Some (pandoc_format ext))) as [e | c]; step;
    [discriminate |].
  destruct (nonblank c) eqn:Hc; [| discriminate].
  intros [= <-]. now apply powerpoint_result_extraction.
Qed.

Lemma convert_subprocess_done (w : World) (st s : AgentState)
    (p ext pandoc c0 : string) :
  outcome (convert_subprocess w st p ext pandoc c0) = inr (Done s) ->
  extraction_of with_text st s.
Proof.
  unfold convert_subprocess. step.
  destruct (mktemp w) as [e | temp_path]; step; [discriminate |].
  destruct (subprocess_run w _) as [e | []]; step; [discriminate |].
  destruct (read_temp w temp_path) as [e | c]; step; [discriminate |].
  destruct (unlink w temp_path) as [e | []]; step;
    (destruct (nonblank c) eqn:Hc; [| discriminate];
     intros [= <-]; now apply powerpoint_result_extraction).
Qed.

Lemma convert_auto_done (w : World) (st s : AgentState) (p c0 : string) :
  outcome (convert_auto w st p c0) = inr (Done s) ->
  extraction_of with_text st s.
Proof.
  unfold convert_auto. step.
  destruct (convert_file w p None) as [e | c]; step; [discriminate |].
  destruct (nonblank c) eqn:Hc; [| discriminate].
  intros [= <-]. now apply powerpoint_result_extraction.
Qed.

Lemma convert_powerpoint_success (w : World) (st s : AgentState)
    (p ext pandoc : string) :
  outcome (convert_powerpoint w st p ext pandoc) = inr s ->
  extraction_of with_text st s.
Proof.
  unfold convert_powerpoint. rewrite outcome_bind.
  destruct (outcome (convert_direct w st p ext "")) as [e | [s1 | c1]] eqn:H1;
    [discriminate | |].
  { intros [= <-]. eapply convert_direct_done, H1. }
  rewrite outcome_bind.
  destruct (outcome (convert_subprocess w st p ext pandoc c1)) as [e | [s2 | c2]] eqn:H2;
    [discriminate | |].
  { intros [= <-]. eapply convert_subprocess_done, H2. }
  rewrite outcome_bind.
  destruct (outcome (convert_auto w st p c2)) as [e | [s3 | c3]] eqn:H3;
    [discriminate | |].
  { intros [= <-]. eapply convert_auto_done, H3. }
  destruct (nonblank c3) eqn:Hc; cbn [negb]; [| discriminate].
  intros [= <-]. now apply powerpoint_result_extraction.
Qed.

Lemma _process_powerpoint_success (w : World) (st st' : AgentState) (p : string) :
  outcome (_process_powerpoint w st p) = inr st' ->
  extraction_of with_text st st'.
Proof.
  unfold _process_powerpoint. intros H.
  apply try_except_reraise_inr in H.
  2:{ intros e. split_ifs; reflexivity. }
  revert H. step.
  destruct (path_exists w p); step; [| discriminate].
  destruct (getsize w p) as [e | size]; step; [discriminate |].
  destruct (size =? 0); step; [discriminate |].
  destruct (locate_pandoc w) as [[e | pandoc_path] t]; step; [discriminate |].
  destruct (truthy pandoc_path); step; [| discriminate].
  match goal with
  | |- context [convert_powerpoint w st p ?ext ?pandoc] =>
      pose proof (fun s => convert_powerpoint_success w st s p ext pandoc) as Hconv;
      destruct (convert_powerpoint w st p ext pandoc) as [[e | s] t']
  end; step; [discriminate |].
  intros [= <-]. now apply Hconv.
Qed.

Lemma dispatch_extraction (w : World) (st st' : AgentState) :
  outcome (dispatch w st) = inr st' ->
  extraction_of (blocks_as_expected w st) st st'.
Proof.
  unfold dispatch, blocks_as_expected.
  destruct (truthy (pre_processed_content st)).
  { intros [= <-]. eapply extraction_of_weaken; [| apply single_result_extraction].
    now intros docs ->. }
  destruct (truthy (file_path st)); cbn [negb]; [| discriminate].
  cbv zeta.
  remember (lower (snd (splitext w (or_default (file_path st) "")))) as ext eqn:Hext.
  clear Hext.
  destruct (in_list ext [".xlsx"; ".xls"]) eqn:H1.
  { apply _process_excel_success. }
  destruct (in_list ext [".docx"]) eqn:H2.
  { apply in_list_In in H2. destruct H2 as [<- | []]. apply _process_docx_success. }
  destruct (in_list ext [".doc"]) eqn:H3.
  { apply in_list_In in H3. destruct H3 as [<- | []]. apply _process_doc_success. }
  destruct (ext =? ".pdf")%string eqn:H4.
  { apply String.eqb_eq in H4. subst ext. apply _process_pdf_success. }
  destruct (ext =? ".txt")%string eqn:H5.
  { apply String.eqb_eq in H5. subst ext. apply _process_text_success. }
  destruct (in_list ext [".ppt"; ".pptx"]) eqn:H6; [| discriminate].
  apply in_list_In in H6. destruct H6 as [<- | [<- | []]];
    apply _process_powerpoint_success.
Qed.

(** ** Successful extraction *)

(** C7, as the code has it. When extraction succeeds, the state holds
    the blocks and a metadata record whose [content_length] is the sum
    of the lengths of the block texts. PDF and PowerPoint extraction
    give at least one block and text in every block; a workbook gives
    only blocks with text; Word and text files give exactly one block,
    whatever its text. *)
Theorem extraction_blocks (w : World) (st st' : AgentState) :
  outcome (dispatch w st) = inr st' ->
  outcome (process_document w st) = inr st'
  /\ exists docs md,
       documents st' = Some docs
       /\ metadata st' = Some md
       /\ content_length md = sum_lengths docs
       /\ blocks_as_expected w st docs.
Proof.
  intros H. split.
  - unfold process_document. rewrite outcome_try_except. now rewrite H.
  - apply dispatch_extraction in H. destruct H as (docs & md & -> & Hlen & _ & Hdocs).
    now exists docs, md.
Qed.

Lemma extraction_blocks_witness :
  exists st',
    outcome (process_document scanned_pdf_world
               (initial_state "What is the revenue?" (Some "scan.pdf") None)) = inr st'
    /\ documents st'
       = Some [ {| page_content := "Revenue : 42,000.";
                   doc_metadata := [("source", PStr "scan.pdf"); ("file_type", PStr "pdf");
                                    ("extraction_method", PStr "pypandoc")] |} ]
    /\ exists docs md,
         documents st' = Some docs
         /\ metadata st' = Some md
         /\ content_length md = sum_lengths docs
         /\ blocks_as_expected scanned_pdf_world
              (initial_state "What is the revenue?" (Some "scan.pdf") None) docs.
Proof.
  eexists. 
  destruct (extraction_blocks scanned_pdf_world
           (initial_state "What is the revenue?" (Some "scan.pdf") None) _ eq_refl) as [H1 H2].
  split; [exact H1 |]. split; [reflexivity | exact H2].
Defined.

(** C7 as stated fails on an empty text file: extraction succeeds with
    one block, and that block has no text. *)
Lemma empty_text_file_block :
  exists st',
    outcome (dispatch (plain_world (Some "gsk") (inr ""))
               (initial_state "What is the revenue?" (Some "notes.txt") None)) = inr st'
    /\ error st' = None
    /\ documents st'
       = Some [ {| page_content := "";
                   doc_metadata := [("source", PStr "notes.txt"); ("file_type", PStr "text")] |} ]
    /\ has_nonempty_block st' = false.
Proof. eexists. repeat split. Qed.

(** ** The pipeline *)

Lemma explain_answers (st : AgentState) (e : exn) :
  exists a, explain st e = with_answer st a.
Proof.
  unfold explain.
  repeat match goal with
         | |- context [if ?c then _ else _] => destruct c
         end; eexists; reflexivity.
Qed.

Lemma generate_answers (w : World) (st st' : AgentState) :
  outcome (generate w st) = inr st' -> exists a, st' = with_answer st a.
Proof.
  unfold generate.
  destruct (documents st) as [[| d docs] |];
    try (intros [= <-]; eexists; reflexivity).
  destruct (gather (d :: docs)) as [content file_type].
  destruct (nonblank content); cbn [negb];
    [| intros [= <-]; eexists; reflexivity].
  step.
  destruct (chat_groq w (getenv w "GROQ_API_KEY")) as [e | []]; step;
    [discriminate |].
  destruct (truthy (getenv w "GROQ_API_KEY")); step;
    [| intros [= <-]; eexists; reflexivity].
  destruct (in_list _ raw_content_questions); step;
    [intros [= <-]; eexists; reflexivity |].
  destruct (describe_file_type file_type) as [[e | desc] t]; step; [discriminate |].
  destruct (question st) as [q0 |]; step; [| discriminate].
  destruct (chain_invoke w (system_prompt desc) _ q0); step; [discriminate |].
  intros [= <-]. eexists; reflexivity.
Qed.

(** [answer_question] never raises, and what it returns is the state it
    was given with [answer] set. *)
Lemma answer_question_answers (w : World) (st : AgentState) :
  exists a, outcome (answer_question w st) = inr (with_answer st a).
Proof.
  unfold answer_question. rewrite outcome_try_except.
  destruct (outcome (generate w st)) as [e | st'] eqn:H.
  - destruct (explain_answers st e) as [a Ha]. exists a. cbn. now rewrite Ha.
  - apply generate_answers in H. destruct H as [a ->]. now exists a.
Qed.

(** C1, as the code has it. A pipeline run from a state without an
    error always completes, with [answer] set; [error] is set as well
    exactly when the dispatch raised. So at most one of the two is set
    exactly when extraction succeeded. *)
Theorem pipeline_completion (w : World) (st : AgentState) :
  error st = None ->
  exists st',
    outcome (graph_invoke w st) = inr st'
    /\ populated (answer st') = true
    /\ populated (error st') = is_raised (outcome (dispatch w st))
    /\ at_most_one_populated st' = negb (is_raised (outcome (dispatch w st))).
Proof.
  intros Herr. unfold graph_invoke. rewrite outcome_bind.
  unfold process_document at 1. rewrite outcome_try_except.
  destruct (outcome (dispatch w st)) as [e | st1] eqn:Hd.
  - cbn [ret outcome fst].
    destruct (answer_question_answers w
                (with_error st ("Error processing document: " ++ exn_msg e)))
      as [a Ha].
    eexists. split; [exact Ha |]. repeat split.
  - destruct (answer_question_answers w st1) as [a Ha].
    eexists. split; [exact Ha |].
    apply dispatch_extraction in Hd. destruct Hd as (docs & md & -> & _).
    unfold at_most_one_populated. cbn. rewrite Herr. repeat split.
Qed.

Lemma pipeline_completion_witness :
  exists st',
    outcome (graph_invoke (plain_world (Some "gsk") (inr "Revenue: 42,000"))
               (initial_state "What is the revenue?" (Some "notes.txt") None)) = inr st'
    /\ populated (answer st') = true
    /\ populated (error st') = false
    /\ at_most_one_populated st' = true.
Proof.
  apply (pipeline_completion (plain_world (Some "gsk") (inr "Revenue: 42,000"))
           (initial_state "What is the revenue?" (Some "notes.txt") None)).
  reflexivity.
Defined.

(** C1 as stated fails on a file of an unsupported type: the run ends
    with both [error] and [answer] set. *)
Lemma unsupported_file_answer_and_error :
  exists st',
    outcome (graph_invoke (plain_world (Some "gsk") (inr "Revenue: 42,000"))
               (initial_state "What is the revenue?" (Some "report.zip") None)) = inr st'
    /\ answer st' = Some no_documents_answer
    /\ error st' = Some "Error processing document: Unsupported file type: .zip"
    /\ at_most_one_populated st' = false.
Proof. eexists. repeat split. Qed.

(** ** Raw-content questions and short content *)

(** C2, as the code has it. Let the question, lowercased and trimmed,
    be one of the raw-content phrases. Then [answer_question] does not
    call the LLM. If moreover the concatenated content holds some text,
    the Groq client is constructed and the API key is set, it answers
    with the concatenated content, cut to exactly its first 8000
    characters when it is longer. *)
Theorem raw_content_answer (w : World) (st : AgentState) :
  in_list (strip (lower (or_default (question st) ""))) raw_content_questions = true ->
  invokes_llm (trace (answer_question w st)) = false
  /\ forall docs,
       documents st = Some docs ->
       nonblank (concat_content docs) = true ->
       is_raised (chat_groq w (getenv w "GROQ_API_KEY")) = false ->
       truthy (getenv w "GROQ_API_KEY") = true ->
       (len (concat_content docs) <= 8000 ->
        outcome (answer_question w st) = inr (with_answer st (concat_content docs)))
       /\ (len (concat_content docs) > 8000 ->
           outcome (answer_question w st)
           = inr (with_answer st (slice_to 8000 (concat_content docs)))
           /\ len (slice_to 8000 (concat_content docs)) = 8000).
Proof.
  intros Hq. split.
  { apply invokes_llm_false. intros sys ctx q Hin.
    apply answer_question_invoke in Hin. destruct Hin as (docs & _ & Hno & _).
    congruence. }
  intros docs Hdocs Htext Hgroq Hkey.
  assert (Hout : outcome (answer_question w st)
                 = inr (with_answer st
                          (if len (concat_content docs) >? 8000
                           then slice_to 8000 (concat_content docs)
                           else concat_content docs))).
  { unfold answer_question, generate. rewrite Hdocs.
    destruct docs as [| d docs]; [discriminate |].
    unfold concat_content in *.
    destruct (gather (d :: docs)) as [content file_type]. cbn [fst] in *.
    rewrite Htext. step.
    destruct (chat_groq w (getenv w "GROQ_API_KEY")) as [e | []]; [discriminate |].
    step. rewrite Hkey. step. rewrite Hq. reflexivity. }
  pose proof (len_slice_to 8000 (concat_content docs) ltac:(lia)) as Hlen.
  rewrite Hout.
  destruct (Z.gtb_spec (len (concat_content docs)) 8000) as [Hgt | Hle].
  - split; [lia |]. intros _. split; [reflexivity | lia].
  - split; [reflexivity | lia].
Qed.

Lemma raw_content_answer_witness :
  invokes_llm
    (trace (answer_question (plain_world (Some "gsk") (inr ""))
              (state_with_blocks " Raw Content " (one_block "Revenue: 42,000"))))
  = false
  /\ outcome (answer_question (plain_world (Some "gsk") (inr ""))
                (state_with_blocks " Raw Content " (one_block "Revenue: 42,000")))
     = inr (with_answer (state_with_blocks " Raw Content " (one_block "Revenue: 42,000"))
              ("Revenue: 42,000" ++ nl ++ nl)).
Proof.
  destruct (raw_content_answer (plain_world (Some "gsk") (inr ""))
              (state_with_blocks " Raw Content " (one_block "Revenue: 42,000"))
              eq_refl) as (Hllm & Hanswer).
  split; [exact Hllm |].
  destruct (Hanswer (one_block "Revenue: 42,000") eq_refl eq_refl eq_refl eq_refl)
    as (Hshort & _).
  apply Hshort. vm_compute. discriminate.
Defined.

(** C2 as stated fails on a host whose [GROQ_API_KEY] is set to the
    empty string: the question is a raw-content phrase, the blocks hold
    text, the client is constructed, and the answer is the missing-key
    message instead of the content. It fails as well, on any host, for
    blocks that hold only whitespace: the answer is the empty-document
    message. *)
Lemma raw_content_not_returned :
  in_list (strip (lower " Raw Content ")) raw_content_questions = true
  /\ getenv (plain_world (Some "") (inr "")) "GROQ_API_KEY" = Some ""
  /\ answer_question (plain_world (Some "") (inr ""))
       (state_with_blocks " Raw Content " (one_block "Revenue: 42,000"))
     = (inr (with_answer (state_with_blocks " Raw Content " (one_block "Revenue: 42,000"))
               no_api_key_answer),
        [EvGetenv "GROQ_API_KEY"; EvChatGroq (Some ""); EvGetenv "GROQ_API_KEY"])
  /\ concat_content (one_block "Revenue: 42,000") = "Revenue: 42,000" ++ nl ++ nl
  /\ no_api_key_answer <> concat_content (one_block "Revenue: 42,000")
  /\ answer_question (plain_world (Some "gsk") (inr ""))
       (state_with_blocks " Raw Content " (one_block "   "))
     = (inr (with_answer (state_with_blocks " Raw Content " (one_block "   "))
               empty_document_answer),
        [])
  /\ concat_content (one_block "   ") = "   " ++ nl ++ nl
  /\ empty_document_answer <> concat_content (one_block "   ").
Proof. repeat split; discriminate. Qed.

(** C10, as the code has it. With pre-processed content that is not
    empty and has fewer than 10 characters, [run] returns the fixed
    too-short message and nothing is requested on the way: no extractor
    runs and the LLM is not called. *)
Theorem run_rejects_short_content (w : World) (q : string) (path : option string)
    (content : string) :
  content <> "" ->
  len content < 10 ->
  run w q path (Some content) = (inr too_short_answer, []).
Proof.
  intros Hne Hlen. unfold run.
  assert (Ht : truthy (Some content) = true)
    by (destruct content; [congruence | reflexivity]).
  rewrite Ht, andb_false_r. cbn [or_default].
  apply Z.ltb_lt in Hlen. now rewrite Hlen.
Qed.

Lemma run_rejects_short_content_witness :
  run (plain_world (Some "gsk") (inr "Revenue: 42,000")) "What is the revenue?"
    (Some "notes.txt") (Some "42,000")
  = (inr too_short_answer, []).
Proof.
  apply (run_rejects_short_content _ _ _ "42,000").
  - discriminate.
  - vm_compute. reflexivity.
Defined.

(** C10 as stated fails on empty content, which has fewer than 10
    characters: [run] takes it as not supplied. Given a file path as
    well, it runs the whole pipeline; given none, it returns the
    no-document message. *)
Lemma run_with_empty_content :
  len "" < 10
  /\ outcome (run (plain_world (Some "gsk") (inr "Revenue: 42,000"))
                "What is the revenue?" (Some "notes.txt") (Some ""))
     = inr "The revenue is 42,000."
  /\ existsb (fun ev => match ev with EvExtractor _ => true | _ => false end)
       (trace (run (plain_world (Some "gsk") (inr "Revenue: 42,000"))
                 "What is the revenue?" (Some "notes.txt") (Some ""))) = true
  /\ invokes_llm
       (trace (run (plain_world (Some "gsk") (inr "Revenue: 42,000"))
                 "What is the revenue?" (Some "notes.txt") (Some ""))) = true
  /\ outcome (run (plain_world (Some "gsk") (inr "Revenue: 42,000"))
                "What is the revenue?" None (Some ""))
     = inr "No document provided. Please provide either a file path or pre-processed content.".
Proof. repeat split. Qed.

(** ** Fallback chains *)

(** C3, as the code has it. Let openpyxl be installed and reading the
    workbook with it fail with [e]. If [e] is not an [ImportError], the
    workbook is read once more, with xlrd, and only then can the
    extractor fail: it fails exactly when xlrd fails too, and otherwise
    returns the sheets xlrd read. If [e] is an [ImportError], the
    extractor fails at once and xlrd is not tried. *)
Theorem excel_engine_fallback (w : World) (st : AgentState) (p ext : string) (e : exn) :
  find_spec w "openpyxl" = inr true ->
  read_excel w p "openpyxl" = inl e ->
  (is_import_error e = false ->
   trace (_process_excel w st p ext)
   = [EvExtractor "_process_excel"; EvFindSpec "openpyxl";
      EvReadExcel p "openpyxl"; EvReadExcel p "xlrd"]
   /\ excel_attempts "xlrd" (trace (_process_excel w st p ext)) = 1%nat
   /\ match read_excel w p "xlrd" with
      | inl xlrd_e =>
          outcome (_process_excel w st p ext)
          = inl (Exn ValueError
                   ("Error processing Excel file: Failed to process Excel file with both openpyxl and xlrd engines: "
                    ++ exn_msg e ++ " and " ++ exn_msg xlrd_e))
      | inr xl => outcome (_process_excel w st p ext) = inr (excel_result st p xl)
      end)
  /\ (is_import_error e = true ->
      outcome (_process_excel w st p ext)
      = inl (Exn ValueError
               ("Error processing Excel file: Excel processing error: " ++ exn_msg e))
      /\ excel_attempts "xlrd" (trace (_process_excel w st p ext)) = 0%nat).
Proof.
  intros Hspec Hread. unfold _process_excel. step. rewrite Hspec, Hread. step.
  split; intros Hcls; rewrite Hcls; step.
  - destruct (read_excel w p "xlrd") as [xlrd_e | xl]; step;
      repeat split.
  - split; reflexivity.
Qed.

Lemma excel_engine_fallback_witness :
  excel_attempts "xlrd"
    (trace (_process_excel
              (sample_world None (inl corrupt_workbook) (inr [("Sheet1", "   Revenue  0    42000")])
                 unavailable unavailable unavailable)
              (initial_state "What is the revenue?" (Some "book.xls") None)
              "book.xls" ".xls")) = 1%nat
  /\ outcome (_process_excel
              (sample_world None (inl corrupt_workbook) (inr [("Sheet1", "   Revenue  0    42000")])
                 unavailable unavailable unavailable)
              (initial_state "What is the revenue?" (Some "book.xls") None)
              "book.xls" ".xls")
     = inr (excel_result (initial_state "What is the revenue?" (Some "book.xls") None)
              "book.xls" [("Sheet1", "   Revenue  0    42000")]).
Proof.
  destruct (excel_engine_fallback
              (sample_world None (inl corrupt_workbook) (inr [("Sheet1", "   Revenue  0    42000")])
                 unavailable unavailable unavailable)
              (initial_state "What is the revenue?" (Some "book.xls") None)
              "book.xls" ".xls" corrupt_workbook eq_refl eq_refl) as [H _].
  destruct (H eq_refl) as (_ & Hn & Hout).
  split; [exact Hn | exact Hout].
Defined.

(** C3 as stated fails when the primary engine fails with an
    [ImportError]: the extractor fails without reading the workbook
    with xlrd, which would have read it. *)
Lemma excel_import_error_no_retry :
  read_excel (sample_world None (inl old_openpyxl) (inr [("Sheet1", "   Revenue  0    42000")])
                unavailable unavailable unavailable) "book.xlsx" "openpyxl"
  = inl old_openpyxl
  /\ is_raised
       (outcome (_process_excel
                   (sample_world None (inl old_openpyxl) (inr [("Sheet1", "   Revenue  0    42000")])
                      unavailable unavailable unavailable)
                   (initial_state "What is the revenue?" (Some "book.xlsx") None)
                   "book.xlsx" ".xlsx")) = true
  /\ trace (_process_excel
              (sample_world None (inl old_openpyxl) (inr [("Sheet1", "   Revenue  0    42000")])
                 unavailable unavailable unavailable)
              (initial_state "What is the revenue?" (Some "book.xlsx") None)
              "book.xlsx" ".xlsx")
     = [EvExtractor "_process_excel"; EvFindSpec "openpyxl"; EvReadExcel "book.xlsx" "openpyxl"]
  /\ excel_attempts "xlrd"
       (trace (_process_excel
                 (sample_world None (inl old_openpyxl) (inr [("Sheet1", "   Revenue  0    42000")])
                    unavailable unavailable unavailable)
                 (initial_state "What is the revenue?" (Some "book.xlsx") None)
                 "book.xlsx" ".xlsx")) = 0%nat.
Proof. repeat split. Qed.

(** Without openpyxl on the host nothing is read at all. *)
Lemma excel_missing_openpyxl (w : World) (st : AgentState) (p ext : string) :
  find_spec w "openpyxl" = inr false ->
  _process_excel w st p ext
  = (inl (Exn ValueError
            "Error processing Excel file: Excel processing error: Missing required dependency 'openpyxl' for Excel processing. Please install with: pip install openpyxl"),
     [EvExtractor "_process_excel"; EvFindSpec "openpyxl"]).
Proof.
  intros Hspec. unfold _process_excel. step. rewrite Hspec. reflexivity.
Qed.


Lemma extract_pages_blank (p : string) (pages : list (exn + string)) (i : Z) :
  Forall (fun page => exists text, page = inr text /\ nonblank text = false) pages ->
  extract_pages p pages i = (inr [], []).
Proof.
  intros H. revert i. induction H as [| page pages (text & -> & Hblank) _ IH]; intros i.
  - reflexivity.
  - cbn [extract_pages]. step. rewrite IH, Hblank. reflexivity.
Qed.

(** C6. For a PDF whose pages all give empty or whitespace-only text,
    the extractor asks pypandoc for the text right after reading the
    pages, and raises exactly when pypandoc fails or gives no
    non-whitespace text; otherwise it returns the converted text,
    cleaned up, as the only block. *)
Theorem pdf_converter_fallback (w : World) (st : AgentState) (p : string)
    (pages : list (exn + string)) :
  pdf_pages w p = inr pages ->
  Forall (fun page => exists text, page = inr text /\ nonblank text = false) pages ->
  trace (_process_pdf w st p)
  = [EvExtractor "_process_pdf"; EvPdfOpen p; EvPandoc p None]
  /\ match convert_file w p None with
     | inr text =>
         if nonblank text
         then exists md,
                outcome (_process_pdf w st p)
                = inr (with_documents st
                         [ {| page_content := clean_text text;
                              doc_metadata :=
                                [("source", PStr p); ("file_type", PStr "pdf");
                                 ("extraction_method", PStr "pypandoc")] |} ] md)
         else is_raised (outcome (_process_pdf w st p)) = true
     | inl _ => is_raised (outcome (_process_pdf w st p)) = true
     end.
Proof.
  intros Hpdf Hpages. unfold _process_pdf. step. rewrite Hpdf. step.
  rewrite (extract_pages_blank p pages 0 Hpages). step.
  destruct (convert_file w p None) as [e | text]; step.
  - split; reflexivity.
  - destruct (nonblank text); step.
    + split; [reflexivity |]. eexists. reflexivity.
    + split; reflexivity.
Qed.

Lemma pdf_converter_fallback_witness :
  trace (_process_pdf scanned_pdf_world
           (initial_state "What is the revenue?" (Some "scan.pdf") None) "scan.pdf")
  = [EvExtractor "_process_pdf"; EvPdfOpen "scan.pdf"; EvPandoc "scan.pdf" None]
  /\ exists md,
       outcome (_process_pdf scanned_pdf_world
                  (initial_state "What is the revenue?" (Some "scan.pdf") None) "scan.pdf")
       = inr (with_documents (initial_state "What is the revenue?" (Some "scan.pdf") None)
                [ {| page_content := "Revenue : 42,000.";
                     doc_metadata :=
                       [("source", PStr "scan.pdf"); ("file_type", PStr "pdf");
                        ("extraction_method", PStr "pypandoc")] |} ] md).
Proof.
  apply (pdf_converter_fallback scanned_pdf_world
           (initial_state "What is the revenue?" (Some "scan.pdf") None) "scan.pdf"
           [inr "  "; inr ""]).
  - reflexivity.
  - repeat constructor; eexists; split; reflexivity.
Defined.

(** ** The text the answer generator reads *)

Lemma length_append (a b : string) :
  String.length (a ++ b) = (String.length a + String.length b)%nat.
Proof. induction a as [| c a IH]; cbn; [reflexivity | now rewrite IH]. Qed.

Lemma len_append (a b : string) : len (a ++ b) = len a + len b.
Proof. unfold len. rewrite length_append. lia. Qed.

Lemma is_empty_lstrip_append (a b : string) :
  is_empty (lstrip (a ++ b)) = is_empty (lstrip a) && is_empty (lstrip b).
Proof.
  induction a as [| c a IH]; cbn [append lstrip]; [reflexivity |].
  destruct (isspace c); [exact IH | reflexivity].
Qed.

Lemma nonblank_append (a b : string) :
  nonblank (a ++ b) = nonblank a || nonblank b.
Proof.
  unfold nonblank. rewrite !is_empty_strip, is_empty_lstrip_append.
  now rewrite negb_andb.
Qed.

Lemma gather_content (docs : list Document) (content : string) (file_type : pyval) :
  len (fst (fold_left gather_step docs (content, file_type)))
  = len content + sum_lengths docs + 2 * Z.of_nat (List.length docs)
  /\ nonblank (fst (fold_left gather_step docs (content, file_type)))
     = nonblank content || existsb block_nonblank docs.
Proof.
  revert content file_type. induction docs as [| d docs IH]; intros content file_type.
  - cbn [fold_left fst sum_lengths fold_right List.length existsb].
    rewrite orb_false_r. split; [lia | reflexivity].
  - cbn [fold_left].
    change (gather_step (content, file_type) d)
      with (content ++ page_content d ++ nl ++ nl,
            if negb (pyval_truthy file_type) || pyval_is_unknown file_type
            then meta_get (doc_metadata d) "file_type" file_type
            else file_type).
    destruct (IH (content ++ page_content d ++ nl ++ nl)
                (if negb (pyval_truthy file_type) || pyval_is_unknown file_type
                 then meta_get (doc_metadata d) "file_type" file_type
                 else file_type)) as [Hlen Hnb].
    rewrite Hlen, Hnb. rewrite !len_append, !nonblank_append.
    cbn [sum_lengths fold_right List.length existsb].
    unfold block_nonblank at 2.
    change (nonblank nl) with false. change (len nl) with 1.
    fold (sum_lengths docs).
    rewrite !orb_false_r, orb_assoc. split; [lia | reflexivity].
Qed.

(** X1. The text given to the answer generator is two characters longer
    per block than the total the extractor recorded. *)
Theorem concat_content_length (docs : list Document) :
  len (concat_content docs) = sum_lengths docs + 2 * Z.of_nat (List.length docs).
Proof.
  unfold concat_content, gather.
  destruct (gather_content docs "" (PStr "unknown")) as [H _]. rewrite H.
  change (len "") with 0. lia.
Qed.

(** X2. The concatenated text holds a non-whitespace character exactly
    when some block does. *)
Theorem concat_content_nonblank (docs : list Document) :
  nonblank (concat_content docs) = existsb block_nonblank docs.
Proof.
  unfold concat_content, gather.
  destruct (gather_content docs "" (PStr "unknown")) as [_ H]. now rewrite H.
Qed.

(** ** What [answer_question] asks of the outside *)

(** The requests of [answer_question], in order: nothing at all; or the
    API key and the client; or these and the API key again; or these
    and one call of the LLM. *)
Lemma answer_question_trace (w : World) (st : AgentState) :
  let key := getenv w "GROQ_API_KEY" in
  trace (answer_question w st) = []
  \/ trace (answer_question w st) = [EvGetenv "GROQ_API_KEY"; EvChatGroq key]
  \/ trace (answer_question w st)
     = [EvGetenv "GROQ_API_KEY"; EvChatGroq key; EvGetenv "GROQ_API_KEY"]
  \/ exists sys ctx q,
       trace (answer_question w st)
       = [EvGetenv "GROQ_API_KEY"; EvChatGroq key; EvGetenv "GROQ_API_KEY";
          EvInvoke sys ctx q].
Proof.
  cbv zeta. unfold answer_question, generate.
  destruct (documents st) as [[| d docs] |]; try (left; reflexivity).
  destruct (gather (d :: docs)) as [content file_type].
  destruct (nonblank content); [| left; reflexivity].
  step.
  destruct (chat_groq w (getenv w "GROQ_API_KEY")) as [e | []]; step;
    [right; left; reflexivity |].
  destruct (truthy (getenv w "GROQ_API_KEY")); step;
    [| right; right; left; reflexivity].
  destruct (in_list _ raw_content_questions); step;
    [right; right; left; reflexivity |].
  pose proof (trace_describe_file_type file_type) as Ht.
  destruct (describe_file_type file_type) as [[e | desc] t]; cbn in Ht; subst t;
    step; [right; right; left; reflexivity |].
  destruct (question st) as [q0 |]; step; [| right; right; left; reflexivity].
  destruct (chain_invoke w (system_prompt desc) _ q0); step;
    right; right; right; eexists _, _, _; reflexivity.
Qed.

(** X3. [answer_question] calls the LLM at most once, and only as its
    last request. *)
Theorem llm_called_at_most_once (w : World) (st : AgentState) :
  (llm_calls (trace (answer_question w st)) <= 1)%nat
  /\ llm_calls (removelast (trace (answer_question w st))) = 0%nat.
Proof.
  destruct (answer_question_trace w st) as [H | [H | [H | (sys & ctx & q & H)]]];
    rewrite H; cbn; split; lia.
Qed.

(** X4. [answer_question] never raises: it returns the state it was
    given with [answer] set and every other field unchanged. *)
Theorem answer_question_never_raises (w : World) (st : AgentState) :
  exists st',
    outcome (answer_question w st) = inr st'
    /\ populated (answer st') = true
    /\ file_path st' = file_path st
    /\ pre_processed_content st' = pre_processed_content st
    /\ question st' = question st
    /\ documents st' = documents st
    /\ metadata st' = metadata st
    /\ error st' = error st.
Proof.
  destruct (answer_question_answers w st) as [a Ha].
  exists (with_answer st a). split; [exact Ha |]. repeat split.
Qed.


(** X5. Without a question in the state, no LLM call is made: the
    look-up of the key fails and the answer reports it. *)
Theorem answer_without_question (w : World) (st : AgentState)
    (docs : list Document) (ft : string) :
  question st = None ->
  documents st = Some docs ->
  nonblank (concat_content docs) = true ->
  snd (gather docs) = PStr ft ->
  is_raised (chat_groq w (getenv w "GROQ_API_KEY")) = false ->
  truthy (getenv w "GROQ_API_KEY") = true ->
  answer_question w st
  = (inr (with_answer st
            "I apologize, but I encountered an error while processing your question: 'question'"),
     [EvGetenv "GROQ_API_KEY"; EvChatGroq (getenv w "GROQ_API_KEY");
      EvGetenv "GROQ_API_KEY"]).
Proof.
  intros Hq Hdocs Htext Hft Hgroq Hkey.
  unfold answer_question, generate. rewrite Hdocs.
  destruct docs as [| d docs]; [discriminate |].
  unfold concat_content in Htext.
  destruct (gather (d :: docs)) as [content file_type]. cbn [fst snd] in *.
  subst file_type. rewrite Htext. step.
  destruct (chat_groq w (getenv w "GROQ_API_KEY")) as [e | []]; [discriminate |].
  step. rewrite Hkey, Hq. step.
  change (in_list (strip (lower (or_default None ""))) raw_content_questions) with false.
  step.
  pose proof (trace_describe_file_type (PStr ft)) as Ht.
  destruct (describe_file_type (PStr ft)) as [[e | desc] t] eqn:Hd; cbn in Ht; subst t.
  - exfalso. revert Hd. unfold describe_file_type, pyval_contains. step.
    repeat (match goal with
            | |- context [contains ?a ?b] => destruct (contains a b)
            end; step); discriminate.
  - step. reflexivity.
Qed.

Lemma answer_without_question_witness :
  answer_question (plain_world (Some "gsk") (inr ""))
    {| file_path := None; pre_processed_content := None; question := None;
       documents := Some (one_block "Revenue: 42,000"); metadata := None;
       answer := None; error := None |}
  = (inr (with_answer
            {| file_path := None; pre_processed_content := None; question := None;
               documents := Some (one_block "Revenue: 42,000"); metadata := None;
               answer := None; error := None |}
            "I apologize, but I encountered an error while processing your question: 'question'"),
     [EvGetenv "GROQ_API_KEY"; EvChatGroq (Some "gsk"); EvGetenv "GROQ_API_KEY"]).
Proof.
  apply (answer_without_question (plain_world (Some "gsk") (inr "")) _
           (one_block "Revenue: 42,000") "text"); reflexivity.
Defined.
(** ** The PowerPoint conversion chain *)

Lemma convert_direct_cases (w : World) (st : AgentState) (p ext c0 : string) :
  (exists c, nonblank c = true
             /\ outcome (convert_direct w st p ext c0)
                = inr (Done (powerpoint_result st p c "direct_conversion")))
  \/ (exists c, (nonblank c0 = false -> nonblank c = false)
                /\ outcome (convert_direct w st p ext c0) = inr (Next c)).
Proof.
  unfold convert_direct. step.
  destruct (convert_file w p (Some (pandoc_format ext))) as [e | c]; step.
  - right. now exists c0.
  - destruct (nonblank c) eqn:Hc; [left | right]; now exists c.
Qed.

Lemma convert_subprocess_cases (w : World) (st : AgentState)
    (p ext pandoc c0 : string) :
  (exists c, nonblank c = true
             /\ outcome (convert_subprocess w st p ext pandoc c0)
                = inr (Done (powerpoint_result st p c "subprocess_conversion")))
  \/ (exists c, (nonblank c0 = false -> nonblank c = false)
                /\ outcome (convert_subprocess w st p ext pandoc c0) = inr (Next c)).
Proof.
  unfold convert_subprocess. step.
  destruct (mktemp w) as [e | temp_path]; step; [right; now exists c0 |].
  destruct (subprocess_run w _) as [e | []]; step; [right; now exists c0 |].
  destruct (read_temp w temp_path) as [e | c]; step; [right; now exists c0 |].
  destruct (unlink w temp_path) as [e | []]; step;
    (destruct (nonblank c) eqn:Hc; [left | right]; now exists c).
Qed.

Lemma convert_auto_cases (w : World) (st : AgentState) (p c0 : string) :
  (exists c, nonblank c = true
             /\ outcome (convert_auto w st p c0)
                = inr (Done (powerpoint_result st p c "auto_detection")))
  \/ (exists c, (nonblank c0 = false -> nonblank c = false)
                /\ outcome (convert_auto w st p c0) = inr (Next c)).
Proof.
  unfold convert_auto. step.
  destruct (convert_file w p None) as [e | c]; step.
  - right. now exists c0.
  - destruct (nonblank c) eqn:Hc; [left | right]; now exists c.
Qed.

Lemma conversion_chain_cases (w : World) (st : AgentState)
    (p ext pandoc : string) :
  match outcome (convert_powerpoint w st p ext pandoc) with
  | inr s =>
      exists c m,
        s = powerpoint_result st p c m
        /\ nonblank c = true
        /\ In m conversion_methods
  | inl e =>
      e = Exn ValueError
            ("Failed to extract content from PowerPoint file: " ++ p
             ++ ". The file may be empty, corrupted, or not a valid PowerPoint file.")
  end.
Proof.
  unfold convert_powerpoint, conversion_methods. rewrite outcome_bind.
  destruct (convert_direct_cases w st p ext "") as [(c & Hc & ->) | (c1 & H1 & ->)].
  { exists c, "direct_conversion". cbn. tauto. }
  specialize (H1 eq_refl). rewrite outcome_bind.
  destruct (convert_subprocess_cases w st p ext pandoc c1)
    as [(c & Hc & ->) | (c2 & H2 & ->)].
  { exists c, "subprocess_conversion". cbn. tauto. }
  specialize (H2 H1). rewrite outcome_bind.
  destruct (convert_auto_cases w st p c2) as [(c & Hc & ->) | (c3 & H3 & ->)].
  { exists c, "auto_detection". cbn. tauto. }
  specialize (H3 H2). rewrite H3. reflexivity.
Qed.

(** X6. The conversion chain returns only what one of its three methods
    produced, a text holding a non-whitespace character; when all three
    are exhausted it raises, so the return that follows them in the
    source is never reached. *)
Theorem conversion_chain_result (w : World) (st : AgentState)
    (p ext pandoc : string) :
  match outcome (convert_powerpoint w st p ext pandoc) with
  | inr s =>
      exists c m,
        s = powerpoint_result st p c m
        /\ nonblank c = true
        /\ In m conversion_methods
  | inl e =>
      e = Exn ValueError
            ("Failed to extract content from PowerPoint file: " ++ p
             ++ ". The file may be empty, corrupted, or not a valid PowerPoint file.")
  end.
Proof. exact (conversion_chain_cases w st p ext pandoc). Qed.
(** X7. When the conversion with an explicit format gives a text that
    holds a non-whitespace character, that text is the result and no
    other method is tried: no temporary file, no subprocess, no second
    conversion. *)
Theorem conversion_first_success (w : World) (st : AgentState)
    (p ext pandoc c : string) :
  convert_file w p (Some (pandoc_format ext)) = inr c ->
  nonblank c = true ->
  convert_powerpoint w st p ext pandoc
  = (inr (powerpoint_result st p c "direct_conversion"),
     [EvPandoc p (Some (pandoc_format ext))]).
Proof.
  intros Hconv Hc. unfold convert_powerpoint, convert_direct. step.
  rewrite Hconv. step. rewrite Hc. reflexivity.
Qed.

Lemma conversion_first_success_witness :
  convert_powerpoint (pandoc_world (inr "Q3 revenue") unavailable unavailable unavailable)
    (initial_state "What is the revenue?" (Some "deck.pptx") None)
    "deck.pptx" ".pptx" "/opt/bin/pandoc"
  = (inr (powerpoint_result (initial_state "What is the revenue?" (Some "deck.pptx") None)
            "deck.pptx" "Q3 revenue" "direct_conversion"),
     [EvPandoc "deck.pptx" (Some "pptx")]).
Proof.
  apply (conversion_first_success
           (pandoc_world (inr "Q3 revenue") unavailable unavailable unavailable));
    reflexivity.
Defined.

(** X8. The temporary file of the subprocess method is removed exactly
    when the converted text was read back from it: when the subprocess
    or the read fails, the file is left in place. An [unlink] that
    fails changes nothing of the result. *)
Theorem temporary_file_removal (w : World) (st : AgentState)
    (p ext pandoc c0 temp_path : string) :
  mktemp w = inr temp_path ->
  let cmd := pandoc_command pandoc p temp_path ext in
  trace (convert_subprocess w st p ext pandoc c0)
  = match subprocess_run w cmd, read_temp w temp_path with
    | inr _, inr _ =>
        [EvMkTemp; EvSubprocess cmd; EvReadTemp temp_path; EvUnlink temp_path]
    | inr _, inl _ => [EvMkTemp; EvSubprocess cmd; EvReadTemp temp_path]
    | inl _, _ => [EvMkTemp; EvSubprocess cmd]
    end
  /\ match subprocess_run w cmd, read_temp w temp_path with
     | inr _, inr c =>
         outcome (convert_subprocess w st p ext pandoc c0)
         = inr (if nonblank c
                then Done (powerpoint_result st p c "subprocess_conversion")
                else Next c)
     | _, _ => outcome (convert_subprocess w st p ext pandoc c0) = inr (Next c0)
     end.
Proof.
  intros Htemp. cbv zeta. unfold convert_subprocess, pandoc_command. step.
  rewrite Htemp. step.
  destruct (subprocess_run w _) as [e | []]; step; [split; reflexivity |].
  destruct (read_temp w temp_path) as [e | c]; step; [split; reflexivity |].
  destruct (unlink w temp_path) as [e | []]; step; split; reflexivity.
Qed.

Lemma temporary_file_removal_witness :
  trace (convert_subprocess
           (pandoc_world unavailable unavailable (inl (Exn OtherError "exit status 1"))
              (inr ""))
           (initial_state "What is the revenue?" (Some "deck.pptx") None)
           "deck.pptx" ".pptx" "/opt/bin/pandoc" "")
  = [EvMkTemp;
     EvSubprocess ["/opt/bin/pandoc"; "deck.pptx"; "-o"; "/tmp/tmpa1b2.txt";
                   "--from"; "pptx"; "--to"; "plain"]]
  /\ outcome (convert_subprocess
                (pandoc_world unavailable unavailable
                   (inl (Exn OtherError "exit status 1")) (inr ""))
                (initial_state "What is the revenue?" (Some "deck.pptx") None)
                "deck.pptx" ".pptx" "/opt/bin/pandoc" "")
     = inr (Next "").
Proof.
  apply (temporary_file_removal
           (pandoc_world unavailable unavailable (inl (Exn OtherError "exit status 1"))
              (inr ""))
           (initial_state "What is the revenue?" (Some "deck.pptx") None)
           "deck.pptx" ".pptx" "/opt/bin/pandoc" "" "/tmp/tmpa1b2.txt").
  reflexivity.
Defined.

(** X9. A presentation that is missing or has no bytes is rejected
    before anything else happens: the converter is neither looked for
    nor run. *)
Theorem powerpoint_missing_or_empty (w : World) (st : AgentState) (p : string) :
  path_exists w p = false \/ getsize w p = inr 0 ->
  is_raised (outcome (_process_powerpoint w st p)) = true
  /\ (trace (_process_powerpoint w st p)
      = [EvExtractor "_process_powerpoint"; EvExists p]
      \/ trace (_process_powerpoint w st p)
         = [EvExtractor "_process_powerpoint"; EvExists p; EvGetsize p]).
Proof.
  intros H. unfold _process_powerpoint. step.
  destruct (path_exists w p) eqn:Hex; step.
  - destruct H as [H | H]; [discriminate |]. rewrite H. step.
    change (0 =? 0) with true. step.
    split_ifs; (split; [reflexivity | right; reflexivity]).
  - split_ifs; (split; [reflexivity | left; reflexivity]).
Qed.

Lemma powerpoint_missing_or_empty_witness :
  is_raised (outcome (_process_powerpoint no_pandoc_world
                        (initial_state "What is the revenue?" (Some "gone.pptx") None)
                        "gone.pptx")) = true
  /\ (trace (_process_powerpoint no_pandoc_world
               (initial_state "What is the revenue?" (Some "gone.pptx") None) "gone.pptx")
      = [EvExtractor "_process_powerpoint"; EvExists "gone.pptx"]
      \/ trace (_process_powerpoint no_pandoc_world
                  (initial_state "What is the revenue?" (Some "gone.pptx") None) "gone.pptx")
         = [EvExtractor "_process_powerpoint"; EvExists "gone.pptx"; EvGetsize "gone.pptx"]).
Proof.
  apply (powerpoint_missing_or_empty no_pandoc_world). left. reflexivity.
Defined.
(** ** Locating the converter *)

(** X10. The probe of the install paths settles on the first candidate
    that exists, in the order of the list, and asks about no candidate
    after it. *)
Theorem first_existing_is_find (w : World) (paths : list string) :
  outcome (first_existing w paths) = inr (find (path_exists w) paths)
  /\ forall q, In (EvExists q) (trace (first_existing w paths)) ->
       In q paths
       /\ (path_exists w q = true -> find (path_exists w) paths = Some q).
Proof.
  induction paths as [| path rest [IHo IHt]]; cbn [first_existing find].
  - split; [reflexivity |]. intros q [].
  - step. destruct (path_exists w path) eqn:Hex; step.
    + split; [reflexivity |]. intros q [Hq | [Hq | []]]; [| discriminate].
      injection Hq as <-. split; [now left | reflexivity].
    + destruct (first_existing w rest) as [[e | found] t]; cbn in IHo, IHt.
      * discriminate.
      * injection IHo as ->. step. split; [reflexivity |].
        intros q [Hq | Hq].
        -- injection Hq as <-. split; [now left | congruence].
        -- destruct (IHt q Hq) as [Hin Hfound]. split; [now right | exact Hfound].
Qed.

(** X11. A converter named by [PYPANDOC_PANDOC] is taken as it is:
    pypandoc is not asked, no install path is probed and the PATH is
    not searched. *)
Theorem pandoc_environment_override (w : World) :
  truthy (getenv w "PYPANDOC_PANDOC") = true ->
  locate_pandoc w
  = (inr (getenv w "PYPANDOC_PANDOC"),
     [EvGetenv "PYPANDOC_PANDOC"; EvGetenv "PYPANDOC_PANDOC"]).
Proof.
  intros H. unfold locate_pandoc. step. rewrite H. step. rewrite H. reflexivity.
Qed.

Lemma pandoc_environment_override_witness :
  locate_pandoc (with_getenv pandoc_override no_pandoc_world)
  = (inr (Some "/opt/pandoc/bin/pandoc"),
     [EvGetenv "PYPANDOC_PANDOC"; EvGetenv "PYPANDOC_PANDOC"]).
Proof.
  apply (pandoc_environment_override (with_getenv pandoc_override no_pandoc_world)).
  reflexivity.
Defined.

Lemma requests_conversion_app (t1 t2 : list event) :
  requests_conversion (t1 ++ t2) = requests_conversion t1 || requests_conversion t2.
Proof. apply existsb_app. Qed.

Lemma first_existing_no_conversion (w : World) (paths : list string) :
  requests_conversion (trace (first_existing w paths)) = false.
Proof.
  induction paths as [| path rest IH]; [reflexivity |].
  cbn [first_existing]. rewrite trace_bind. cbn [ask call trace outcome fst snd].
  destruct (path_exists w path); [reflexivity |].
  rewrite requests_conversion_app, IH. reflexivity.
Qed.

Lemma possible_paths_no_conversion (w : World) :
  requests_conversion (trace (possible_paths w)) = false
  /\ is_raised (outcome (possible_paths w)) = false.
Proof.
  unfold possible_paths.
  destruct (lower (platform_system w) =? "windows")%string; [split; reflexivity |].
  destruct (lower (platform_system w) =? "darwin")%string; split; reflexivity.
Qed.

(** Looking for the converter does not run it. *)
Lemma locate_pandoc_no_conversion (w : World) :
  requests_conversion (trace (locate_pandoc w)) = false.
Proof.
  unfold locate_pandoc. rewrite trace_bind. cbn [ask call trace outcome fst snd].
  rewrite requests_conversion_app, trace_bind, requests_conversion_app.
  cbn [requests_conversion existsb is_conversion orb]. fold requests_conversion.
  apply orb_false_intro.
  - destruct (truthy (getenv w "PYPANDOC_PANDOC")); [reflexivity |].
    unfold try_except_when. rewrite trace_try_except, requests_conversion_app.
    destruct (get_pandoc_path w) as [e | found]; [| reflexivity].
    cbn [call bind trace outcome fst snd requests_conversion existsb is_conversion orb].
    destruct (is_os_or_import_error e); [| reflexivity].
    rewrite trace_bind, requests_conversion_app.
    destruct (possible_paths_no_conversion w) as [Ht Ho]. rewrite Ht.
    destruct (outcome (possible_paths w)); [reflexivity |].
    apply first_existing_no_conversion.
  - match goal with
    | |- context [match outcome ?m with _ => _ end] =>
        destruct (outcome m) as [e | o]; [reflexivity |]
    end.
    destruct (truthy o); [reflexivity |]. step.
    destruct (truthy (which w "pandoc")); reflexivity.
Qed.

(** X12. When the search finds no converter, the presentation is
    rejected with the advice to install pandoc, and no conversion is
    attempted. *)
Theorem powerpoint_without_pandoc (w : World) (st : AgentState) (p : string)
    (size : Z) (found : option string) :
  path_exists w p = true ->
  getsize w p = inr size ->
  size <> 0 ->
  outcome (locate_pandoc w) = inr found ->
  truthy found = false ->
  outcome (_process_powerpoint w st p)
  = inl (Exn ValueError
           ("Error processing PowerPoint file " ++ p
            ++ ": Pandoc not found. Please install Pandoc from https://pandoc.org/installing.html or run the add_pandoc_to_path.bat script (on Windows) to add it to your PATH."))
  /\ requests_conversion (trace (_process_powerpoint w st p)) = false.
Proof.
  intros Hex Hsize Hnz Hloc Hfound.
  pose proof (locate_pandoc_no_conversion w) as Htrace.
  apply Z.eqb_neq in Hnz.
  unfold _process_powerpoint.
  cbv beta iota zeta delta
    [bind ask call ret raise try_except trace outcome fst snd negb].
  rewrite Hex, Hsize, Hnz.
  destruct (locate_pandoc w) as [[e | o] t]; cbn in Hloc, Htrace; [discriminate |].
  injection Hloc as ->. rewrite Hfound.
  split; [reflexivity |].
  split_ifs; cbn [app requests_conversion existsb is_conversion orb];
    change (existsb is_conversion ((t ++ []) ++ []) = false);
    now rewrite !app_nil_r.
Qed.

Lemma powerpoint_without_pandoc_witness :
  outcome (_process_powerpoint no_pandoc_world
             (initial_state "What is the revenue?" (Some "deck.pptx") None) "deck.pptx")
  = inl (Exn ValueError
           ("Error processing PowerPoint file " ++ "deck.pptx"
            ++ ": Pandoc not found. Please install Pandoc from https://pandoc.org/installing.html or run the add_pandoc_to_path.bat script (on Windows) to add it to your PATH."))
  /\ requests_conversion
       (trace (_process_powerpoint no_pandoc_world
                 (initial_state "What is the revenue?" (Some "deck.pptx") None)
                 "deck.pptx")) = false.
Proof.
  apply (powerpoint_without_pandoc no_pandoc_world _ "deck.pptx" 2048 None).
  - reflexivity.
  - reflexivity.
  - discriminate.
  - reflexivity.
  - reflexivity.
Defined.
(** ** Pages of a PDF *)

Lemma trace_extract_pages (p : string) (pages : list (exn + string)) (i : Z) :
  trace (extract_pages p pages i) = [].
Proof.
  revert i. induction pages as [| page pages IH]; intros i; [reflexivity |].
  cbn [extract_pages]. rewrite trace_bind. cbn [lift trace outcome fst snd app].
  destruct page as [e | text]; [reflexivity |].
  rewrite trace_bind, IH. cbn [app].
  destruct (outcome (extract_pages p pages (i + 1))); reflexivity.
Qed.

Lemma extract_pages_blocks (p : string) (pages : list (exn + string)) (i : Z)
    (docs : list Document) :
  outcome (extract_pages p pages i) = inr docs ->
  List.length docs = List.length (filter page_has_text pages)
  /\ Forall (fun d =>
               exists k text,
                 nth_error pages k = Some (inr text)
                 /\ nonblank text = true
                 /\ page_content d = text
                 /\ doc_metadata d
                    = [("source", PStr p); ("file_type", PStr "pdf");
                       ("page", PInt (i + Z.of_nat k + 1))]) docs.
Proof.
  revert i docs. induction pages as [| [e | text] pages IH]; intros i docs.
  - intros [= <-]. split; [reflexivity | constructor].
  - discriminate.
  - cbn [extract_pages]. rewrite outcome_bind. cbn [lift outcome fst].
    rewrite outcome_bind.
    destruct (outcome (extract_pages p pages (i + 1))) as [e | rest] eqn:Hrest;
      [discriminate |].
    destruct (IH _ _ Hrest) as [Hlen Hall]. cbn [ret outcome fst].
    assert (Hshift :
              Forall (fun d =>
                        exists k t,
                          nth_error (inr text :: pages) k = Some (inr t)
                          /\ nonblank t = true
                          /\ page_content d = t
                          /\ doc_metadata d
                             = [("source", PStr p); ("file_type", PStr "pdf");
                                ("page", PInt (i + Z.of_nat k + 1))]) rest).
    { eapply Forall_impl; [| exact Hall].
      intros d (k & t & Hk & Ht & Hc & Hm). exists (S k), t.
      repeat split; try assumption. rewrite Hm.
      replace (i + 1 + Z.of_nat k + 1) with (i + Z.of_nat (S k) + 1) by lia.
      reflexivity. }
    cbn [filter page_has_text].
    destruct (nonblank text) eqn:Htext; intros [= <-].
    + split; [cbn; now rewrite Hlen |].
      constructor; [| exact Hshift].
      exists 0%nat, text. repeat split; try assumption.
      cbn [doc_metadata]. replace (i + Z.of_nat 0 + 1) with (i + 1) by lia.
      reflexivity.
    + split; assumption.
Qed.

Lemma extract_pages_failing_page (p : string) (pages : list (exn + string)) (i : Z)
    (e : exn) :
  In (inl e) pages -> is_raised (outcome (extract_pages p pages i)) = true.
Proof.
  revert i. induction pages as [| page pages IH]; intros i; [intros [] |].
  intros [-> | Hin]; [reflexivity |].
  cbn [extract_pages]. rewrite outcome_bind.
  destruct page as [e' | text]; [reflexivity |].
  cbn [lift outcome fst]. rewrite outcome_bind.
  specialize (IH (i + 1) Hin).
  destruct (outcome (extract_pages p pages (i + 1))); [reflexivity | discriminate].
Qed.

Lemma extract_pages_total (p : string) (pages : list (exn + string)) (i : Z) :
  Forall (fun page => is_raised page = false) pages ->
  is_raised (outcome (extract_pages p pages i)) = false.
Proof.
  intros H. revert i. induction H as [| [e | text] pages Hpage _ IH]; intros i;
    [reflexivity | discriminate |].
  cbn [extract_pages]. rewrite outcome_bind. cbn [lift outcome fst].
  rewrite outcome_bind. specialize (IH (i + 1)).
  destruct (outcome (extract_pages p pages (i + 1))); [discriminate | reflexivity].
Qed.

Lemma extract_pages_in_order (p : string) (pages : list (exn + string)) (s : nat)
    (docs : list Document) :
  outcome (extract_pages p pages (Z.of_nat s)) = inr docs ->
  map clean_document docs
  = map (page_block p)
      (filter (fun kp => page_has_text (snd kp))
         (combine (seq (S s) (List.length pages)) pages)).
Proof.
  revert s docs. induction pages as [| [e | text] pages IH]; intros s docs.
  - intros [= <-]. reflexivity.
  - discriminate.
  - cbn [extract_pages]. rewrite outcome_bind. cbn [lift outcome fst].
    rewrite outcome_bind.
    replace (Z.of_nat s + 1) with (Z.of_nat (S s)) by lia.
    destruct (outcome (extract_pages p pages (Z.of_nat (S s)))) as [e | rest] eqn:Hrest;
      [discriminate |].
    specialize (IH _ _ Hrest). cbn [ret outcome fst].
    cbn [List.length seq combine filter snd page_has_text].
    destruct (nonblank text); intros [= <-]; [| exact IH].
    cbn [map]. rewrite IH. reflexivity.
Qed.

(** X13. When every page can be read and some page has text, the PDF is
    extracted from its pages alone: the converter is not called, and the
    blocks are exactly the cleaned-up texts of the pages that have text,
    one block per such page, in the order of the pages, each with its
    page number counted from 1; [document_count] counts these pages,
    [page_count] all pages, and [content_length] the characters of the
    blocks. *)
Theorem pdf_pages_extraction (w : World) (st : AgentState) (p : string)
    (pages : list (exn + string)) :
  pdf_pages w p = inr pages ->
  Forall (fun page => is_raised page = false) pages ->
  existsb page_has_text pages = true ->
  trace (_process_pdf w st p) = [EvExtractor "_process_pdf"; EvPdfOpen p]
  /\ exists docs md,
       outcome (_process_pdf w st p) = inr (with_documents st docs md)
       /\ docs = page_blocks p pages
       /\ Forall (block_of_page p pages) docs
       /\ file_type md = "pdf"
       /\ document_count md = Z.of_nat (List.length (filter page_has_text pages))
       /\ page_count md = Some (Z.of_nat (List.length pages))
       /\ content_length md = sum_lengths (page_blocks p pages).
Proof.
  intros Hpdf Hread Htext. unfold _process_pdf. step. rewrite Hpdf. step.
  pose proof (trace_extract_pages p pages 0) as Ht.
  pose proof (extract_pages_total p pages 0 Hread) as Hok.
  pose proof (extract_pages_blocks p pages 0) as Hblocks.
  pose proof (extract_pages_in_order p pages 0) as Horder.
  change (Z.of_nat 0) with 0 in Horder.
  destruct (extract_pages p pages 0) as [[e | docs] t]; cbn in Ht, Hok; subst t;
    [discriminate |].
  destruct (Hblocks docs eq_refl) as [Hlen Hall]. clear Hblocks.
  specialize (Horder docs eq_refl).
  change (map clean_document docs = page_blocks p pages) in Horder.
  destruct docs as [| d docs].
  { exfalso. cbn in Hlen. apply existsb_exists in Htext.
    destruct Htext as (page & Hin & Hpage).
    assert (Hf : In page (filter page_has_text pages)) by (apply filter_In; auto).
    destruct (filter page_has_text pages); [destruct Hf | discriminate]. }
  step. split; [reflexivity |].
  eexists _, _. split; [reflexivity |].
  cbn [file_type document_count page_count content_length].
  rewrite length_map, Hlen, <- Horder.
  split; [reflexivity |]. split; [| repeat split; reflexivity].
  apply Forall_map. eapply Forall_impl; [| exact Hall].
  intros b (k & text & Hk & Htx & Hc & Hm). exists k, text.
  cbn [clean_document page_content doc_metadata]. rewrite Hc, Hm.
  repeat split; assumption.
Qed.

Lemma pdf_pages_extraction_witness :
  page_blocks "report.pdf" [inr "Revenue :  42 ,000 ."; inr "   "; inr "Costs: 7"]
  = [ {| page_content := "Revenue : 42,000.";
         doc_metadata := [("source", PStr "report.pdf"); ("file_type", PStr "pdf");
                          ("page", PInt 1)] |};
      {| page_content := "Costs: 7";
         doc_metadata := [("source", PStr "report.pdf"); ("file_type", PStr "pdf");
                          ("page", PInt 3)] |} ]
  /\ trace (_process_pdf three_page_world
              (initial_state "What is the revenue?" (Some "report.pdf") None) "report.pdf")
     = [EvExtractor "_process_pdf"; EvPdfOpen "report.pdf"]
  /\ exists docs md,
       outcome (_process_pdf three_page_world
                  (initial_state "What is the revenue?" (Some "report.pdf") None)
                  "report.pdf")
       = inr (with_documents
                (initial_state "What is the revenue?" (Some "report.pdf") None) docs md)
       /\ docs
          = page_blocks "report.pdf"
              [inr "Revenue :  42 ,000 ."; inr "   "; inr "Costs: 7"]
       /\ Forall (block_of_page "report.pdf"
                    [inr "Revenue :  42 ,000 ."; inr "   "; inr "Costs: 7"]) docs
       /\ file_type md = "pdf"
       /\ document_count md = 2
       /\ page_count md = Some 3
       /\ content_length md
          = sum_lengths
              (page_blocks "report.pdf"
                 [inr "Revenue :  42 ,000 ."; inr "   "; inr "Costs: 7"]).
Proof.
  split; [reflexivity |].
  apply (pdf_pages_extraction three_page_world _ "report.pdf"
           [inr "Revenue :  42 ,000 ."; inr "   "; inr "Costs: 7"]).
  - reflexivity.
  - repeat constructor.
  - reflexivity.
Defined.

(** X14. A page that cannot be read fails the whole PDF, whatever the
    other pages hold, and the converter is not tried. *)
Theorem pdf_page_failure (w : World) (st : AgentState) (p : string)
    (pages : list (exn + string)) (e : exn) :
  pdf_pages w p = inr pages ->
  In (inl e) pages ->
  is_raised (outcome (_process_pdf w st p)) = true
  /\ trace (_process_pdf w st p) = [EvExtractor "_process_pdf"; EvPdfOpen p].
Proof.
  intros Hpdf Hin. unfold _process_pdf. step. rewrite Hpdf. step.
  pose proof (trace_extract_pages p pages 0) as Ht.
  pose proof (extract_pages_failing_page p pages 0 e Hin) as Hfail.
  destruct (extract_pages p pages 0) as [[e' | docs] t]; cbn in Ht, Hfail; subst t;
    [| discriminate].
  step. split; reflexivity.
Qed.

Lemma pdf_page_failure_witness :
  is_raised (outcome (_process_pdf broken_page_world
                        (initial_state "What is the revenue?" (Some "report.pdf") None)
                        "report.pdf")) = true
  /\ trace (_process_pdf broken_page_world
              (initial_state "What is the revenue?" (Some "report.pdf") None) "report.pdf")
     = [EvExtractor "_process_pdf"; EvPdfOpen "report.pdf"].
Proof.
  apply (pdf_page_failure broken_page_world _ "report.pdf"
           [inr "Revenue: 42,000"; inl (Exn OtherError "unexpected EOF"); inr "Costs: 7"]
           (Exn OtherError "unexpected EOF")).
  - reflexivity.
  - right. left. reflexivity.
Defined.
(** ** The format the answer generator sees *)

Lemma single_result_tagged (st : AgentState) (text ft : string)
    (meta : list (string * pyval)) :
  (forall default, meta_get meta "file_type" default = PStr ft) ->
  In ft ["excel"; "word"; "pdf"; "text"; "powerpoint"] ->
  tagged_extraction st (single_result st text meta ft).
Proof.
  intros Hmeta Hft. unfold single_result. eexists _, _.
  split; [reflexivity |]. cbn [file_type]. split; [| exact Hft].
  constructor; [exact Hmeta | constructor].
Qed.

Lemma _process_excel_tagged (w : World) (st st' : AgentState) (p ext : string) :
  outcome (_process_excel w st p ext) = inr st' -> tagged_extraction st st'.
Proof.
  unfold _process_excel. intros H.
  assert (Hx : exists xl, st' = excel_result st p xl).
  { revert H. step.
    destruct (find_spec w "openpyxl") as [e | []]; step.
    - destruct (is_import_error e) eqn:He; step; [discriminate |].
      destruct (read_excel w p "xlrd") as [e2 | xl]; step; [discriminate |].
      intros [= <-]. now exists xl.
    - destruct (read_excel w p "openpyxl") as [e | xl]; step.
      + destruct (is_import_error e); step; [discriminate |].
        destruct (read_excel w p "xlrd") as [e2 | xl]; step; [discriminate |].
        intros [= <-]. now exists xl.
      + intros [= <-]. now exists xl.
    - discriminate. }
  destruct Hx as [xl ->]. unfold excel_result. eexists _, _.
  split; [reflexivity |]. cbn [file_type]. split; [| cbn; tauto].
  unfold excel_documents. apply Forall_map, Forall_forall.
  intros [sheet_name df] _ default. reflexivity.
Qed.

Lemma _process_pdf_tagged (w : World) (st st' : AgentState) (p : string) :
  outcome (_process_pdf w st p) = inr st' -> tagged_extraction st st'.
Proof.
  unfold _process_pdf. step.
  destruct (pdf_pages w p) as [e | pages]; step; [discriminate |].
  pose proof (extract_pages_blocks p pages 0) as Hpages.
  destruct (extract_pages p pages 0) as [[e | docs] t]; step; [discriminate |].
  destruct (Hpages docs eq_refl) as [_ Hall]. clear Hpages.
  destruct docs as [| d docs]; step.
  - destruct (convert_file w p None) as [e | text]; step; [discriminate |].
    destruct (nonblank text) eqn:Htext; step; [| discriminate].
    intros [= <-]. eexists _, _. split; [reflexivity |].
    cbn [file_type]. split; [| cbn; tauto].
    repeat constructor.
  - intros [= <-]. eexists _, _. split; [reflexivity |].
    cbn [file_type]. split; [| cbn; tauto].
    change (Forall (has_file_type "pdf") (map clean_document (d :: docs))).
    apply Forall_map. eapply Forall_impl; [| exact Hall].
    intros b (k & text & _ & _ & _ & Hm) default.
    cbn [clean_document doc_metadata]. rewrite Hm. reflexivity.
Qed.

Lemma _process_powerpoint_tagged (w : World) (st st' : AgentState) (p : string) :
  outcome (_process_powerpoint w st p) = inr st' -> tagged_extraction st st'.
Proof.
  unfold _process_powerpoint. intros H.
  apply try_except_reraise_inr in H.
  2:{ intros e. split_ifs; reflexivity. }
  revert H. step.
  destruct (path_exists w p); step; [| discriminate].
  destruct (getsize w p) as [e | size]; step; [discriminate |].
  destruct (size =? 0); step; [discriminate |].
  destruct (locate_pandoc w) as [[e | pandoc_path] t]; step; [discriminate |].
  destruct (truthy pandoc_path); step; [| discriminate].
  match goal with
  | |- context [convert_powerpoint w st p ?ext ?pandoc] =>
      pose proof (conversion_chain_cases w st p ext pandoc) as Hconv;
      destruct (convert_powerpoint w st p ext pandoc) as [[e | s] t']
  end; step; [discriminate |].
  intros [= <-]. cbn in Hconv. destruct Hconv as (c & m & -> & _ & _).
  apply single_result_tagged; [reflexivity | cbn; tauto].
Qed.

Lemma dispatch_tagged (w : World) (st st' : AgentState) :
  outcome (dispatch w st) = inr st' -> tagged_extraction st st'.
Proof.
  unfold dispatch.
  destruct (truthy (pre_processed_content st)).
  { intros [= <-]. apply single_result_tagged; [reflexivity | cbn; tauto]. }
  destruct (truthy (file_path st)); cbn [negb]; [| discriminate].
  cbv zeta.
  destruct (in_list _ [".xlsx"; ".xls"]); [apply _process_excel_tagged |].
  destruct (in_list _ [".docx"]).
  { unfold _process_docx. step.
    destruct (docx2txt_process w _) as [e | text]; step; [discriminate |].
    intros [= <-]. apply single_result_tagged; [reflexivity | cbn; tauto]. }
  destruct (in_list _ [".doc"]).
  { unfold _process_doc. step.
    destruct (convert_file w _ None) as [e | text]; step; [discriminate |].
    intros [= <-]. apply single_result_tagged; [reflexivity | cbn; tauto]. }
  destruct (_ =? ".pdf")%string; [apply _process_pdf_tagged |].
  destruct (_ =? ".txt")%string.
  { unfold _process_text. step.
    destruct (read_text w _) as [e | text]; step; [discriminate |].
    intros [= <-]. apply single_result_tagged; [reflexivity | cbn; tauto]. }
  destruct (in_list _ [".ppt"; ".pptx"]); [apply _process_powerpoint_tagged |].
  discriminate.
Qed.

Lemma gather_tagged (ft : string) (docs : list Document) (content : string) :
  Forall (has_file_type ft) docs ->
  ft <> "" -> ft <> "unknown" ->
  snd (fold_left gather_step docs (content, PStr ft)) = PStr ft.
Proof.
  intros Hall Hne Hunk. revert content.
  induction Hall as [| d docs Hd _ IH]; intros content; [reflexivity |].
  cbn [fold_left gather_step pyval_truthy pyval_is_unknown].
  apply String.eqb_neq in Hunk. rewrite Hunk.
  destruct ft; [congruence |]. cbn [is_empty negb orb]. apply IH.
Qed.

(** X15. After a successful extraction that gave at least one block, the
    format the answer generator reads from the blocks is the format the
    extractor recorded for the document, and the prompt names it: the
    label is never the default ["document"]. *)
Theorem answer_sees_extracted_format (w : World) (st st' : AgentState) :
  outcome (dispatch w st) = inr st' ->
  exists docs md,
    documents st' = Some docs
    /\ metadata st' = Some md
    /\ In (file_type md) ["excel"; "word"; "pdf"; "text"; "powerpoint"]
    /\ (docs <> [] ->
        snd (gather docs) = PStr (file_type md)
        /\ exists desc,
             describe_file_type (snd (gather docs)) = (inr desc, [])
             /\ desc <> "document").
Proof.
  intros H. apply dispatch_tagged in H. destruct H as (docs & md & -> & Hall & Hft).
  exists docs, md.
  split; [reflexivity |]. split; [reflexivity |]. split; [exact Hft |].
  intros Hne. destruct docs as [| d docs]; [congruence |].
  assert (Hg : snd (gather (d :: docs)) = PStr (file_type md)).
  { unfold gather. cbn [fold_left]. inversion Hall as [| ? ? Hd Hrest]; subst.
    unfold gather_step at 2. cbn [pyval_truthy pyval_is_unknown is_empty negb orb].
    change ("unknown" =? "unknown")%string with true. cbn [orb].
    rewrite (Hd (PStr "unknown")).
    apply gather_tagged; [exact Hrest | |];
      intros Heq; rewrite Heq in Hft; cbn in Hft; intuition discriminate. }
  split; [exact Hg |]. rewrite Hg.
  cbn in Hft. destruct Hft as [<- | [<- | [<- | [<- | [<- | []]]]]];
    eexists; (split; [reflexivity | discriminate]).
Qed.

Lemma answer_sees_extracted_format_witness :
  exists docs md,
    documents (with_documents
                 (initial_state "What is the revenue?" (Some "scan.pdf") None)
                 [ {| page_content := "Revenue : 42,000.";
                      doc_metadata :=
                        [("source", PStr "scan.pdf"); ("file_type", PStr "pdf");
                         ("extraction_method", PStr "pypandoc")] |} ]
                 {| file_type := "pdf"; document_count := 1; page_count := Some 2;
                    content_length := 17 |}) = Some docs
    /\ metadata (with_documents
                   (initial_state "What is the revenue?" (Some "scan.pdf") None)
                   [ {| page_content := "Revenue : 42,000.";
                        doc_metadata :=
                          [("source", PStr "scan.pdf"); ("file_type", PStr "pdf");
                           ("extraction_method", PStr "pypandoc")] |} ]
                   {| file_type := "pdf"; document_count := 1; page_count := Some 2;
                      content_length := 17 |}) = Some md
    /\ In (file_type md) ["excel"; "word"; "pdf"; "text"; "powerpoint"]
    /\ (docs <> [] ->
        snd (gather docs) = PStr (file_type md)
        /\ exists desc,
             describe_file_type (snd (gather docs)) = (inr desc, [])
             /\ desc <> "document").
Proof.
  apply (answer_sees_extracted_format scanned_pdf_world
           (initial_state "What is the revenue?" (Some "scan.pdf") None)).
  reflexivity.
Defined.
(** ** [DocumentQAAgent.run] *)

(** Text that is supplied wins over a file path: the dispatcher
    wraps it in one block tagged as text and asks nothing of the
    outside, whatever the state's [file_path] is. *)
Lemma supplied_text_wins (w : World) (st : AgentState) (text : string) :
  pre_processed_content st = Some text ->
  text <> "" ->
  process_document w st
  = (inr (with_documents st
            [ {| page_content := text;
                 doc_metadata := [("source", PStr "pre_processed");
                                  ("file_type", PStr "text")] |} ]
            {| file_type := "text"; document_count := 1; page_count := None;
               content_length := len text |}),
     []).
Proof.
  intros Hpre Hne. unfold process_document, dispatch. rewrite Hpre.
  destruct text; [congruence | reflexivity].
Qed.

Lemma supplied_text_wins_witness :
  process_document (plain_world None unavailable)
    (initial_state "What is the revenue?" (Some "report.zip") (Some "Revenue: 42,000"))
  = (inr (with_documents
            (initial_state "What is the revenue?" (Some "report.zip")
               (Some "Revenue: 42,000"))
            [ {| page_content := "Revenue: 42,000";
                 doc_metadata := [("source", PStr "pre_processed");
                                  ("file_type", PStr "text")] |} ]
            {| file_type := "text"; document_count := 1; page_count := None;
               content_length := len "Revenue: 42,000" |}),
     []).
Proof.
  apply (supplied_text_wins (plain_world None unavailable)
           (initial_state "What is the revenue?" (Some "report.zip")
              (Some "Revenue: 42,000")) "Revenue: 42,000").
  - reflexivity.
  - discriminate.
Defined.

Lemma run_graph_returns (w : World) (st : AgentState) :
  exists s, outcome (run_graph w st) = inr s /\ is_empty s = false.
Proof.
  unfold run_graph. rewrite outcome_try_except, outcome_bind.
  destruct (outcome (graph_invoke w st)) as [e | result];
    [eexists; split; reflexivity |].
  destruct (error result) as [err |]; [eexists; split; reflexivity |].
  destruct (answer result) as [[| c a] |]; eexists; split; reflexivity.
Qed.

Lemma run_returns (w : World) (q : string) (path content : option string) :
  exists s, outcome (run w q path content) = inr s /\ is_empty s = false.
Proof.
  unfold run.
  destruct (negb (truthy path) && negb (truthy content));
    [eexists; split; reflexivity |].
  destruct (truthy content).
  - destruct (len (or_default content "") <? 10);
      [eexists; split; reflexivity | apply run_graph_returns].
  - rewrite outcome_bind. cbn [ask call outcome fst].
    destruct (path_exists w (or_default path "")); cbn [negb].
    + apply run_graph_returns.
    + eexists; split; reflexivity.
Qed.

(** X16. [run] never raises and never returns the empty string. *)
Theorem run_returns_text (w : World) (q : string) (path content : option string) :
  exists s, outcome (run w q path content) = inr s /\ is_empty s = false.
Proof. exact (run_returns w q path content). Qed.

Lemma run_extraction_error (w : World) (q p : string)
    (content : option string) (e : exn) :
  truthy content = false ->
  p <> "" ->
  path_exists w p = true ->
  outcome (dispatch w (initial_state q (Some p) None)) = inl e ->
  outcome (run w q (Some p) content)
  = inr ("Error processing document: Error processing document: " ++ exn_msg e)
  /\ trace (run w q (Some p) content)
     = EvExists p :: trace (dispatch w (initial_state q (Some p) None)).
Proof.
  intros Hc Hp Hex Hd. unfold run. rewrite Hc.
  assert (Ht : truthy (Some p) = true) by (destruct p; [congruence | reflexivity]).
  rewrite Ht. cbn [negb andb or_default].
  unfold run_graph, graph_invoke, process_document.
  destruct (dispatch w (initial_state q (Some p) None)) as [[e' | s] t];
    cbn in Hd; [| discriminate].
  injection Hd as ->.
  cbv beta iota zeta delta
    [bind ask call ret try_except trace outcome fst snd negb].
  rewrite Hex. cbn. rewrite !app_nil_r. split; reflexivity.
Qed.

(** X17. When the extraction of an existing file fails with [e], [run]
    returns the error with the prefix written twice, and nothing is
    requested once the extractor has failed: the API key is not read
    and the LLM is not called. *)
Theorem run_reports_extraction_error (w : World) (q p : string)
    (content : option string) (e : exn) :
  truthy content = false ->
  p <> "" ->
  path_exists w p = true ->
  outcome (dispatch w (initial_state q (Some p) None)) = inl e ->
  outcome (run w q (Some p) content)
  = inr ("Error processing document: Error processing document: " ++ exn_msg e)
  /\ trace (run w q (Some p) content)
     = EvExists p :: trace (dispatch w (initial_state q (Some p) None)).
Proof. exact (run_extraction_error w q p content e). Qed.

Lemma run_reports_extraction_error_witness :
  outcome (run (plain_world (Some "gsk") unavailable) "What is the revenue?"
             (Some "notes.txt") None)
  = inr "Error processing document: Error processing document: Error processing text file: unavailable"
  /\ trace (run (plain_world (Some "gsk") unavailable) "What is the revenue?"
              (Some "notes.txt") None)
     = EvExists "notes.txt"
       :: trace (dispatch (plain_world (Some "gsk") unavailable)
                   (initial_state "What is the revenue?" (Some "notes.txt") None)).
Proof.
  apply (run_reports_extraction_error (plain_world (Some "gsk") unavailable)
           "What is the revenue?" "notes.txt" None
           (Exn ValueError "Error processing text file: unavailable")).
  - reflexivity.
  - discriminate.
  - reflexivity.
  - reflexivity.
Defined.
Lemma supplied_text_wins_aux (w : World) (st : AgentState) (text : string) :
  pre_processed_content st = Some text ->
  truthy (Some text) = true ->
  process_document w st
  = (inr (single_result st text
            [("source", PStr "pre_processed"); ("file_type", PStr "text")] "text"),
     []).
Proof.
  intros Hpre Ht. unfold process_document, dispatch. rewrite Hpre, Ht. reflexivity.
Qed.

(** X18. With supplied text of at least 10 characters the file path is
    not looked at: [run] gives what it gives without a path, and all it
    requests is what the answer generator requests. *)
Theorem run_prefers_supplied_text (w : World) (q text : string)
    (path : option string) :
  10 <= len text ->
  run w q path (Some text) = run w q None (Some text)
  /\ forallb is_answer_event (trace (run w q path (Some text))) = true.
Proof.
  intros Hlen.
  assert (Hne : truthy (Some text) = true).
  { destruct text; [cbv in Hlen; congruence | reflexivity]. }
  unfold run. rewrite Hne, !andb_false_r. cbn [or_default].
  apply Z.ltb_ge in Hlen. rewrite Hlen. split; [reflexivity |].
  unfold run_graph, graph_invoke.
  rewrite (supplied_text_wins_aux w (initial_state q None (Some text)) text eq_refl Hne).
  cbv beta iota delta [bind ret].
  match goal with
  | |- context [answer_question w ?s] =>
      pose proof (answer_question_trace w s) as Ht;
      destruct (answer_question_answers w s) as [a Ha];
      destruct (answer_question w s) as [[e | r] t]
  end; cbn in Ha, Ht; [discriminate |].
  injection Ha as ->.
  cbv beta iota zeta delta [bind ret try_except trace outcome fst snd app].
  cbn [with_answer error answer single_result with_documents initial_state truthy].
  destruct (negb (negb (is_empty a))); cbn [snd];
    destruct Ht as [-> | [-> | [-> | (sys & ctx & q0 & ->)]]]; reflexivity.
Qed.

Lemma run_prefers_supplied_text_witness :
  run (plain_world (Some "gsk") unavailable) "What is the revenue?"
    (Some "gone.zip") (Some "Revenue: 42,000")
  = run (plain_world (Some "gsk") unavailable) "What is the revenue?"
      None (Some "Revenue: 42,000")
  /\ forallb is_answer_event
       (trace (run (plain_world (Some "gsk") unavailable) "What is the revenue?"
                 (Some "gone.zip") (Some "Revenue: 42,000"))) = true.
Proof.
  apply (run_prefers_supplied_text (plain_world (Some "gsk") unavailable)
           "What is the revenue?" "Revenue: 42,000" (Some "gone.zip")).
  vm_compute. discriminate.
Defined.

(** X19. Asking a readable text file for its raw content gives the text
    back, followed by the blank line that ends a block, as long as the
    text holds a non-whitespace character and, with that blank line,
    fits in 8000 characters. The LLM is not called. *)
Theorem raw_content_of_text_file (w : World) (q p text : string) :
  in_list (strip (lower q)) raw_content_questions = true ->
  p <> "" ->
  lower (snd (splitext w p)) = ".txt" ->
  path_exists w p = true ->
  read_text w p = inr text ->
  nonblank text = true ->
  len text + 2 <= 8000 ->
  is_raised (chat_groq w (getenv w "GROQ_API_KEY")) = false ->
  truthy (getenv w "GROQ_API_KEY") = true ->
  outcome (run w q (Some p) None) = inr (text ++ nl ++ nl)
  /\ invokes_llm (trace (run w q (Some p) None)) = false.
Proof.
  intros Hq Hp Hext Hex Hread Htext Hlen Hgroq Hkey.
  assert (Ht : truthy (Some p) = true) by (destruct p; [congruence | reflexivity]).
  assert (Hcontent : (len (text ++ nl ++ nl) >? 8000) = false).
  { rewrite !len_append. change (len nl) with 1. lia. }
  assert (Hnb : nonblank (text ++ nl ++ nl) = true).
  { rewrite nonblank_append, Htext. reflexivity. }
  unfold run. rewrite Ht. cbn [truthy negb andb or_default].
  unfold run_graph, graph_invoke, process_document, dispatch.
  cbn [initial_state pre_processed_content file_path].
  change (truthy None) with false. rewrite Ht.
  cbn [negb or_default]. rewrite Hext.
  cbn [in_list String.eqb Ascii.eqb Bool.eqb orb andb].
  unfold _process_text, answer_question, generate.
  cbv beta iota zeta delta
    [bind ask call ret try_except trace outcome fst snd negb app].
  rewrite Hex, Hread.
  cbn [single_result with_documents documents gather fold_left gather_step
       page_content append].
  rewrite Hnb.
  destruct (chat_groq w (getenv w "GROQ_API_KEY")) as [e | []]; [discriminate |].
  rewrite Hkey. unfold single_result, with_documents.
  cbn [question initial_state or_default]. rewrite Hq, Hcontent.
  cbn [with_answer error answer truthy].
  destruct text as [| c text]; [discriminate |].
  split; reflexivity.
Qed.

Lemma raw_content_of_text_file_witness :
  outcome (run (plain_world (Some "gsk") (inr "Revenue: 42,000")) " Raw Content "
             (Some "/srv/uploads/Notes.TXT") None)
  = inr ("Revenue: 42,000" ++ nl ++ nl)
  /\ invokes_llm
       (trace (run (plain_world (Some "gsk") (inr "Revenue: 42,000")) " Raw Content "
                 (Some "/srv/uploads/Notes.TXT") None)) = false.
Proof.
  apply (raw_content_of_text_file (plain_world (Some "gsk") (inr "Revenue: 42,000"))
           " Raw Content " "/srv/uploads/Notes.TXT" "Revenue: 42,000");
    try reflexivity.
  - discriminate.
  - vm_compute. discriminate.
Defined.

(** X20. When the LLM answers with the empty string, [run] returns the
    fixed message that no answer could be generated. *)
Theorem run_with_empty_model_answer (w : World) (q text : string)
    (path : option string) :
  10 <= len text ->
  nonblank text = true ->
  in_list (strip (lower q)) raw_content_questions = false ->
  is_raised (chat_groq w (getenv w "GROQ_API_KEY")) = false ->
  truthy (getenv w "GROQ_API_KEY") = true ->
  (forall ctx, chain_invoke w (system_prompt "text file") ctx q = inr "") ->
  outcome (run w q path (Some text))
  = inr "No answer could be generated. Please try rephrasing your question or upload a different document.".
Proof.
  intros Hlen Htext Hq Hgroq Hkey Hllm.
  assert (Hne : truthy (Some text) = true).
  { destruct text; [cbv in Hlen; congruence | reflexivity]. }
  assert (Hnb : nonblank (text ++ nl ++ nl) = true).
  { rewrite nonblank_append, Htext. reflexivity. }
  unfold run. rewrite Hne, !andb_false_r. cbn [or_default].
  apply Z.ltb_ge in Hlen. rewrite Hlen.
  unfold run_graph, graph_invoke.
  rewrite (supplied_text_wins_aux w (initial_state q None (Some text)) text eq_refl Hne).
  unfold answer_question, generate.
  cbv beta iota zeta delta
    [bind ask call ret try_except trace outcome fst snd negb app].
  cbn [single_result with_documents documents gather fold_left gather_step
       page_content append doc_metadata meta_get String.eqb Ascii.eqb Bool.eqb
       pyval_truthy pyval_is_unknown is_empty negb orb andb].
  rewrite Hnb.
  destruct (chat_groq w (getenv w "GROQ_API_KEY")) as [e | []]; [discriminate |].
  rewrite Hkey. unfold single_result, with_documents.
  cbn [question initial_state or_default]. rewrite Hq.
  change (describe_file_type (PStr "text")) with (@ret string "text file").
  cbv beta iota zeta delta [ret]. rewrite Hllm. reflexivity.
Qed.

Lemma run_with_empty_model_answer_witness :
  outcome (run silent_model_world "What is the revenue?" None (Some "Revenue: 42,000"))
  = inr "No answer could be generated. Please try rephrasing your question or upload a different document.".
Proof.
  apply (run_with_empty_model_answer silent_model_world "What is the revenue?"
           "Revenue: 42,000" None); try reflexivity.
  vm_compute. discriminate.
Defined.

(** ** The upload endpoint *)

Ltac estep :=
  cbv beta iota zeta delta
    [ebind etry ecall eret eraise plain py of_core endpoint fst snd].

Lemma written_app (t1 t2 : list api_event) :
  written (t1 ++ t2) = written t1 + written t2.
Proof.
  induction t1 as [| ev t1 IH]; cbn [app written]; [lia |].
  destruct ev; rewrite IH; lia.
Qed.

Lemma written_core (t : list event) : written (map Core t) = 0.
Proof. induction t as [| ev t IH]; [reflexivity | exact IH]. Qed.

Lemma len_nonneg (s : string) : 0 <= len s.
Proof. unfold len. lia. Qed.

(** The copy loop never writes past the limit; when it ends without an
    exception, all that the stream gave has been written. *)
Lemma copy_chunks_written (aw : ApiWorld) (temp : string)
    (reads : list (exn + string)) (file_size : Z) :
  file_size <= max_upload_size ->
  file_size + written (snd (copy_chunks aw temp reads file_size)) <= max_upload_size
  /\ existsb is_move (snd (copy_chunks aw temp reads file_size)) = false
  /\ existsb is_core (snd (copy_chunks aw temp reads file_size)) = false
  /\ (fst (copy_chunks aw temp reads file_size) = inr tt ->
      written (snd (copy_chunks aw temp reads file_size)) = received reads).
Proof.
  unfold max_upload_size.
  revert file_size. induction reads as [| r rest IH]; intros file_size Hsize.
  - cbn. repeat split; try reflexivity; lia.
  - cbn [copy_chunks received]. destruct r as [e | chunk]; estep.
    + cbn. repeat split; try reflexivity; try lia; try discriminate.
    + destruct (is_empty chunk) eqn:Hempty.
      * cbn. repeat split; try reflexivity; lia.
      * match goal with
        | |- context [?a >? ?b] => destruct (Z.gtb_spec a b) as [Hgt | Hle]
        end; unfold max_upload_size in *.
        -- destruct (unlink (core aw) temp) as [e | []]; cbn;
             repeat split; try reflexivity; try lia; try discriminate.
        -- destruct (temp_write aw temp chunk) as [e | []].
           ++ cbn. pose proof (len_nonneg chunk).
              repeat split; try reflexivity; try lia; try discriminate.
           ++ destruct (IH (file_size + len chunk) Hle) as (Hw & Hm & Hc & Hr).
              destruct (copy_chunks aw temp rest (file_size + len chunk))
                as [[e | []] t]; cbn in *;
                repeat split; try assumption; try lia; try discriminate.
              intros _. rewrite Hr; [lia | reflexivity].
Qed.

(** The inner extraction asks only what the agent asks. *)
Lemma extract_upload_trace (aw : ApiWorld) (p : string) :
  exists t, snd (extract_upload aw p) = map Core t.
Proof.
  unfold extract_upload.
  destruct (run (core aw) raw_content_request (Some p) None) as [[e | result] t1];
    estep; [exists t1; reflexivity |].
  destruct (is_empty result || (len result <? 20)).
  - destruct (process_document (core aw) (path_only_state p)) as [[e | pr] t2]; estep;
      [exists (t1 ++ t2)%list; now rewrite map_app |].
    destruct (documents pr) as [docs |].
    + destruct (nonblank (concat_content docs)); estep;
        [| exists (t1 ++ t2)%list; now rewrite map_app, app_nil_r].
      match goal with
      | |- context [if ?c then _ else _] => destruct c
      end; exists (t1 ++ t2)%list; cbn; now rewrite map_app, !app_nil_r.
    + destruct (error pr); estep;
        exists (t1 ++ t2)%list; now rewrite map_app, app_nil_r.
  - estep.
    match goal with
    | |- context [if ?c then _ else _] => destruct c
    end; exists t1; cbn; now rewrite !app_nil_r.
Qed.

Ltac final_test :=
  match goal with
  | |- context [is_empty ?r || negb (nonblank ?r) || (len ?r <? 10)] =>
      destruct (is_empty r); [discriminate |];
      destruct (nonblank r) eqn:?Hnb; [| discriminate];
      destruct (Z.ltb_spec (len r) 10); [discriminate |];
      cbn; intros [= <-]; split; [assumption | lia]
  end.

(** What the inner extraction returns has passed the final test. *)
Lemma extract_upload_valid (aw : ApiWorld) (p result : string) :
  fst (extract_upload aw p) = inr result ->
  nonblank result = true /\ 10 <= len result.
Proof.
  unfold extract_upload.
  destruct (run (core aw) raw_content_request (Some p) None) as [[e | r1] t1];
    estep; [discriminate |].
  destruct (is_empty r1 || (len r1 <? 20)).
  - destruct (process_document (core aw) (path_only_state p)) as [[e | pr] t2]; estep;
      [discriminate |].
    destruct (documents pr) as [docs |].
    + destruct (nonblank (concat_content docs)); estep; [| discriminate].
      final_test.
    + destruct (error pr); discriminate.
  - estep. final_test.
Qed.



Lemma existsb_core (f : api_event -> bool) (t : list event) :
  (forall ev, f (Core ev) = false) -> existsb f (map Core t) = false.
Proof.
  intros H. induction t as [| ev t IH]; [reflexivity |].
  cbn. now rewrite H, IH.
Qed.

(** When the copy loop ends without an exception, the stream was read to
    its end, its bytes were written to the temporary file in order, and
    every write went to that file and succeeded. *)
Lemma copy_chunks_complete (aw : ApiWorld) (temp : string)
    (reads : list (exn + string)) (file_size : Z) :
  fst (copy_chunks aw temp reads file_size) = inr tt ->
  read_to_end reads = true
  /\ written_to temp (snd (copy_chunks aw temp reads file_size)) = received_data reads
  /\ forall path chunk,
       In (ApiWrite path chunk) (snd (copy_chunks aw temp reads file_size)) ->
       path = temp /\ temp_write aw path chunk = inr tt.
Proof.
  revert file_size. induction reads as [| r rest IH]; intros file_size.
  - cbn. intros _. repeat split; intuition discriminate.
  - cbn [copy_chunks read_to_end received_data]. destruct r as [e | chunk]; estep;
      [discriminate |].
    destruct (is_empty chunk) eqn:Hempty.
    + cbn. intros _. repeat split; intuition discriminate.
    + destruct (_ >? max_upload_size).
      * destruct (unlink (core aw) temp) as [e | []]; discriminate.
      * destruct (temp_write aw temp chunk) as [e | []] eqn:Hwrite; [discriminate |].
        specialize (IH (file_size + len chunk)).
        destruct (copy_chunks aw temp rest (file_size + len chunk)) as [[e | []] t];
          cbn [fst snd] in *; [discriminate |].
        intros _. destruct (IH eq_refl) as (Hend & Hdata & Hwrites).
        split; [exact Hend |]. split.
        -- cbn [app written_to]. rewrite String.eqb_refl, Hdata. reflexivity.
        -- intros path c. cbn [app In].
           intros [H | [H | H]]; [discriminate | | now apply Hwrites].
           injection H as <- <-. split; [reflexivity | exact Hwrite].
Qed.

Lemma existsb_write_core (t : list event) : existsb is_write (map Core t) = false.
Proof. induction t as [| ev t IH]; [reflexivity | exact IH]. Qed.

(** An upload that is moved has this course: the temporary file is
    named, the copy loop ends without an exception, the file is moved,
    and nothing is written afterwards. *)
Lemma upload_file_moved (aw : ApiWorld) (name : string) (reads : list (exn + string)) :
  existsb is_move (snd (upload_file aw name reads)) = true ->
  exists tmp dst after,
    fst (copy_chunks aw tmp reads 0) = inr tt
    /\ snd (upload_file aw name reads)
       = ((ApiMkTemp :: snd (copy_chunks aw tmp reads 0)) ++ ApiMove tmp dst :: after)%list
    /\ existsb is_write after = false.
Proof.
  unfold upload_file, upload_failure. cbv zeta.
  destruct (in_list _ api_supported_extensions); cbn [negb]; [| discriminate].
  destruct (temp_name aw) as [e | tmp]; estep; [discriminate |].
  destruct (copy_chunks_written aw tmp reads 0 ltac:(discriminate))
    as (_ & Hm & _).
  destruct (copy_chunks aw tmp reads 0) as [[[h | e] | []] tc] eqn:Hcopy;
    cbn [fst snd] in *; estep;
    try (cbn [app existsb is_move orb]; rewrite Hm; discriminate).
  match goal with
  | |- context [move aw ?a ?b] => set (path := b)
  end.
  intros _. exists tmp, path. destruct (move aw tmp path) as [e' | []]; estep.
  { exists []. rewrite Hcopy. cbn [fst snd app]. repeat split. }
  destruct (extract_upload_trace aw path) as [te Hte].
  destruct (extract_upload aw path) as [[e | r] t]; cbn [snd] in Hte; subst t; estep.
  - destruct (path_exists (core aw) path); estep;
      [destruct (remove aw path) as [? | []]; estep |];
      eexists; rewrite Hcopy; cbn [fst snd app]; rewrite <- ?app_assoc; cbn [app];
      (split; [reflexivity |]); (split; [reflexivity |]);
      rewrite existsb_app, existsb_write_core; reflexivity.
  - eexists. rewrite Hcopy. cbn [fst snd app]. rewrite <- ?app_assoc. cbn [app].
    split; [reflexivity |]. split; [reflexivity |].
    rewrite ?app_nil_r. apply existsb_write_core.
Qed.

(** The temporary file never receives more than the limit, and what a
    moved upload has written is what the stream gave. *)
Lemma upload_written_bound (aw : ApiWorld) (name : string)
    (reads : list (exn + string)) :
  written (snd (upload_file aw name reads)) <= max_upload_size
  /\ (existsb is_move (snd (upload_file aw name reads)) = true ->
      written (snd (upload_file aw name reads)) = received reads
      /\ received reads <= max_upload_size).
Proof.
  unfold upload_file, upload_failure. cbv zeta.
  destruct (in_list _ api_supported_extensions); cbn [negb];
    [| cbn; split; [discriminate | discriminate]].
  destruct (temp_name aw) as [e | tmp]; estep;
    [cbn; split; [discriminate | discriminate] |].
  destruct (copy_chunks_written aw tmp reads 0 ltac:(discriminate))
    as (Hw & Hm & Hc & Hr).
  destruct (copy_chunks aw tmp reads 0) as [[[h | e] | []] tc]; cbn [fst snd] in *;
    estep;
    try (cbn [app written existsb is_move orb]; rewrite Hm;
         split; [lia | discriminate]).
  specialize (Hr eq_refl).
  match goal with
  | |- context [move aw ?a ?b] => destruct (move aw a b) as [e' | []]
  end; estep.
  { cbn [app written]. rewrite written_app. cbn [written].
    split; [lia | intros _; split; lia]. }
  match goal with
  | |- context [extract_upload aw ?p] =>
      destruct (extract_upload_trace aw p) as [te Hte];
      destruct (extract_upload aw p) as [[e | r] t]; cbn [snd] in Hte; subst t
  end; estep.
  - match goal with
    | |- context [path_exists (core aw) ?p] => destruct (path_exists (core aw) p)
    end; estep;
      [match goal with
       | |- context [remove aw ?p] => destruct (remove aw p) as [? | []]
       end; estep |];
      cbn [app written]; rewrite !written_app; cbn [written];
      rewrite !written_app, written_core; cbn [written];
      (split; [lia | intros _; split; lia]).
  - cbn [app written]. rewrite !written_app. cbn [written].
    rewrite !written_app, written_core. cbn [written].
    split; [lia | intros _; split; lia].
Qed.

(** X22. The temporary file never receives more than 10 MB, and the
    upload is moved into the upload directory only after the stream was
    received to its end, within that limit, and written out in full:
    no read failed, the writes before the move went to the temporary
    file, succeeded and hold the bytes of the stream in order, and
    nothing is written after the move. *)
Theorem upload_size_guard (aw : ApiWorld) (name : string)
    (reads : list (exn + string)) :
  written (snd (upload_file aw name reads)) <= max_upload_size
  /\ (existsb is_move (snd (upload_file aw name reads)) = true ->
      written (snd (upload_file aw name reads)) = received reads
      /\ received reads <= max_upload_size
      /\ read_to_end reads = true
      /\ exists tmp dst before after,
           snd (upload_file aw name reads) = (before ++ ApiMove tmp dst :: after)%list
           /\ existsb is_move before = false
           /\ written_to tmp before = received_data reads
           /\ (forall path chunk,
                 In (ApiWrite path chunk) before ->
                 path = tmp /\ temp_write aw path chunk = inr tt)
           /\ existsb is_write after = false).
Proof.
  destruct (upload_written_bound aw name reads) as [Hbound Hmoved].
  split; [exact Hbound |]. intros Hmove.
  destruct (Hmoved Hmove) as [Hw Hr].
  destruct (upload_file_moved aw name reads Hmove)
    as (tmp & dst & after & Hcopy & Htrace & Hafter).
  destruct (copy_chunks_complete aw tmp reads 0 Hcopy) as (Hend & Hdata & Hwrites).
  destruct (copy_chunks_written aw tmp reads 0 ltac:(discriminate))
    as (_ & Hm & _).
  repeat (split; [assumption |]).
  exists tmp, dst, (ApiMkTemp :: snd (copy_chunks aw tmp reads 0)), after.
  split; [exact Htrace |]. split; [exact Hm |]. split; [exact Hdata |].
  split; [| exact Hafter].
  intros path chunk [H | H]; [discriminate | now apply Hwrites].
Qed.

Lemma upload_size_guard_witness :
  existsb is_move
    (snd (upload_file
            (sample_api_world (plain_world (Some "gsk") (inr "Revenue: 42,000")))
            "notes.txt" [inr "Revenue: "; inr "42,000"; inr ""])) = true
  /\ received [inr "Revenue: "; inr "42,000"; inr ""] = 15
  /\ received_data [inr "Revenue: "; inr "42,000"; inr ""] = "Revenue: 42,000"
  /\ written (snd (upload_file
                     (sample_api_world (plain_world (Some "gsk") (inr "Revenue: 42,000")))
                     "notes.txt" [inr "Revenue: "; inr "42,000"; inr ""]))
     = received [inr "Revenue: "; inr "42,000"; inr ""]
  /\ received [inr "Revenue: "; inr "42,000"; inr ""] <= max_upload_size
  /\ read_to_end [inr "Revenue: "; inr "42,000"; inr ""] = true
  /\ exists tmp dst before after,
       snd (upload_file
              (sample_api_world (plain_world (Some "gsk") (inr "Revenue: 42,000")))
              "notes.txt" [inr "Revenue: "; inr "42,000"; inr ""])
       = (before ++ ApiMove tmp dst :: after)%list
       /\ existsb is_move before = false
       /\ written_to tmp before = received_data [inr "Revenue: "; inr "42,000"; inr ""]
       /\ (forall path chunk,
             In (ApiWrite path chunk) before ->
             path = tmp
             /\ temp_write
                  (sample_api_world (plain_world (Some "gsk") (inr "Revenue: 42,000")))
                  path chunk = inr tt)
       /\ existsb is_write after = false.
Proof.
  split; [reflexivity |]. split; [reflexivity |]. split; [reflexivity |].
  exact (proj2 (upload_size_guard
                  (sample_api_world (plain_world (Some "gsk") (inr "Revenue: 42,000")))
                  "notes.txt" [inr "Revenue: "; inr "42,000"; inr ""])
               eq_refl).
Defined.

(** X23. A response of the upload endpoint that is not an error carries
    the status ["success"], the stored name built from the name's root,
    the time stamp and the lowercased, supported extension, a content
    of at least 10 characters that is not blank, and a preview of at
    most 503 characters that is the content itself when that has at
    most 500. *)
Theorem upload_success_response (aw : ApiWorld) (name : string)
    (reads : list (exn + string)) (r : UploadResponse) :
  fst (upload_file aw name reads) = inr r ->
  status r = "success"
  /\ in_list (lower (snd (splitext (core aw) name))) api_supported_extensions = true
  /\ filename r
     = fst (splitext (core aw) name) ++ "_" ++ timestamp aw
       ++ lower (snd (splitext (core aw) name))
  /\ nonblank (content r) = true
  /\ 10 <= len (content r)
  /\ len (content_preview r) <= 503
  /\ (len (content r) <= 500 -> content_preview r = content r).
Proof.
  unfold upload_file, upload_failure. cbv zeta.
  destruct (in_list _ api_supported_extensions) eqn:Hext; cbn [negb];
    [| discriminate].
  destruct (temp_name aw) as [e | tmp]; estep; [discriminate |].
  destruct (copy_chunks aw tmp reads 0) as [[[h | e] | []] tc]; estep;
    try discriminate.
  match goal with
  | |- context [move aw ?a ?b] => destruct (move aw a b) as [e' | []]
  end; estep; [discriminate |].
  match goal with
  | |- context [extract_upload aw ?p] =>
      pose proof (extract_upload_valid aw p) as Hvalid;
      destruct (extract_upload aw p) as [[e | result] t]
  end; estep.
  - match goal with
    | |- context [path_exists (core aw) ?p] => destruct (path_exists (core aw) p)
    end; estep;
      [match goal with
       | |- context [remove aw ?p] => destruct (remove aw p) as [? | []]
       end; estep |]; discriminate.
  - destruct (Hvalid result eq_refl) as [Hnb Hlen]. intros [= <-].
    unfold upload_response. cbn [status filename content content_preview].
    split; [reflexivity |]. split; [reflexivity |]. split; [reflexivity |].
    split; [exact Hnb |]. split; [exact Hlen |].
    destruct (Z.gtb_spec (len result) 500) as [Hgt | Hle].
    + split; [| lia]. rewrite len_append, len_slice_to by lia.
      change (len "...") with 3. lia.
    + split; [lia | reflexivity].
Qed.

Lemma upload_success_response_witness :
  status (upload_response "notes_1700000000.txt" ("Revenue: 42,000" ++ nl ++ nl))
  = "success"
  /\ in_list (lower (snd (splitext (plain_world (Some "gsk") (inr "Revenue: 42,000"))
                            "notes.TXT"))) api_supported_extensions = true
  /\ filename (upload_response "notes_1700000000.txt" ("Revenue: 42,000" ++ nl ++ nl))
     = "notes_1700000000.txt"
  /\ nonblank ("Revenue: 42,000" ++ nl ++ nl) = true
  /\ 10 <= len ("Revenue: 42,000" ++ nl ++ nl)
  /\ len (content_preview
            (upload_response "notes_1700000000.txt" ("Revenue: 42,000" ++ nl ++ nl)))
     <= 503
  /\ (len ("Revenue: 42,000" ++ nl ++ nl) <= 500 ->
      content_preview
        (upload_response "notes_1700000000.txt" ("Revenue: 42,000" ++ nl ++ nl))
      = "Revenue: 42,000" ++ nl ++ nl).
Proof.
  apply (upload_success_response
           (sample_api_world (plain_world (Some "gsk") (inr "Revenue: 42,000")))
           "notes.TXT" [inr "Revenue: 42,000"; inr ""]
           (upload_response "notes_1700000000.txt" ("Revenue: 42,000" ++ nl ++ nl))).
  reflexivity.
Defined.

Lemma not_in_core (ev : api_event) (t : list event) :
  is_core ev = false -> ~ In ev (map Core t).
Proof.
  intros Hev Hin. apply in_map_iff in Hin. destruct Hin as (x & <- & _).
  discriminate.
Qed.

Lemma not_in_copy (aw : ApiWorld) (tmp : string) (reads : list (exn + string))
    (src dst : string) :
  ~ In (ApiMove src dst) (snd (copy_chunks aw tmp reads 0)).
Proof.
  destruct (copy_chunks_written aw tmp reads 0 ltac:(discriminate))
    as (_ & Hm & _).
  intros Hin.
  assert (H : existsb is_move (snd (copy_chunks aw tmp reads 0)) = true).
  { apply existsb_exists. exists (ApiMove src dst). split; [exact Hin | reflexivity]. }
  congruence.
Qed.

(** X24. A file that was moved into the upload directory and is still
    there stays only if the upload succeeds: when the endpoint answers
    with an error, it has asked for the stored file to be removed. *)
Theorem failed_upload_removes_file (aw : ApiWorld) (name : string)
    (reads : list (exn + string)) (src dst : string) (h : HTTPException) :
  In (ApiMove src dst) (snd (upload_file aw name reads)) ->
  move aw src dst = inr tt ->
  path_exists (core aw) dst = true ->
  fst (upload_file aw name reads) = inl h ->
  In (ApiRemove dst) (snd (upload_file aw name reads))
  /\ status_code h = 500.
Proof.
  unfold upload_file, upload_failure. cbv zeta.
  destruct (in_list _ api_supported_extensions) eqn:Hext; cbn [negb];
    [| intros []].
  destruct (temp_name aw) as [e | tmp]; estep; [intros [H | []]; discriminate |].
  pose proof (not_in_copy aw tmp reads src dst) as Hcopy.
  destruct (copy_chunks aw tmp reads 0) as [[[h' | e] | []] tc]; estep;
    cbn [snd] in Hcopy;
    try (cbn [app]; intros [H | H]; [discriminate | contradiction]).
  match goal with
  | |- context [move aw ?a ?b] => set (path := b)
  end.
  intros Hin Hmove Hex.
  assert (Hdst : src = tmp /\ dst = path).
  { revert Hin. destruct (move aw tmp path) as [e' | []]; estep.
    - cbn [app]. intros [H | H]; [discriminate |].
      apply in_app_or in H. destruct H as [H | [H | []]]; [contradiction |].
      now injection H as <- <-.
    - destruct (extract_upload_trace aw path) as [te Hte].
      destruct (extract_upload aw path) as [[e | r] t]; cbn [snd] in Hte; subst t;
        estep.
      + destruct (path_exists (core aw) path); estep;
          [destruct (remove aw path) as [? | []]; estep |];
          cbn [app]; (intros [H | H]; [discriminate |]);
          apply in_app_or in H; (destruct H as [H | H]; [contradiction |]);
          (destruct H as [H | H]; [now injection H as <- <- |]);
          apply in_app_or in H; destruct H as [H | H];
          try (exfalso; revert H; apply not_in_core; reflexivity);
          cbn in H; intuition discriminate.
      + cbn [app]. intros [H | H]; [discriminate |].
        apply in_app_or in H. destruct H as [H | H]; [contradiction |].
        destruct H as [H | H]; [now injection H as <- <- |].
        rewrite app_nil_r in H. exfalso. revert H. apply not_in_core. reflexivity. }
  destruct Hdst as [-> ->]. clear Hin. rewrite Hmove. estep.
  destruct (extract_upload aw path) as [[e | r] t]; estep; [| discriminate].
  rewrite Hex. estep.
  destruct (remove aw path) as [e' | []]; estep; intros [= <-];
    (split; [| reflexivity]); cbn [app In];
    rewrite !in_app_iff; cbn [In]; do 3 right;
    apply in_or_app; right; cbn [In]; auto.
Qed.

Lemma failed_upload_removes_file_witness :
  In (ApiRemove "/srv/uploads/short_1700000000.txt")
    (snd (upload_file (sample_api_world (plain_world (Some "gsk") (inr "hi")))
            "short.txt" [inr "hi"]))
  /\ status_code
       {| status_code := 500;
          detail := "Error processing file: The document appears to be empty or contains no extractable text content" |}
     = 500.
Proof.
  apply (failed_upload_removes_file
           (sample_api_world (plain_world (Some "gsk") (inr "hi")))
           "short.txt" [inr "hi"] "/tmp/tmpk3x9" "/srv/uploads/short_1700000000.txt").
  - vm_compute. auto 10.
  - reflexivity.
  - reflexivity.
  - reflexivity.
Defined.

(** X25. A failed extraction does not fail the upload. When the stored
    file exists and the dispatcher raises [e] on it, the endpoint
    answers with success, and the content of the response is the error
    message of [run]. *)
Theorem upload_returns_error_text (aw : ApiWorld) (name : string)
    (reads : list (exn + string)) (tmp : string) (e : exn) :
  let file_ext := lower (snd (splitext (core aw) name)) in
  let unique_filename :=
    fst (splitext (core aw) name) ++ "_" ++ timestamp aw ++ file_ext in
  let path := path_join (core aw) [upload_dir aw; unique_filename] in
  in_list file_ext api_supported_extensions = true ->
  temp_name aw = inr tmp ->
  fst (copy_chunks aw tmp reads 0) = inr tt ->
  move aw tmp path = inr tt ->
  path <> "" ->
  path_exists (core aw) path = true ->
  outcome (dispatch (core aw) (initial_state raw_content_request (Some path) None))
  = inl e ->
  fst (upload_file aw name reads)
  = inr (upload_response unique_filename
           ("Error processing document: Error processing document: " ++ exn_msg e)).
Proof.
  cbv zeta. intros Hext Htmp Hcopy Hmove Hne Hex Hd.
  destruct (run_extraction_error (core aw) raw_content_request _ None e
              eq_refl Hne Hex Hd) as [Hrun _].
  unfold upload_file. cbv zeta. rewrite Hext, Htmp. cbn [negb].
  set (unique := fst (splitext (core aw) name) ++ "_" ++ timestamp aw
                 ++ lower (snd (splitext (core aw) name))) in *.
  set (path := path_join (core aw) [upload_dir aw; unique]) in *.
  estep.
  destruct (copy_chunks aw tmp reads 0) as [[[h | e'] | []] tc];
    cbn [fst] in Hcopy; try discriminate.
  estep. rewrite Hmove. estep. unfold extract_upload.
  set (msg := "Error processing document: Error processing document: " ++ exn_msg e)
    in *.
  assert (Hlen : 54 <= len msg).
  { unfold msg. rewrite len_append.
    change (len "Error processing document: Error processing document: ") with 54.
    pose proof (len_nonneg (exn_msg e)). lia. }
  assert (Hnb : nonblank msg = true).
  { unfold msg. rewrite nonblank_append. reflexivity. }
  assert (Hem : is_empty msg = false) by reflexivity.
  clearbody msg.
  destruct (run (core aw) raw_content_request _ None) as [[e' | s] t];
    cbn [outcome fst] in Hrun; [discriminate |].
  injection Hrun as ->. estep.
  rewrite Hem. cbn [orb].
  destruct (Z.ltb_spec (len msg) 20); [lia |]. estep.
  rewrite Hem, Hnb. cbn [orb negb].
  destruct (Z.ltb_spec (len msg) 10); [lia |].
  reflexivity.
Qed.

Lemma upload_returns_error_text_witness :
  fst (upload_file (sample_api_world (plain_world (Some "gsk") unavailable))
         "notes.txt" [inr "Revenue: 42,000"])
  = inr (upload_response "notes_1700000000.txt"
           ("Error processing document: Error processing document: "
            ++ "Error processing text file: unavailable")).
Proof.
  apply (upload_returns_error_text
           (sample_api_world (plain_world (Some "gsk") unavailable))
           "notes.txt" [inr "Revenue: 42,000"] "/tmp/tmpk3x9"
           (Exn ValueError "Error processing text file: unavailable"));
    try reflexivity.
  discriminate.
Defined.

(** ** The chat endpoint *)

(** X26. Content that comes with the question reaches the agent only
    when, trimmed, it has at least 50 characters: blank content is a
    400, shorter content a 500, and in both cases nothing is asked of
    the outside. *)
Theorem chat_rejects_short_content (aw : ApiWorld) (q c : string) :
  q <> "" ->
  c <> "" ->
  len (strip c) < 50 ->
  chat aw q (Some c)
  = (inl (if is_empty (strip c)
          then {| status_code := 400;
                  detail := "The document content is empty. Please try uploading the file again." |}
          else {| status_code := 500;
                  detail := "Error processing content: The document content is too short to process. Please upload a valid document." |}),
     []).
Proof.
  intros Hq Hc Hlen. unfold chat.
  destruct q as [| a q]; [congruence |]. cbn [is_empty].
  destruct c as [| b c]; [congruence |]. cbn [truthy is_empty negb or_default].
  destruct (is_empty (strip (String b c))); [reflexivity |].
  apply Z.ltb_lt in Hlen. rewrite Hlen. reflexivity.
Qed.

Lemma chat_rejects_short_content_witness :
  chat (sample_api_world (plain_world (Some "gsk") unavailable))
    "What is the revenue?" (Some "  Revenue: 42,000  ")
  = (inl {| status_code := 500;
            detail := "Error processing content: The document content is too short to process. Please upload a valid document." |},
     []).
Proof.
  apply (chat_rejects_short_content
           (sample_api_world (plain_world (Some "gsk") unavailable))
           "What is the revenue?" "  Revenue: 42,000  ").
  - discriminate.
  - discriminate.
  - vm_compute. reflexivity.
Defined.




(** X28. A successful answer of the chat endpoint has the status
    ["success"] and an answer that is not empty, and was given to a
    question that is not empty. *)
Theorem chat_success_response (aw : ApiWorld) (q : string)
    (file_content : option string) (r : ChatResponse) :
  fst (chat aw q file_content) = inr r ->
  chat_status r = "success"
  /\ is_empty (chat_answer r) = false
  /\ is_empty q = false.
Proof.
  unfold chat. destruct (is_empty q); [discriminate |].
  destruct (truthy file_content).
  - destruct (is_empty (strip (or_default file_content ""))); [discriminate |].
    destruct (len (strip (or_default file_content "")) <? 50); [discriminate |].
    destruct (run_returns (core aw) q None
                (Some (strip (or_default file_content "")))) as (s & Hs & Hne).
    destruct (run (core aw) q None (Some (strip (or_default file_content ""))))
      as [[e | a] t]; cbn [outcome fst] in Hs; [discriminate |].
    injection Hs as ->. estep. intros [= <-]. repeat split. exact Hne.
  - estep.
    destruct (listdir aw (upload_dir aw)) as [e | names]; estep; [discriminate |].
    destruct (regular_files aw names) as [[[h | e] | files] t1]; estep;
      try discriminate.
    destruct files as [| f files]; [discriminate |].
    destruct (latest_file aw (f :: files)) as [[[h | e] | latest] t2]; estep;
      try discriminate.
    match goal with
    | |- context [run (core aw) q (Some ?p) None] =>
        destruct (run_returns (core aw) q (Some p) None) as (s & Hs & Hne);
        destruct (run (core aw) q (Some p) None) as [[e | a] t]
    end; cbn [outcome fst] in Hs; [discriminate |].
    injection Hs as ->. estep. intros [= <-]. repeat split. exact Hne.
Qed.

Lemma chat_success_response_witness :
  chat_status {| chat_status := "success"; chat_answer := "The revenue is 42,000." |}
  = "success"
  /\ is_empty (chat_answer {| chat_status := "success";
                              chat_answer := "The revenue is 42,000." |}) = false
  /\ is_empty "What is the revenue?" = false.
Proof.
  apply (chat_success_response
           (sample_api_world (plain_world (Some "gsk") (inr "Revenue: 42,000")))
           "What is the revenue?" None).
  reflexivity.
Defined.
(** ** The two start-up routines *)

Lemma start_up_locations (w : World) (dirname : string -> string)
    (pathsep : string) (locations : list string) :
  path_exists w "" = false ->
  outcome (ensure_location w dirname pathsep locations)
  = inr (truthy (find (path_exists w) locations))
  /\ outcome (configure_location w locations) = inr (find (path_exists w) locations)
  /\ filter is_pandoc_setting (trace (ensure_location w dirname pathsep locations))
     = match find (path_exists w) locations with
       | Some l => [EvSetenv "PYPANDOC_PANDOC" l]
       | None => []
       end
  /\ filter is_pandoc_setting (trace (configure_location w locations)) = [].
Proof.
  intros Hempty. induction locations as [| l rest IH].
  - repeat split.
  - cbn [ensure_location configure_location find]. step.
    destruct (path_exists w l) eqn:Hex; step.
    + destruct l as [| c l]; [congruence |]. repeat split.
    + destruct IH as (H1 & H2 & H3 & H4).
      destruct (ensure_location w dirname pathsep rest) as [[e | b] t1];
        cbn [outcome trace fst snd] in *; [discriminate |].
      destruct (configure_location w rest) as [[e | o] t2];
        cbn [outcome trace fst snd] in *; [discriminate |].
      injection H1 as ->. injection H2 as ->. step.
      cbn [filter is_pandoc_setting]. repeat split; assumption.
Qed.

(** X29. The start-up routine of main.py and the one of the backend
    package find the same converter: they return the same answer and
    record the same path for pypandoc, the one on the PATH if there is
    one, else the first install location that exists. *)
Theorem start_up_routines_agree (w : World) (dirname : string -> string)
    (pathsep : string) :
  path_exists w "" = false ->
  let found :=
    if truthy (which w "pandoc") then which w "pandoc"
    else find (path_exists w) (possible_locations w) in
  outcome (ensure_pandoc_available w dirname pathsep) = inr (truthy found)
  /\ outcome (configure_pandoc w dirname pathsep) = inr (truthy found)
  /\ filter is_pandoc_setting (trace (ensure_pandoc_available w dirname pathsep))
     = filter is_pandoc_setting (trace (configure_pandoc w dirname pathsep))
  /\ filter is_pandoc_setting (trace (configure_pandoc w dirname pathsep))
     = match found with
       | Some l => if is_empty l then [] else [EvSetenv "PYPANDOC_PANDOC" l]
       | None => []
       end.
Proof.
  intros Hempty. cbv zeta.
  unfold ensure_pandoc_available, configure_pandoc. step.
  destruct (which w "pandoc") as [[| c p] |] eqn:Hwhich; cbn [truthy is_empty negb].
  1, 3: destruct (start_up_locations w dirname pathsep (possible_locations w) Hempty)
          as (H1 & H2 & H3 & H4);
        destruct (ensure_location w dirname pathsep (possible_locations w))
          as [[e | b] t1]; cbn [outcome trace fst snd] in *; [discriminate |];
        destruct (configure_location w (possible_locations w)) as [[e | o] t2];
          cbn [outcome trace fst snd] in *; [discriminate |];
        injection H1 as ->; injection H2 as ->; step;
        (destruct (find (path_exists w) (possible_locations w)) as [l |] eqn:Hfind;
         [apply find_some in Hfind; destruct Hfind as [_ Hl];
          destruct l as [| a l]; [congruence |];
          cbn [truthy is_empty negb or_default]; step;
          match goal with
          | |- context [contains ?a ?b] => destruct (contains a b)
          end; step
         | cbn [truthy]; step]);
        cbn [filter is_pandoc_setting String.eqb Ascii.eqb Bool.eqb andb app];
        rewrite ?filter_app, ?H3, ?H4;
        cbn [filter is_pandoc_setting String.eqb Ascii.eqb Bool.eqb andb app];
        repeat split; reflexivity.
  cbn [or_default]. step.
  match goal with
  | |- context [contains ?a ?b] => destruct (contains a b)
  end; step; repeat split; reflexivity.
Qed.

Lemma start_up_routines_agree_witness :
  outcome (ensure_pandoc_available
             (pandoc_world unavailable unavailable unavailable unavailable)
             (fun _ => "/opt/bin") ":") = inr true
  /\ outcome (configure_pandoc
                (pandoc_world unavailable unavailable unavailable unavailable)
                (fun _ => "/opt/bin") ":") = inr true
  /\ filter is_pandoc_setting
       (trace (ensure_pandoc_available
                 (pandoc_world unavailable unavailable unavailable unavailable)
                 (fun _ => "/opt/bin") ":"))
     = filter is_pandoc_setting
         (trace (configure_pandoc
                   (pandoc_world unavailable unavailable unavailable unavailable)
                   (fun _ => "/opt/bin") ":"))
  /\ filter is_pandoc_setting
       (trace (configure_pandoc
                 (pandoc_world unavailable unavailable unavailable unavailable)
                 (fun _ => "/opt/bin") ":"))
     = [EvSetenv "PYPANDOC_PANDOC" "/opt/bin/pandoc"].
Proof.
  apply (start_up_routines_agree
           (pandoc_world unavailable unavailable unavailable unavailable)
           (fun _ => "/opt/bin") ":").
  reflexivity.
Defined.
